(** * RenderQ coordinator: store, dispatcher, scheduler and HTTP handlers

    A shallow embedding of the coordinator side of RenderQ
    ([src/core/models.py], [src/src/core/database.py],
    [src/src/core/scheduler.py], [src/src/server/main.py]) together with
    the properties of the specification that concern it.

    Modelling conventions.
    - The three SQLite tables are lists of rows in rowid (insertion) order;
      [ORDER BY] is a stable sort of the scanned rows, so ties are resolved
      in table order.
    - [datetime] values are integers (microseconds); every operation that
      reads the clock receives the reading as its argument [now].
    - [REAL] columns and Python floats (progress, cpu usage) are idealised
      as exact rationals.
    - [uuid.uuid4()] is an argument: the identifier the call would draw.
    - Opaque JSON mappings (plugin_data, metadata, environment) are
      association lists of strings; the coordinator never inspects them
      in the code modelled here.
    - Event emission and logging have no effect on the store and are left
      out.  Requests and scheduler passes are served one after the other:
      each handler is a function from the store to a reply and a store, and
      reads the clock once.

    Beside the coordinator, the file embeds the partitioning and the
    progress parsing of the After Effects plugin
    ([src/src/plugins/aftereffects.py]), the progress parsing of the agent
    ([src/src/worker/agent.py]), the WebSocket connection list of the
    server, the event bus ([src/src/core/events.py]) and the plugin
    registry ([src/plugins/registry.py]).  There, objects compared by
    identity (WebSockets, handlers) are numbers, and what the environment
    decides (whether a send raises, what a regular expression finds in a
    line) is an argument. *)

From stdpp Require Import base decidable option list strings pretty gmap.
From Stdlib Require Import ZArith QArith Qminmax Lia Sorted.

Open Scope Z_scope.

(** ** Enumerations ([src/core/models.py]) *)

Module JobStatus.
Inductive t := PENDING | QUEUED | ACTIVE | COMPLETED | FAILED | SUSPENDED | CANCELLED.
#[global] Instance eq_dec : EqDecision t.
Proof. solve_decision. Defined.
End JobStatus.

Module TaskStatus.
Inductive t := PENDING | ASSIGNED | RUNNING | COMPLETED | FAILED.
#[global] Instance eq_dec : EqDecision t.
Proof. solve_decision. Defined.
End TaskStatus.

Module WorkerStatus.
Inductive t := IDLE | BUSY | OFFLINE | DISABLED.
#[global] Instance eq_dec : EqDecision t.
Proof. solve_decision. Defined.
End WorkerStatus.

(** Timestamps and opaque payloads. *)
Definition datetime := Z.
Definition payload := list (string * string).

(** Python truthiness of an optional string: [None] and the empty string
  are falsy. *)
Definition truthy (o : option string) : bool :=
match o with
| Some s => negb (bool_decide (s = ""))
| None => false
end.

(** ** Records ([src/core/models.py]) *)

Module Job.
Record t := mk {
  id : string;
  name : string;
  plugin : string;
  priority : Z;
  pool : string;
  plugin_data : payload;
  status : JobStatus.t;
  progress : Q;
  task_total : Z;
  task_completed : Z;
  task_failed : Z;
  dependent_on : list string;
  metadata : payload;
  submitted_by : option string;
  submitted_at : datetime;
  started_at : option datetime;
  finished_at : option datetime;
  error_message : option string
}.

Definition set_priority (v : Z) (j : t) : t :=
  mk (id j) (name j) (plugin j) v (pool j) (plugin_data j) (status j)
     (progress j) (task_total j) (task_completed j) (task_failed j)
     (dependent_on j) (metadata j) (submitted_by j) (submitted_at j)
     (started_at j) (finished_at j) (error_message j).
Definition set_status (v : JobStatus.t) (j : t) : t :=
  mk (id j) (name j) (plugin j) (priority j) (pool j) (plugin_data j) v
     (progress j) (task_total j) (task_completed j) (task_failed j)
     (dependent_on j) (metadata j) (submitted_by j) (submitted_at j)
     (started_at j) (finished_at j) (error_message j).
Definition set_progress (v : Q) (j : t) : t :=
  mk (id j) (name j) (plugin j) (priority j) (pool j) (plugin_data j) (status j)
     v (task_total j) (task_completed j) (task_failed j)
     (dependent_on j) (metadata j) (submitted_by j) (submitted_at j)
     (started_at j) (finished_at j) (error_message j).
Definition set_task_total (v : Z) (j : t) : t :=
  mk (id j) (name j) (plugin j) (priority j) (pool j) (plugin_data j) (status j)
     (progress j) v (task_completed j) (task_failed j)
     (dependent_on j) (metadata j) (submitted_by j) (submitted_at j)
     (started_at j) (finished_at j) (error_message j).
Definition set_task_completed (v : Z) (j : t) : t :=
  mk (id j) (name j) (plugin j) (priority j) (pool j) (plugin_data j) (status j)
     (progress j) (task_total j) v (task_failed j)
     (dependent_on j) (metadata j) (submitted_by j) (submitted_at j)
     (started_at j) (finished_at j) (error_message j).
Definition set_task_failed (v : Z) (j : t) : t :=
  mk (id j) (name j) (plugin j) (priority j) (pool j) (plugin_data j) (status j)
     (progress j) (task_total j) (task_completed j) v
     (dependent_on j) (metadata j) (submitted_by j) (submitted_at j)
     (started_at j) (finished_at j) (error_message j).
Definition set_started_at (v : option datetime) (j : t) : t :=
  mk (id j) (name j) (plugin j) (priority j) (pool j) (plugin_data j) (status j)
     (progress j) (task_total j) (task_completed j) (task_failed j)
     (dependent_on j) (metadata j) (submitted_by j) (submitted_at j)
     v (finished_at j) (error_message j).
Definition set_finished_at (v : option datetime) (j : t) : t :=
  mk (id j) (name j) (plugin j) (priority j) (pool j) (plugin_data j) (status j)
     (progress j) (task_total j) (task_completed j) (task_failed j)
     (dependent_on j) (metadata j) (submitted_by j) (submitted_at j)
     (started_at j) v (error_message j).
Definition set_error_message (v : option string) (j : t) : t :=
  mk (id j) (name j) (plugin j) (priority j) (pool j) (plugin_data j) (status j)
     (progress j) (task_total j) (task_completed j) (task_failed j)
     (dependent_on j) (metadata j) (submitted_by j) (submitted_at j)
     (started_at j) (finished_at j) v.
End Job.

Module Task.
Record t := mk {
  id : string;
  job_id : string;
  index : Z;
  status : TaskStatus.t;
  progress : Q;
  command : list string;
  working_dir : option string;
  environment : payload;
  frame_start : option Z;
  frame_end : option Z;
  metadata : payload;
  assigned_worker : option string;
  started_at : option datetime;
  finished_at : option datetime;
  exit_code : option Z;
  error_message : option string;
  log_path : option string
}.

Definition set_status (v : TaskStatus.t) (x : t) : t :=
  mk (id x) (job_id x) (index x) v (progress x) (command x) (working_dir x)
     (environment x) (frame_start x) (frame_end x) (metadata x)
     (assigned_worker x) (started_at x) (finished_at x) (exit_code x)
     (error_message x) (log_path x).
Definition set_progress (v : Q) (x : t) : t :=
  mk (id x) (job_id x) (index x) (status x) v (command x) (working_dir x)
     (environment x) (frame_start x) (frame_end x) (metadata x)
     (assigned_worker x) (started_at x) (finished_at x) (exit_code x)
     (error_message x) (log_path x).
Definition set_assigned_worker (v : option string) (x : t) : t :=
  mk (id x) (job_id x) (index x) (status x) (progress x) (command x) (working_dir x)
     (environment x) (frame_start x) (frame_end x) (metadata x)
     v (started_at x) (finished_at x) (exit_code x)
     (error_message x) (log_path x).
Definition set_started_at (v : option datetime) (x : t) : t :=
  mk (id x) (job_id x) (index x) (status x) (progress x) (command x) (working_dir x)
     (environment x) (frame_start x) (frame_end x) (metadata x)
     (assigned_worker x) v (finished_at x) (exit_code x)
     (error_message x) (log_path x).
Definition set_finished_at (v : option datetime) (x : t) : t :=
  mk (id x) (job_id x) (index x) (status x) (progress x) (command x) (working_dir x)
     (environment x) (frame_start x) (frame_end x) (metadata x)
     (assigned_worker x) (started_at x) v (exit_code x)
     (error_message x) (log_path x).
Definition set_exit_code (v : option Z) (x : t) : t :=
  mk (id x) (job_id x) (index x) (status x) (progress x) (command x) (working_dir x)
     (environment x) (frame_start x) (frame_end x) (metadata x)
     (assigned_worker x) (started_at x) (finished_at x) v
     (error_message x) (log_path x).
Definition set_error_message (v : option string) (x : t) : t :=
  mk (id x) (job_id x) (index x) (status x) (progress x) (command x) (working_dir x)
     (environment x) (frame_start x) (frame_end x) (metadata x)
     (assigned_worker x) (started_at x) (finished_at x) (exit_code x)
     v (log_path x).
End Task.

Module Worker.
Record t := mk {
  id : string;
  name : string;
  hostname : string;
  ip_address : string;
  status : WorkerStatus.t;
  current_task : option string;
  pools : list string;
  capabilities : list string;
  cpu_cores : Z;
  cpu_usage : Q;
  memory_total : Z;
  memory_used : Z;
  last_heartbeat : option datetime;
  version : string
}.

Definition set_status (v : WorkerStatus.t) (w : t) : t :=
  mk (id w) (name w) (hostname w) (ip_address w) v (current_task w)
     (pools w) (capabilities w) (cpu_cores w) (cpu_usage w)
     (memory_total w) (memory_used w) (last_heartbeat w) (version w).
Definition set_current_task (v : option string) (w : t) : t :=
  mk (id w) (name w) (hostname w) (ip_address w) (status w) v
     (pools w) (capabilities w) (cpu_cores w) (cpu_usage w)
     (memory_total w) (memory_used w) (last_heartbeat w) (version w).
End Worker.

(** ** Tables keyed by a TEXT PRIMARY KEY *)

Class Keyed (A : Type) := key : A → string.
#[global] Instance job_keyed : Keyed Job.t := Job.id.
#[global] Instance task_keyed : Keyed Task.t := Task.id.
#[global] Instance worker_keyed : Keyed Worker.t := Worker.id.

Section Table.
Context {A : Type} `{Keyed A}.

(** [SELECT * FROM tbl WHERE id = ?] followed by [fetchone()]. *)
Fixpoint fetchone (k : string) (tbl : list A) : option A :=
  match tbl with
  | [] => None
  | r :: rest => if decide (key r = k) then Some r else fetchone k rest
  end.

(** [UPDATE tbl SET ... WHERE id = ?]: [f] rewrites the columns. *)
Definition update_where (k : string) (f : A → A) (tbl : list A) : list A :=
  (λ r, if decide (key r = k) then f r else r) <$> tbl.

(** [INSERT INTO tbl ...]: the primary key must be new, otherwise
    sqlite3 raises IntegrityError ([None]). *)
Definition insert_row (r : A) (tbl : list A) : option (list A) :=
  match fetchone (key r) tbl with
  | Some _ => None
  | None => Some (tbl ++ [r])
  end.

(** [DELETE FROM tbl WHERE id = ?]. *)
Definition delete_where (k : string) (tbl : list A) : list A :=
  filter (λ r, key r ≠ k) tbl.

(** Stable insertion sort, the model of [ORDER BY]. *)
Fixpoint insert_by (le : A → A → bool) (x : A) (l : list A) : list A :=
  match l with
  | [] => [x]
  | y :: ys => if le x y then x :: y :: ys else y :: insert_by le x ys
  end.

Definition order_by (le : A → A → bool) (l : list A) : list A :=
  foldr (insert_by le) [] l.
End Table.

(** ** The store ([src/src/core/database.py]) *)

Module Database.

Record t := mk {
  jobs : list Job.t;
  tasks : list Task.t;
  workers : list Worker.t
}.

Definition empty : t := mk [] [] [].

Definition with_jobs (f : list Job.t → list Job.t) (db : t) : t :=
  mk (f (jobs db)) (tasks db) (workers db).
Definition with_tasks (f : list Task.t → list Task.t) (db : t) : t :=
  mk (jobs db) (f (tasks db)) (workers db).
Definition with_workers (f : list Worker.t → list Worker.t) (db : t) : t :=
  mk (jobs db) (tasks db) (f (workers db)).

(** *** Jobs *)

(** [add_job]: [None] stands for the IntegrityError of a duplicate id. *)
Definition add_job (job : Job.t) (db : t) : option t :=
  (λ js, mk js (tasks db) (workers db)) <$> insert_row job (jobs db).

Definition get_job (job_id : string) (db : t) : option Job.t :=
  fetchone job_id (jobs db).

(** [ORDER BY priority DESC, submitted_at ASC]. *)
Definition job_le (a b : Job.t) : bool :=
  if Job.priority b <? Job.priority a then true
  else if Job.priority a <? Job.priority b then false
  else Job.submitted_at a <=? Job.submitted_at b.

Definition get_jobs_by_status (status : JobStatus.t) (db : t) : list Job.t :=
  order_by job_le (filter (λ j, Job.status j = status) (jobs db)).

(** [update_job] rewrites every column except id, submitted_by and
    submitted_at. *)
Definition job_columns (job r : Job.t) : Job.t :=
  Job.mk (Job.id r) (Job.name job) (Job.plugin job) (Job.priority job)
    (Job.pool job) (Job.plugin_data job) (Job.status job) (Job.progress job)
    (Job.task_total job) (Job.task_completed job) (Job.task_failed job)
    (Job.dependent_on job) (Job.metadata job) (Job.submitted_by r)
    (Job.submitted_at r) (Job.started_at job) (Job.finished_at job)
    (Job.error_message job).

Definition update_job (job : Job.t) (db : t) : t :=
  with_jobs (update_where (Job.id job) (job_columns job)) db.

Definition update_job_status (job_id : string) (status : JobStatus.t)
    (error_message : option string) (now : datetime) (db : t) : t :=
  match status with
  | JobStatus.ACTIVE =>
      with_jobs (update_where job_id
        (λ r, Job.set_started_at (Some now) (Job.set_status status r))) db
  | JobStatus.COMPLETED | JobStatus.FAILED | JobStatus.CANCELLED =>
      with_jobs (update_where job_id
        (λ r, Job.set_error_message error_message
                (Job.set_finished_at (Some now) (Job.set_status status r)))) db
  | _ =>
      with_jobs (update_where job_id (Job.set_status status)) db
  end.

(** [delete_job] removes the Tasks of the Job, then the Job. *)
Definition delete_job (job_id : string) (db : t) : t :=
  mk (delete_where job_id (jobs db))
     (filter (λ x, Task.job_id x ≠ job_id) (tasks db))
     (workers db).

(** *** Tasks *)

Definition add_task (task : Task.t) (db : t) : option t :=
  (λ ts, mk (jobs db) ts (workers db)) <$> insert_row task (tasks db).

Definition get_task (task_id : string) (db : t) : option Task.t :=
  fetchone task_id (tasks db).

(** [ORDER BY idx]. *)
Definition task_le (a b : Task.t) : bool := Task.index a <=? Task.index b.

Definition get_tasks_by_job (job_id : string) (db : t) : list Task.t :=
  order_by task_le (filter (λ x, Task.job_id x = job_id) (tasks db)).

(** [tasks t JOIN jobs j ON t.job_id = j.id]. *)
Definition join_jobs (db : t) : list (Task.t * Job.t) :=
  omap (λ x, (λ j, (x, j)) <$> get_job (Task.job_id x) db) (tasks db).

(** [ORDER BY j.priority DESC, j.submitted_at ASC, t.idx ASC]. *)
Definition join_le (a b : Task.t * Job.t) : bool :=
  if Job.priority b.2 <? Job.priority a.2 then true
  else if Job.priority a.2 <? Job.priority b.2 then false
  else if Job.submitted_at a.2 <? Job.submitted_at b.2 then true
  else if Job.submitted_at b.2 <? Job.submitted_at a.2 then false
  else Task.index a.1 <=? Task.index b.1.

(** The [WHERE] clause of the dispatch query. *)
Definition dispatchable (worker : Worker.t) (r : Task.t * Job.t) : Prop :=
  Task.status r.1 = TaskStatus.PENDING
  ∧ (Job.status r.2 = JobStatus.QUEUED ∨ Job.status r.2 = JobStatus.ACTIVE)
  ∧ Job.pool r.2 ∈ Worker.pools worker.

#[global] Instance dispatchable_dec worker r : Decision (dispatchable worker r).
Proof. unfold dispatchable. apply _. Defined.

Definition get_next_task_for_worker (worker : Worker.t) (db : t) : option Task.t :=
  fst <$> head (order_by join_le (filter (dispatchable worker) (join_jobs db))).

(** [update_task] rewrites status, progress, assigned_worker, started_at,
    finished_at, exit_code, error_message and log_path. *)
Definition task_columns (task r : Task.t) : Task.t :=
  Task.mk (Task.id r) (Task.job_id r) (Task.index r) (Task.status task)
    (Task.progress task) (Task.command r) (Task.working_dir r)
    (Task.environment r) (Task.frame_start r) (Task.frame_end r)
    (Task.metadata r) (Task.assigned_worker task) (Task.started_at task)
    (Task.finished_at task) (Task.exit_code task) (Task.error_message task)
    (Task.log_path task).

Definition update_task (task : Task.t) (db : t) : t :=
  with_tasks (update_where (Task.id task) (task_columns task)) db.

(** SQL [COALESCE(?, column)]. *)
Definition coalesce {A} (v col : option A) : option A :=
  match v with Some _ => v | None => col end.

Definition update_task_status (task_id : string) (status : TaskStatus.t)
    (started_at finished_at : option datetime) (exit_code : option Z)
    (error_message : option string) (db : t) : t :=
  with_tasks (update_where task_id (λ r,
    Task.set_error_message (coalesce error_message (Task.error_message r))
      (Task.set_exit_code (coalesce exit_code (Task.exit_code r))
        (Task.set_finished_at (coalesce finished_at (Task.finished_at r))
          (Task.set_started_at (coalesce started_at (Task.started_at r))
            (Task.set_status status r)))))) db.

Definition update_task_progress (task_id : string) (progress : Q) (db : t) : t :=
  with_tasks (update_where task_id (Task.set_progress progress)) db.

(** *** Workers *)

(** [INSERT ... ON CONFLICT(id) DO UPDATE SET] every other column. *)
Definition upsert_worker (worker : Worker.t) (db : t) : t :=
  match fetchone (Worker.id worker) (workers db) with
  | Some _ => with_workers (update_where (Worker.id worker) (λ _, worker)) db
  | None => with_workers (λ ws, ws ++ [worker]) db
  end.

Definition get_worker (worker_id : string) (db : t) : option Worker.t :=
  fetchone worker_id (workers db).

(** [ORDER BY name]. *)
Definition worker_le (a b : Worker.t) : bool :=
  String.leb (Worker.name a) (Worker.name b).

Definition get_workers (db : t) : list Worker.t :=
  order_by worker_le (workers db).

Definition get_workers_by_status (status : WorkerStatus.t) (db : t) : list Worker.t :=
  filter (λ w, Worker.status w = status) (workers db).

Definition update_worker (worker : Worker.t) (db : t) : t :=
  upsert_worker worker db.

(** The heartbeat payload, a JSON object whose keys may be absent. *)
Record heartbeat := mk_heartbeat {
  hb_status : option WorkerStatus.t;
  hb_current_task : option string;
  hb_cpu_usage : option Q;
  hb_memory_used : option Z
}.

Definition update_worker_heartbeat (worker_id : string) (hb : heartbeat)
    (now : datetime) (db : t) : t :=
  with_workers (update_where worker_id (λ r,
    Worker.mk (Worker.id r) (Worker.name r) (Worker.hostname r)
      (Worker.ip_address r)
      (default WorkerStatus.IDLE (hb_status hb))
      (hb_current_task hb)
      (Worker.pools r) (Worker.capabilities r) (Worker.cpu_cores r)
      (default 0%Q (hb_cpu_usage hb))
      (Worker.memory_total r)
      (default 0 (hb_memory_used hb))
      (Some now) (Worker.version r))) db.

Definition mark_worker_offline (worker_id : string) (db : t) : t :=
  with_workers (update_where worker_id (λ r,
    Worker.set_current_task None (Worker.set_status WorkerStatus.OFFLINE r))) db.

Definition delete_worker (worker_id : string) (db : t) : t :=
  with_workers (delete_where worker_id) db.

End Database.

(** ** The plugin contract ([src/src/plugins/base.py], [src/plugins/registry.py]) *)

Module RenderPlugin.

(** A follow-up descriptor: the dict returned by [get_encoding_jobs];
    every key is read with [dict.get] and a default. *)
Record job_data := mk_job_data {
  jd_name : option string;
  jd_plugin : option string;
  jd_priority : option Z;
  jd_pool : option string;
  jd_plugin_data : option payload;
  jd_dependent_on : option (list string);
  jd_metadata : option payload
}.

(** [create_tasks] and [get_encoding_jobs] may raise: [None].  The hook
    [get_encoding_jobs] is optional ([hasattr]). *)
Record t := mk {
  name : string;
  validate : payload → bool * option string;
  create_tasks : Job.t → option (list Task.t);
  get_encoding_jobs : option (Job.t → option (list job_data))
}.

End RenderPlugin.

(** [registry.get_all()]: plugin name to plugin. *)
Abbreviation registry := (gmap string RenderPlugin.t).

(** The number of rows of a list satisfying a predicate,
    [sum(1 for t in tasks if ...)]. *)
Definition count_status (s : TaskStatus.t) (tasks : list Task.t) : Z :=
  Z.of_nat (length (filter (λ x, Task.status x = s) tasks)).

(** ** The scheduler ([src/src/core/scheduler.py]) *)

Module Scheduler.

Definition worker_timeout : Z := 60.
Definition max_task_retries : Z := 3.

(** [timedelta(seconds=s)] in the unit of [datetime]. *)
Definition timedelta (seconds : Z) : Z := seconds * 1000000.

Definition _check_dependencies (job : Job.t) (db : Database.t) : bool :=
  forallb (λ dep_id,
    match Database.get_job dep_id db with
    | Some dep_job => bool_decide (Job.status dep_job = JobStatus.COMPLETED)
    | None => false
    end) (Job.dependent_on job).

(** The selection of the scheduler-side assignment path.  [start] no
    longer calls [_assign_tasks]; the function is still part of the
    class. *)
Definition _find_task_for_worker (worker : Worker.t) (db : Database.t) : option Task.t :=
  let capabilities := Worker.capabilities worker in
  let all_jobs :=
    order_by Database.job_le
      (Database.get_jobs_by_status JobStatus.QUEUED db
       ++ Database.get_jobs_by_status JobStatus.ACTIVE db) in
  head (filter (λ job, Job.pool job ∈ Worker.pools worker
                       ∧ (capabilities = [] ∨ Job.plugin job ∈ capabilities))
               all_jobs
        ≫= λ job, filter (λ x, Task.status x = TaskStatus.PENDING)
                     (Database.get_tasks_by_job (Job.id job) db)).

(** The Task object written back when its Worker timed out:
    [task.status = PENDING; task.assigned_worker = None]. *)
Definition requeue (task : Task.t) : Task.t :=
  Task.set_assigned_worker None (Task.set_status TaskStatus.PENDING task).

(** One iteration of the loop of [_check_worker_timeouts]. *)
Definition _check_worker_timeouts_body (now : datetime) (db : Database.t)
    (worker : Worker.t) : Database.t :=
  if decide (Worker.status worker = WorkerStatus.OFFLINE) then db
  else match Worker.last_heartbeat worker with
  | None => db
  | Some last_heartbeat =>
    if timedelta worker_timeout <? now - last_heartbeat then
      let db1 :=
        match Worker.current_task worker with
        | Some task_id =>
          if truthy (Worker.current_task worker) then
            match Database.get_task task_id db with
            | Some task =>
              if decide (Task.status task = TaskStatus.RUNNING) then
                Database.update_task (requeue task) db
              else db
            | None => db
            end
          else db
        | None => db
        end in
      Database.mark_worker_offline (Worker.id worker) db1
    else db
  end.

Definition _check_worker_timeouts (now : datetime) (db : Database.t) : Database.t :=
  foldl (_check_worker_timeouts_body now) db (Database.get_workers db).

(** The Job built by [_create_follow_up_jobs] from one descriptor. *)
Definition follow_up_job (job : Job.t) (d : RenderPlugin.job_data)
    (new_id : string) (now : datetime) : Job.t :=
  Job.mk new_id
    (default (Job.name job +:+ " - Encode") (RenderPlugin.jd_name d))
    (default "ffmpeg" (RenderPlugin.jd_plugin d))
    (default (Job.priority job) (RenderPlugin.jd_priority d))
    (default (Job.pool job) (RenderPlugin.jd_pool d))
    (default [] (RenderPlugin.jd_plugin_data d))
    JobStatus.PENDING 0%Q 0 0 0
    (default [] (RenderPlugin.jd_dependent_on d))
    (default [] (RenderPlugin.jd_metadata d))
    None now None None None.

(** The [for job_data in encoding_jobs] loop.  The state carries the
    number of identifiers drawn so far from [uuid4]; an IntegrityError of
    [add_job] leaves the loop (it is caught and logged by the caller). *)
Fixpoint add_follow_up_jobs (uuid4 : nat → string) (now : datetime)
    (job : Job.t) (encoding_jobs : list RenderPlugin.job_data)
    (st : nat * Database.t) : nat * Database.t :=
  match encoding_jobs with
  | [] => st
  | d :: rest =>
    match Database.add_job (follow_up_job job d (uuid4 st.1) now) st.2 with
    | Some db' => add_follow_up_jobs uuid4 now job rest (S st.1, db')
    | None => (S st.1, st.2)
    end
  end.

Definition _create_follow_up_jobs (plugins : registry) (uuid4 : nat → string)
    (now : datetime) (job : Job.t) (st : nat * Database.t) : nat * Database.t :=
  match plugins !! Job.plugin job with
  | None => st
  | Some plugin =>
    match RenderPlugin.get_encoding_jobs plugin with
    | None => st
    | Some get_encoding_jobs =>
      match get_encoding_jobs job with
      | None => st
      | Some encoding_jobs => add_follow_up_jobs uuid4 now job encoding_jobs st
      end
    end
  end.

(** The progress sum of [_update_job_progress]: 100 for a completed Task,
    the Task's own progress for a running one. *)
Definition progress_sum (tasks : list Task.t) : Q :=
  foldl (λ acc x,
    if decide (Task.status x = TaskStatus.COMPLETED) then (acc + 100)%Q
    else if decide (Task.status x = TaskStatus.RUNNING) then (acc + Task.progress x)%Q
    else acc) 0%Q tasks.

(** [completed + failed >= total] with [failed == 0]: the branch that
    completes the Job and creates its follow-up Jobs. *)
Definition all_completed (tasks : list Task.t) : bool :=
  (Z.of_nat (length tasks)
     <=? count_status TaskStatus.COMPLETED tasks + count_status TaskStatus.FAILED tasks)
  && (count_status TaskStatus.FAILED tasks =? 0).

(** The Job object written back by one iteration of
    [_update_job_progress] over the Tasks of the Job. *)
Definition aggregate (now : datetime) (tasks : list Task.t) (job : Job.t) : Job.t :=
  let completed := count_status TaskStatus.COMPLETED tasks in
  let failed := count_status TaskStatus.FAILED tasks in
  let total := Z.of_nat (length tasks) in
  let progress :=
    if 0 <? total then (progress_sum tasks / inject_Z total)%Q
    else progress_sum tasks in
  let job1 :=
    Job.set_task_failed failed
      (Job.set_task_completed completed (Job.set_progress progress job)) in
  if total <=? completed + failed then
    if failed =? 0 then
      Job.set_finished_at (Some now) (Job.set_status JobStatus.COMPLETED job1)
    else if (total <=? failed) || (max_task_retries <? failed) then
      Job.set_error_message (Some (pretty failed +:+ " tasks failed"))
        (Job.set_finished_at (Some now) (Job.set_status JobStatus.FAILED job1))
    else job1
  else job1.

(** One iteration of the loop of [_update_job_progress]. *)
Definition _update_job_progress_body (plugins : registry) (uuid4 : nat → string)
    (now : datetime) (st : nat * Database.t) (job : Job.t) : nat * Database.t :=
  let tasks := Database.get_tasks_by_job (Job.id job) st.2 in
  match tasks with
  | [] => st
  | _ :: _ =>
    let job' := aggregate now tasks job in
    let st' :=
      if all_completed tasks
      then _create_follow_up_jobs plugins uuid4 now job' st
      else st in
    (st'.1, Database.update_job job' st'.2)
  end.

Definition _update_job_progress (plugins : registry) (uuid4 : nat → string)
    (now : datetime) (db : Database.t) : Database.t :=
  (foldl (_update_job_progress_body plugins uuid4 now) (0%nat, db)
         (Database.get_jobs_by_status JobStatus.ACTIVE db)).2.

(** One pass of the loop of [start]. *)
Definition tick (plugins : registry) (uuid4 : nat → string)
    (now : datetime) (db : Database.t) : Database.t :=
  _update_job_progress plugins uuid4 now (_check_worker_timeouts now db).

(** *** Manual operations *)

Definition suspend_job (job_id : string) (now : datetime) (db : Database.t)
    : bool * Database.t :=
  match Database.get_job job_id db with
  | None => (false, db)
  | Some job =>
    if decide (Job.status job = JobStatus.PENDING ∨ Job.status job = JobStatus.QUEUED
               ∨ Job.status job = JobStatus.ACTIVE)
    then (true, Database.update_job_status job_id JobStatus.SUSPENDED None now db)
    else (false, db)
  end.

Definition resume_job (job_id : string) (now : datetime) (db : Database.t)
    : bool * Database.t :=
  match Database.get_job job_id db with
  | None => (false, db)
  | Some job =>
    if decide (Job.status job = JobStatus.SUSPENDED) then
      let tasks := Database.get_tasks_by_job job_id db in
      let has_pending :=
        existsb (λ x, bool_decide (Task.status x = TaskStatus.PENDING)) tasks in
      if has_pending
      then (true, Database.update_job_status job_id JobStatus.QUEUED None now db)
      else (true, Database.update_job_status job_id JobStatus.ACTIVE None now db)
    else (false, db)
  end.

Definition cancel_job (job_id : string) (now : datetime) (db : Database.t)
    : bool * Database.t :=
  match Database.get_job job_id db with
  | None => (false, db)
  | Some _ =>
    (true, Database.update_job_status job_id JobStatus.CANCELLED None now db)
  end.

(** The reset applied by [retry_job] to a failed Task. *)
Definition reset_task (task : Task.t) : Task.t :=
  Task.set_exit_code None
    (Task.set_error_message None
      (Task.set_assigned_worker None
        (Task.set_status TaskStatus.PENDING task))).

(** What [retry_job] makes of a Task row: a failed Task of the Job is
    reset, any other row is kept. *)
Definition retried (job_id : string) (x : Task.t) : Task.t :=
  if decide (Task.job_id x = job_id ∧ Task.status x = TaskStatus.FAILED)
  then reset_task x else x.

Definition retry_job_body (db : Database.t) (task : Task.t) : Database.t :=
  if decide (Task.status task = TaskStatus.FAILED)
  then Database.update_task (reset_task task) db
  else db.

Definition retry_job (job_id : string) (db : Database.t) : bool * Database.t :=
  match Database.get_job job_id db with
  | None => (false, db)
  | Some job =>
    if decide (Job.status job = JobStatus.FAILED) then
      let tasks := Database.get_tasks_by_job job_id db in
      let db1 := foldl retry_job_body db tasks in
      let job' :=
        Job.set_finished_at None
          (Job.set_error_message None
            (Job.set_task_failed 0
              (Job.set_status JobStatus.QUEUED job))) in
      (true, Database.update_job job' db1)
    else (false, db)
  end.

End Scheduler.

(** ** The HTTP handlers ([src/src/server/main.py]) *)

Module Server.

(** The outcome of a request: a body, an [HTTPException], or an exception
    that no handler catches. *)
Inductive reply (A : Type) :=
| Ok (body : A)
| HTTPException (status_code : Z) (detail : string)
| Raised.
Arguments Ok {A} body.
Arguments HTTPException {A} status_code detail.
Arguments Raised {A}.

Record JobSubmission := mk_submission {
  sub_name : string;
  sub_plugin : string;
  sub_priority : Z;
  sub_pool : string;
  sub_plugin_data : payload;
  sub_dependent_on : list string;
  sub_metadata : payload
}.

(** The [for task in tasks: db.add_task(task)] loop; [false] when an
    insertion raised. *)
Fixpoint add_tasks (tasks : list Task.t) (db : Database.t) : Database.t * bool :=
  match tasks with
  | [] => (db, true)
  | x :: rest =>
    match Database.add_task x db with
    | Some db' => add_tasks rest db'
    | None => (db, false)
    end
  end.

(** The [Job(...)] built by [submit_job]: status pending, no Tasks yet. *)
Definition new_job (submission : JobSubmission) (new_id : string)
    (now : datetime) : Job.t :=
  Job.mk new_id (sub_name submission) (sub_plugin submission)
    (sub_priority submission) (sub_pool submission)
    (sub_plugin_data submission) JobStatus.PENDING 0%Q 0 0 0
    (sub_dependent_on submission) (sub_metadata submission)
    None now None None None.

Definition submit_job (plugins : registry) (submission : JobSubmission)
    (new_id : string) (now : datetime) (db : Database.t)
    : reply Job.t * Database.t :=
  match plugins !! sub_plugin submission with
  | None =>
    (HTTPException 400 ("Unknown plugin: " +:+ sub_plugin submission), db)
  | Some plugin =>
    let '(valid, error) := RenderPlugin.validate plugin (sub_plugin_data submission) in
    if negb valid then
      (HTTPException 400 ("Plugin validation failed: " +:+ default "None" error), db)
    else
      let job := new_job submission new_id now in
      match Database.add_job job db with
      | None => (Raised, db)
      | Some db1 =>
        match RenderPlugin.create_tasks plugin job with
        | None =>
          (HTTPException 500 "Failed to create tasks",
           Database.delete_job (Job.id job) db1)
        | Some tasks =>
          match add_tasks tasks db1 with
          | (db2, false) =>
            (HTTPException 500 "Failed to create tasks",
             Database.delete_job (Job.id job) db2)
          | (db2, true) =>
            let job' :=
              Job.set_status JobStatus.QUEUED
                (Job.set_task_total (Z.of_nat (length tasks)) job) in
            (Ok job', Database.update_job job' db2)
          end
        end
      end
  end.

Definition suspend_job (job_id : string) (now : datetime) (db : Database.t)
    : reply string * Database.t :=
  let '(success, db') := Scheduler.suspend_job job_id now db in
  if success then (Ok "suspended", db')
  else (HTTPException 400 "Cannot suspend job", db').

Definition resume_job (job_id : string) (now : datetime) (db : Database.t)
    : reply string * Database.t :=
  let '(success, db') := Scheduler.resume_job job_id now db in
  if success then (Ok "resumed", db')
  else (HTTPException 400 "Cannot resume job", db').

Definition cancel_job (job_id : string) (now : datetime) (db : Database.t)
    : reply string * Database.t :=
  let '(success, db') := Scheduler.cancel_job job_id now db in
  if success then (Ok "cancelled", db')
  else (HTTPException 400 "Cannot cancel job", db').

Definition retry_job (job_id : string) (db : Database.t)
    : reply string * Database.t :=
  let '(success, db') := Scheduler.retry_job job_id db in
  if success then (Ok "retrying", db')
  else (HTTPException 400 "Cannot retry job", db').

Definition delete_job (job_id : string) (db : Database.t)
    : reply string * Database.t :=
  match Database.get_job job_id db with
  | None => (HTTPException 404 "Job not found", db)
  | Some job =>
    if decide (Job.status job = JobStatus.COMPLETED
               ∨ Job.status job = JobStatus.CANCELLED
               ∨ Job.status job = JobStatus.FAILED)
    then (Ok "deleted", Database.delete_job job_id db)
    else (HTTPException 400 "Cannot delete active job", db)
  end.

Definition update_job_priority (job_id : string) (priority : Z) (db : Database.t)
    : reply string * Database.t :=
  match Database.get_job job_id db with
  | None => (HTTPException 404 "Job not found", db)
  | Some job =>
    if (0 <=? priority) && (priority <=? 100)
    then (Ok "updated", Database.update_job (Job.set_priority priority job) db)
    else (HTTPException 400 "Priority must be 0-100", db)
  end.

(** *** Task reports *)

Definition task_started (task_id : string) (now : datetime) (db : Database.t)
    : reply unit * Database.t :=
  (Ok (), Database.update_task_status task_id TaskStatus.RUNNING
            (Some now) None None None db).

Definition task_progress (task_id : string) (progress : Q) (db : Database.t)
    : reply unit * Database.t :=
  (Ok (), Database.update_task_progress task_id progress db).

(** [if task.assigned_worker: ...]: the Worker of the Task goes back to
    idle. *)
Definition release_worker (task : Task.t) (db : Database.t) : Database.t :=
  match Task.assigned_worker task with
  | Some worker_id =>
    if truthy (Task.assigned_worker task) then
      match Database.get_worker worker_id db with
      | Some worker =>
        Database.update_worker
          (Worker.set_current_task None
             (Worker.set_status WorkerStatus.IDLE worker)) db
      | None => db
      end
    else db
  | None => db
  end.

(** [completed_count / job.task_total * 100 if job.task_total > 0 else 0]. *)
Definition completed_percent (completed_count task_total : Z) : Q :=
  if 0 <? task_total
  then (inject_Z completed_count / inject_Z task_total * 100)%Q
  else 0%Q.

Definition task_completed (task_id : string) (exit_code : Z) (now : datetime)
    (db : Database.t) : reply unit * Database.t :=
  match Database.get_task task_id db with
  | None => (HTTPException 404 "Task not found", db)
  | Some task =>
    let db1 :=
      Database.update_task_status task_id TaskStatus.COMPLETED
        None (Some now) (Some exit_code) None db in
    let db2 := release_worker task db1 in
    match Database.get_job (Task.job_id task) db2 with
    | None => (Ok (), db2)
    | Some job =>
      let all_tasks := Database.get_tasks_by_job (Task.job_id task) db2 in
      let completed_count := count_status TaskStatus.COMPLETED all_tasks in
      let failed_count := count_status TaskStatus.FAILED all_tasks in
      let job1 :=
        Job.set_progress (completed_percent completed_count (Job.task_total job))
          (Job.set_task_failed failed_count
            (Job.set_task_completed completed_count job)) in
      let job2 :=
        if Job.task_total job1 <=? completed_count + failed_count then
          Job.set_finished_at (Some now)
            (Job.set_status
               (if 0 <? failed_count then JobStatus.FAILED else JobStatus.COMPLETED)
               job1)
        else job1 in
      (Ok (), Database.update_job job2 db2)
    end
  end.

Definition task_failed (task_id : string) (exit_code : Z)
    (error_message : option string) (now : datetime) (db : Database.t)
    : reply unit * Database.t :=
  match Database.get_task task_id db with
  | None => (HTTPException 404 "Task not found", db)
  | Some task =>
    let db1 :=
      Database.update_task_status task_id TaskStatus.FAILED
        None (Some now) (Some exit_code) error_message db in
    let db2 := release_worker task db1 in
    match Database.get_job (Task.job_id task) db2 with
    | None => (Ok (), db2)
    | Some job =>
      let all_tasks := Database.get_tasks_by_job (Task.job_id task) db2 in
      let completed_count := count_status TaskStatus.COMPLETED all_tasks in
      let failed_count := count_status TaskStatus.FAILED all_tasks in
      let job1 :=
        Job.set_progress (completed_percent completed_count (Job.task_total job))
          (Job.set_task_failed failed_count
            (Job.set_task_completed completed_count job)) in
      let job2 :=
        if Job.task_total job1 <=? completed_count + failed_count then
          Job.set_error_message error_message
            (Job.set_finished_at (Some now)
              (Job.set_status JobStatus.FAILED job1))
        else job1 in
      (Ok (), Database.update_job job2 db2)
    end
  end.

(** [retry_task] writes [pending] with [update_task_status] and then the
    whole Task object it fetched before, with the columns it reset. *)
Definition retry_task (task_id : string) (db : Database.t)
    : reply unit * Database.t :=
  match Database.get_task task_id db with
  | None => (HTTPException 404 "Task not found", db)
  | Some task =>
    if decide (Task.status task = TaskStatus.FAILED) then
      let db1 :=
        Database.update_task_status task_id TaskStatus.PENDING
          None None None None db in
      let task' :=
        Task.set_error_message None
          (Task.set_exit_code None
            (Task.set_progress 0%Q
              (Task.set_finished_at None
                (Task.set_started_at None
                  (Task.set_assigned_worker None task))))) in
      (Ok (), Database.update_task task' db1)
    else (HTTPException 400 "Can only retry failed tasks", db)
  end.

Definition cancel_task (task_id : string) (db : Database.t)
    : reply unit * Database.t :=
  match Database.get_task task_id db with
  | None => (HTTPException 404 "Task not found", db)
  | Some task =>
    if decide (Task.status task = TaskStatus.PENDING
               ∨ Task.status task = TaskStatus.ASSIGNED
               ∨ Task.status task = TaskStatus.RUNNING) then
      let db1 := release_worker task db in
      (Ok (), Database.update_task_status task_id TaskStatus.FAILED
                None None None (Some "Cancelled by user") db1)
    else (HTTPException 400 "Cannot cancel task in current state", db)
  end.

Definition suspend_task (task_id : string) (db : Database.t)
    : reply unit * Database.t :=
  match Database.get_task task_id db with
  | None => (HTTPException 404 "Task not found", db)
  | Some task =>
    if decide (Task.status task = TaskStatus.RUNNING) then
      let db1 := release_worker task db in
      (Ok (), Database.update_task_status task_id TaskStatus.FAILED
                None None None (Some "Suspended by user") db1)
    else (HTTPException 400 "Can only suspend running tasks", db)
  end.

(** *** Workers *)

(** The registration payload: [id], [name], [hostname] and [ip_address]
    are indexed, the other keys are read with a default. *)
Record registration := mk_registration {
  reg_id : string;
  reg_name : string;
  reg_hostname : string;
  reg_ip_address : string;
  reg_pools : option (list string);
  reg_capabilities : option (list string);
  reg_cpu_cores : option Z;
  reg_memory_total : option Z;
  reg_version : option string
}.

Definition register_worker (data : registration) (now : datetime)
    (db : Database.t) : reply string * Database.t :=
  let worker :=
    Worker.mk (reg_id data) (reg_name data) (reg_hostname data)
      (reg_ip_address data) WorkerStatus.IDLE None
      (default ["default"] (reg_pools data))
      (default [] (reg_capabilities data))
      (default 0 (reg_cpu_cores data)) 0%Q
      (default 0 (reg_memory_total data)) 0
      (Some now) (default "" (reg_version data)) in
  (Ok (Worker.id worker), Database.upsert_worker worker db).

Definition worker_heartbeat (worker_id : string) (data : Database.heartbeat)
    (now : datetime) (db : Database.t) : reply unit * Database.t :=
  match Database.get_worker worker_id db with
  | None => (HTTPException 404 "Worker not found, please re-register", db)
  | Some _ => (Ok (), Database.update_worker_heartbeat worker_id data now db)
  end.

(** [request_task]: the body is [None] when nothing is assigned, the
    assigned Task and its Job otherwise. *)
Definition request_task (worker_id : string) (now : datetime) (db : Database.t)
    : reply (option (Task.t * option Job.t)) * Database.t :=
  match Database.get_worker worker_id db with
  | None => (HTTPException 404 "Worker not found", db)
  | Some worker =>
    if decide (Worker.status worker ≠ WorkerStatus.IDLE) then (Ok None, db)
    else
      match Database.get_next_task_for_worker worker db with
      | None => (Ok None, db)
      | Some task0 =>
        let task :=
          Task.set_assigned_worker (Some worker_id)
            (Task.set_status TaskStatus.ASSIGNED task0) in
        let db1 := Database.update_task task db in
        let worker' :=
          Worker.set_current_task (Some (Task.id task))
            (Worker.set_status WorkerStatus.BUSY worker) in
        let db2 := Database.update_worker worker' db1 in
        match Database.get_job (Task.job_id task) db2 with
        | Some job =>
          if decide (Job.status job = JobStatus.QUEUED) then
            let job' :=
              Job.set_started_at (Some now)
                (Job.set_status JobStatus.ACTIVE job) in
            (Ok (Some (task, Some job')), Database.update_job job' db2)
          else (Ok (Some (task, Some job)), db2)
        | None => (Ok (Some (task, None)), db2)
        end
      end
  end.

Definition disable_worker (worker_id : string) (db : Database.t)
    : reply string * Database.t :=
  match Database.get_worker worker_id db with
  | None => (HTTPException 404 "Worker not found", db)
  | Some worker =>
    (Ok "disabled",
     Database.update_worker (Worker.set_status WorkerStatus.DISABLED worker) db)
  end.

Definition enable_worker (worker_id : string) (db : Database.t)
    : reply string * Database.t :=
  match Database.get_worker worker_id db with
  | None => (HTTPException 404 "Worker not found", db)
  | Some worker =>
    (Ok "enabled",
     Database.update_worker (Worker.set_status WorkerStatus.IDLE worker) db)
  end.

Definition delete_worker (worker_id : string) (db : Database.t)
    : reply string * Database.t :=
  match Database.get_worker worker_id db with
  | None => (HTTPException 404 "Worker not found", db)
  | Some worker =>
    if decide (Worker.status worker = WorkerStatus.OFFLINE
               ∨ Worker.status worker = WorkerStatus.DISABLED)
    then (Ok "deleted", Database.delete_worker worker_id db)
    else (HTTPException 400 "Can only delete offline or disabled workers", db)
  end.

End Server.

(** ** The coordinator as a transition system

    Every state-changing endpoint of the server and the pass of the
    scheduler loop, as requests applied to the store. *)

Module Coordinator.

Inductive request :=
| SubmitJob (submission : Server.JobSubmission) (new_id : string)
| SuspendJob (job_id : string)
| ResumeJob (job_id : string)
| CancelJob (job_id : string)
| RetryJob (job_id : string)
| DeleteJob (job_id : string)
| UpdateJobPriority (job_id : string) (priority : Z)
| TaskStarted (task_id : string)
| TaskProgress (task_id : string) (progress : Q)
| TaskCompleted (task_id : string) (exit_code : Z)
| TaskFailed (task_id : string) (exit_code : Z) (error_message : option string)
| RetryTask (task_id : string)
| CancelTask (task_id : string)
| SuspendTask (task_id : string)
| RegisterWorker (data : Server.registration)
| WorkerHeartbeat (worker_id : string) (data : Database.heartbeat)
| RequestTask (worker_id : string)
| DisableWorker (worker_id : string)
| EnableWorker (worker_id : string)
| DeleteWorker (worker_id : string)
| SchedulerTick (uuid4 : nat → string).

(** The store after a request served at time [now]. *)
Definition handle (plugins : registry) (now : datetime) (r : request)
    (db : Database.t) : Database.t :=
  match r with
  | SubmitJob submission new_id => (Server.submit_job plugins submission new_id now db).2
  | SuspendJob job_id => (Server.suspend_job job_id now db).2
  | ResumeJob job_id => (Server.resume_job job_id now db).2
  | CancelJob job_id => (Server.cancel_job job_id now db).2
  | RetryJob job_id => (Server.retry_job job_id db).2
  | DeleteJob job_id => (Server.delete_job job_id db).2
  | UpdateJobPriority job_id priority => (Server.update_job_priority job_id priority db).2
  | TaskStarted task_id => (Server.task_started task_id now db).2
  | TaskProgress task_id progress => (Server.task_progress task_id progress db).2
  | TaskCompleted task_id exit_code => (Server.task_completed task_id exit_code now db).2
  | TaskFailed task_id exit_code error_message =>
      (Server.task_failed task_id exit_code error_message now db).2
  | RetryTask task_id => (Server.retry_task task_id db).2
  | CancelTask task_id => (Server.cancel_task task_id db).2
  | SuspendTask task_id => (Server.suspend_task task_id db).2
  | RegisterWorker data => (Server.register_worker data now db).2
  | WorkerHeartbeat worker_id data => (Server.worker_heartbeat worker_id data now db).2
  | RequestTask worker_id => (Server.request_task worker_id now db).2
  | DisableWorker worker_id => (Server.disable_worker worker_id db).2
  | EnableWorker worker_id => (Server.enable_worker worker_id db).2
  | DeleteWorker worker_id => (Server.delete_worker worker_id db).2
  | SchedulerTick uuid4 => Scheduler.tick plugins uuid4 now db
  end.

(** A history: requests with the time at which each is served. *)
Definition run (plugins : registry) (history : list (datetime * request))
    (db : Database.t) : Database.t :=
  foldl (λ db e, handle plugins e.1 e.2 db) db history.

End Coordinator.

(** ** A small farm used to exercise the model *)

Module Farm.

Definition chunk (job : Job.t) (idx : Z) : Task.t :=
  Task.mk (Job.id job +:+ "/" +:+ pretty idx) (Job.id job) idx
    TaskStatus.PENDING 0%Q [] None [] None None [] None None None None None None.

(** A renderer that always partitions into two chunks and asks for one
    encoding follow-up. *)
Definition renderer : RenderPlugin.t :=
  RenderPlugin.mk "aftereffects"
    (λ _, (true, None))
    (λ job, Some [chunk job 0; chunk job 1])
    (Some (λ job, Some [
       RenderPlugin.mk_job_data (Some (Job.name job +:+ " - MP4")) (Some "ffmpeg")
         (Some (Job.priority job)) None None (Some [Job.id job]) None])).

(** An encoder with a single Task and no follow-up hook. *)
Definition encoder : RenderPlugin.t :=
  RenderPlugin.mk "ffmpeg" (λ _, (true, None)) (λ job, Some [chunk job 0]) None.

(** A plugin whose partitioner raises and one whose validation fails. *)
Definition broken : RenderPlugin.t :=
  RenderPlugin.mk "broken" (λ _, (true, None)) (λ _, None) None.
Definition strict : RenderPlugin.t :=
  RenderPlugin.mk "strict" (λ _, (false, Some "missing project"))
    (λ job, Some [chunk job 0]) None.

(** A plugin that returns the same Task twice, so that the second
    insertion violates the primary key. *)
Definition twice : RenderPlugin.t :=
  RenderPlugin.mk "twice" (λ _, (true, None))
    (λ job, Some [chunk job 0; chunk job 0]) None.

Definition plugins : registry :=
  <["aftereffects" := renderer]> (<["ffmpeg" := encoder]>
    (<["broken" := broken]> (<["strict" := strict]> (<["twice" := twice]> ∅)))).

Definition submission (name plugin : string) (dependent_on : list string)
    : Server.JobSubmission :=
  Server.mk_submission name plugin 50 "default" [] dependent_on [].

Definition agent (id : string) (capabilities : list string) : Server.registration :=
  Server.mk_registration id id "host" "10.0.0.1" (Some ["default"])
    (Some capabilities) (Some 8) (Some 16) (Some "1.0.0").

Definition uuid4 (n : nat) : string := "follow-up-" +:+ pretty n.

End Farm.

(** ** Scenarios

    Stores reached from the empty store by a history of requests. *)

(** An encoding Job that waits on a Job that does not exist, and a Worker
    that only declares the renderer. *)
Module Dispatch.

Definition history : list (datetime * Coordinator.request) :=
  [ (1, Coordinator.SubmitJob (Farm.submission "E" "ffmpeg" ["no-such-job"]) "E");
    (2, Coordinator.RegisterWorker (Farm.agent "W" ["aftereffects"])) ].

Definition store : Database.t := Coordinator.run Farm.plugins history Database.empty.

Definition pulled_job_id (r : Server.reply (option (Task.t * option Job.t)))
    : option string :=
  match r with
  | Server.Ok (Some (task, _)) => Some (Task.job_id task)
  | _ => None
  end.

End Dispatch.

(** A renderer Job with two chunks; Worker W has pulled the first one. *)
Module Busy.

Definition history : list (datetime * Coordinator.request) :=
  [ (1, Coordinator.SubmitJob (Farm.submission "R" "aftereffects" []) "R");
    (2, Coordinator.RegisterWorker (Farm.agent "W" ["aftereffects"]));
    (3, Coordinator.RequestTask "W") ].

Definition store : Database.t := Coordinator.run Farm.plugins history Database.empty.

(** The rows of Worker W and of Task R/0 in [store]. *)
Definition worker : Worker.t :=
  Worker.mk "W" "W" "host" "10.0.0.1" WorkerStatus.BUSY (Some "R/0")
    ["default"] ["aftereffects"] 8 0%Q 16 0 (Some 2) "1.0.0".

Definition task : Task.t :=
  Task.mk "R/0" "R" 0 TaskStatus.ASSIGNED 0%Q [] None [] None None []
    (Some "W") None None None None None.

(** The row of Job R in [store], as the pull returned it. *)
Definition job : Job.t :=
  Job.mk "R" "R" "aftereffects" 50 "default" [] JobStatus.ACTIVE 0%Q 2 0 0
    [] [] None 1 (Some 3) None None.

(** The store before the pull. *)
Definition before : Database.t :=
  Coordinator.run Farm.plugins
    [ (1, Coordinator.SubmitJob (Farm.submission "R" "aftereffects" []) "R");
      (2, Coordinator.RegisterWorker (Farm.agent "W" ["aftereffects"])) ]
    Database.empty.

(** The heartbeat of an agent that does not know of the assignment yet. *)
Definition idle_report : Database.heartbeat :=
  Database.mk_heartbeat (Some WorkerStatus.IDLE) None (Some 0%Q) (Some 4).

End Busy.

(** An encoding Job whose only Task has been pulled, started and
    completed. *)
Module Finished.

Definition history : list (datetime * Coordinator.request) :=
  [ (1, Coordinator.SubmitJob (Farm.submission "E" "ffmpeg" []) "E");
    (2, Coordinator.RegisterWorker (Farm.agent "W" ["ffmpeg"]));
    (3, Coordinator.RequestTask "W");
    (4, Coordinator.TaskStarted "E/0");
    (5, Coordinator.TaskCompleted "E/0" 0) ].

Definition store : Database.t := Coordinator.run Farm.plugins history Database.empty.

End Finished.

(** A renderer Job with two chunks on two Workers: the first chunk is
    completed, the second one is suspended by the user, which marks it
    failed and leaves the Job active. *)
Module HalfFailed.

Definition history : list (datetime * Coordinator.request) :=
  [ (1, Coordinator.SubmitJob (Farm.submission "R" "aftereffects" []) "R");
    (2, Coordinator.RegisterWorker (Farm.agent "W1" []));
    (2, Coordinator.RegisterWorker (Farm.agent "W2" []));
    (3, Coordinator.RequestTask "W1");
    (4, Coordinator.RequestTask "W2");
    (5, Coordinator.TaskStarted "R/0");
    (6, Coordinator.TaskStarted "R/1");
    (7, Coordinator.TaskCompleted "R/0" 0);
    (8, Coordinator.SuspendTask "R/1") ].

Definition store : Database.t := Coordinator.run Farm.plugins history Database.empty.

End HalfFailed.

(** The same Job with both chunks failed by the user (one cancelled, one
    suspended) while the Job is still active. *)
Module AllFailed.

Definition history : list (datetime * Coordinator.request) :=
  [ (1, Coordinator.SubmitJob (Farm.submission "R" "aftereffects" []) "R");
    (2, Coordinator.RegisterWorker (Farm.agent "W1" []));
    (2, Coordinator.RegisterWorker (Farm.agent "W2" []));
    (3, Coordinator.RequestTask "W1");
    (4, Coordinator.RequestTask "W2");
    (5, Coordinator.TaskStarted "R/0");
    (6, Coordinator.TaskStarted "R/1");
    (7, Coordinator.CancelTask "R/0");
    (8, Coordinator.SuspendTask "R/1") ].

Definition store : Database.t := Coordinator.run Farm.plugins history Database.empty.

(** The row of Job R in [store]. *)
Definition job : Job.t :=
  Job.mk "R" "R" "aftereffects" 50 "default" [] JobStatus.ACTIVE 0%Q 2 0 0
    [] [] None 1 (Some 3) None None.

End AllFailed.

(** Worker W pulled and started the first chunk of Job R two microseconds
    after the epoch and has not been heard of since. *)
Module Silent.

Definition history : list (datetime * Coordinator.request) :=
  [ (1, Coordinator.SubmitJob (Farm.submission "R" "aftereffects" []) "R");
    (2, Coordinator.RegisterWorker (Farm.agent "W" ["aftereffects"]));
    (3, Coordinator.RequestTask "W");
    (4, Coordinator.TaskStarted "R/0") ].

Definition store : Database.t := Coordinator.run Farm.plugins history Database.empty.

(** The rows of Worker W and of Task R/0 in [store]. *)
Definition worker : Worker.t :=
  Worker.mk "W" "W" "host" "10.0.0.1" WorkerStatus.BUSY (Some "R/0")
    ["default"] ["aftereffects"] 8 0%Q 16 0 (Some 2) "1.0.0".

Definition task : Task.t :=
  Task.mk "R/0" "R" 0 TaskStatus.RUNNING 0%Q [] None [] None None []
    (Some "W") (Some 4) None None None None.

End Silent.

(** Job R failed with one chunk completed and one failed (progress 50);
    afterwards a late start report for the completed chunk arrives. *)
Module Stale.

Definition history : list (datetime * Coordinator.request) :=
  [ (1, Coordinator.SubmitJob (Farm.submission "R" "aftereffects" []) "R");
    (2, Coordinator.RegisterWorker (Farm.agent "W1" []));
    (2, Coordinator.RegisterWorker (Farm.agent "W2" []));
    (3, Coordinator.RequestTask "W1");
    (4, Coordinator.RequestTask "W2");
    (5, Coordinator.TaskStarted "R/0");
    (6, Coordinator.TaskStarted "R/1");
    (7, Coordinator.TaskCompleted "R/0" 0);
    (8, Coordinator.TaskFailed "R/1" 1 (Some "aerender exited with 1"));
    (9, Coordinator.TaskStarted "R/0") ].

Definition store : Database.t := Coordinator.run Farm.plugins history Database.empty.

(** The row of Job R in [store]. *)
Definition job : Job.t :=
  Job.mk "R" "R" "aftereffects" 50 "default" [] JobStatus.FAILED (100 # 2) 2 1 1
    [] [] None 1 (Some 3) (Some 8) (Some "aerender exited with 1").

End Stale.

(** A store in which the scheduler finds the active Job R with both
    chunks completed; its pass completes R and creates the follow-up Job
    "follow-up-0" that the renderer asks for. *)
Module Rendered.

Definition before : Database.t :=
  Database.mk
    [ Job.mk "R" "R" "aftereffects" 50 "default" [] JobStatus.ACTIVE (100 # 2) 2 1 0
        [] [] None 1 (Some 3) None None ]
    [ Task.mk "R/0" "R" 0 TaskStatus.COMPLETED 0%Q [] None [] None None []
        (Some "W1") (Some 5) (Some 7) (Some 0) None None;
      Task.mk "R/1" "R" 1 TaskStatus.COMPLETED 0%Q [] None [] None None []
        (Some "W2") (Some 6) (Some 8) (Some 0) None None ]
    [ Worker.mk "W1" "W1" "host" "10.0.0.1" WorkerStatus.IDLE None ["default"]
        ["ffmpeg"] 8 0%Q 16 0 (Some 8) "1.0.0" ].

Definition store : Database.t := Scheduler.tick Farm.plugins Farm.uuid4 9 before.

(** The row of the follow-up Job in [store]. *)
Definition follow_up : Job.t :=
  Job.mk "follow-up-0" "R - MP4" "ffmpeg" 50 "default" [] JobStatus.PENDING 0%Q
    0 0 0 ["R"] [] None 9 None None None.

(** What the coordinator is asked afterwards: Worker W1, which declares
    the encoder, pulls twice around a pass of the scheduler, a start
    report names a Task the follow-up never had, and the user raises its
    priority. *)
Definition afterwards : list (datetime * Coordinator.request) :=
  [ (10, Coordinator.RequestTask "W1");
    (11, Coordinator.SchedulerTick Farm.uuid4);
    (12, Coordinator.TaskStarted "follow-up-0/0");
    (13, Coordinator.UpdateJobPriority "follow-up-0" 90);
    (14, Coordinator.RequestTask "W1") ].

End Rendered.

(** ** Follow-up Jobs: the vocabulary of C10 *)

Module FollowUp.

(** No Task of the store belongs to Job [f]. *)
Definition no_tasks_of (f : string) (db : Database.t) : Prop :=
  ∀ x, x ∈ Database.tasks db → Task.job_id x ≠ f.

(** Job [f] is stored and every row with its id is pending. *)
Definition pending (f : string) (db : Database.t) : Prop :=
  is_Some (Database.get_job f db)
  ∧ ∀ j, j ∈ Database.jobs db → Job.id j = f → Job.status j = JobStatus.PENDING.

(** The contract of [create_tasks]: the Tasks of a partition belong to the
    Job that was partitioned (every plugin of the repository builds them
    with [job_id=job.id]). *)
Definition partition_own_job (plugins : registry) : Prop :=
  ∀ name plugin job tasks,
    plugins !! name = Some plugin →
    RenderPlugin.create_tasks plugin job = Some tasks →
    ∀ x, x ∈ tasks → Task.job_id x = Job.id job.

(** No submission of the history draws [f] as its fresh identifier. *)
Definition never_drawn (f : string) (history : list (datetime * Coordinator.request))
    : Prop :=
  ∀ now submission, (now, Coordinator.SubmitJob submission f) ∉ history.

(** The user never asks to suspend or cancel Job [f]. *)
Definition never_suspended_or_cancelled (f : string)
    (history : list (datetime * Coordinator.request)) : Prop :=
  ∀ now, ((now, Coordinator.SuspendJob f) ∉ history)
         ∧ ((now, Coordinator.CancelJob f) ∉ history).

End FollowUp.

(** ** The claims of the specification as predicates on the inputs *)

Module Stated.

(** C5 as stated: a heartbeat whose report disagrees with the stored row
    leaves the stored status and current_task as they were. *)
Definition heartbeat_keeps_store_view (worker_id : string)
    (data : Database.heartbeat) (now : datetime) (db : Database.t) : Prop :=
  ∀ w, Database.get_worker worker_id db = Some w →
    Database.hb_status data ≠ Some (Worker.status w)
    ∨ Database.hb_current_task data ≠ Worker.current_task w →
    ∃ w', Database.get_worker worker_id
            (Server.worker_heartbeat worker_id data now db).2 = Some w'
          ∧ Worker.status w' = Worker.status w
          ∧ Worker.current_task w' = Worker.current_task w.

(** C3 as stated: when the scheduler aggregates an active Job whose Tasks
    are all completed or failed, at least one of them failed, the Job is
    stored as failed with finished_at and an error message. *)
Definition aggregation_fails_job (plugins : registry) (uuid4 : nat → string)
    (now : datetime) (db : Database.t) (job_id : string) : Prop :=
  ∀ job, Database.get_job job_id db = Some job →
    Job.status job = JobStatus.ACTIVE →
    let tasks := Database.get_tasks_by_job job_id db in
    Z.of_nat (length tasks)
      ≤ count_status TaskStatus.COMPLETED tasks + count_status TaskStatus.FAILED tasks →
    count_status TaskStatus.FAILED tasks ≠ 0 →
    ∃ job', Database.get_job job_id
              (Scheduler._update_job_progress plugins uuid4 now db) = Some job'
            ∧ Job.status job' = JobStatus.FAILED
            ∧ is_Some (Job.finished_at job')
            ∧ is_Some (Job.error_message job').

(** C8 as stated, the part on progress: after the retry of a failed Job
    its progress is the percentage of its Tasks that are completed. *)
Definition retry_recomputes_progress (job_id : string) (db : Database.t) : Prop :=
  ∀ job, Database.get_job job_id db = Some job →
    Job.status job = JobStatus.FAILED →
    ∃ job', Database.get_job job_id (Scheduler.retry_job job_id db).2 = Some job'
      ∧ let tasks := Database.get_tasks_by_job job_id (Scheduler.retry_job job_id db).2 in
        (Job.progress job'
         == Server.completed_percent (count_status TaskStatus.COMPLETED tasks)
              (Z.of_nat (length tasks)))%Q.

(** C4 as stated: the link between Tasks in flight and busy Workers. *)
Definition assignment_invariant (db : Database.t) : Prop :=
  (∀ x, x ∈ Database.tasks db →
     Task.status x = TaskStatus.ASSIGNED ∨ Task.status x = TaskStatus.RUNNING →
     ∃ worker_id w,
       Task.assigned_worker x = Some worker_id
       ∧ Database.get_worker worker_id db = Some w
       ∧ Worker.status w = WorkerStatus.BUSY
       ∧ Worker.current_task w = Some (Task.id x))
  ∧ (∀ w, w ∈ Database.workers db →
       Worker.status w = WorkerStatus.BUSY →
       ∃ task_id x,
         Worker.current_task w = Some task_id
         ∧ Database.get_task task_id db = Some x
         ∧ Task.assigned_worker x = Some (Worker.id w)).

(** ... and its preservation by a request of the coordinator. *)
Definition invariant_preserved (plugins : registry) (now : datetime)
    (r : Coordinator.request) (db : Database.t) : Prop :=
  assignment_invariant db →
  assignment_invariant (Coordinator.handle plugins now r db).

(** C10 as stated, the part on the status: whatever the coordinator is
    asked afterwards, a pending Job without Tasks is still stored as
    pending. *)
Definition follow_up_stays_pending (plugins : registry)
    (history : list (datetime * Coordinator.request)) (db : Database.t)
    (f : string) : Prop :=
  FollowUp.pending f db → FollowUp.no_tasks_of f db →
  FollowUp.pending f (Coordinator.run plugins history db).

End Stated.

(** ** Invariants of the store *)

Module Invariant.

(** The three [TEXT PRIMARY KEY] columns hold distinct values. *)
Definition primary_keys (db : Database.t) : Prop :=
  NoDup (Job.id <$> Database.jobs db)
  ∧ NoDup (Task.id <$> Database.tasks db)
  ∧ NoDup (Worker.id <$> Database.workers db).

(** Every Task names a stored Job ([FOREIGN KEY (job_id)], which SQLite
    does not enforce by default). *)
Definition no_orphan_tasks (db : Database.t) : Prop :=
  ∀ x, x ∈ Database.tasks db → is_Some (Database.get_job (Task.job_id x) db).

End Invariant.

(** ** Orders used by the queries *)

Module Order.

(** [(t, j)] comes before [(t', j')] under
    [ORDER BY j.priority DESC, j.submitted_at ASC, t.idx ASC]. *)
Definition dispatch_before (a b : Task.t * Job.t) : Prop :=
  Job.priority b.2 < Job.priority a.2
  ∨ (Job.priority a.2 = Job.priority b.2
     ∧ (Job.submitted_at a.2 < Job.submitted_at b.2
        ∨ (Job.submitted_at a.2 = Job.submitted_at b.2
           ∧ Task.index a.1 ≤ Task.index b.1))).

End Order.

(** A low-priority Job submitted first and a high-priority Job submitted
    after it, two chunks each, and one registered Worker. *)
Module Priorities.

Definition history : list (datetime * Coordinator.request) :=
  [ (1, Coordinator.SubmitJob
          (Server.mk_submission "L" "aftereffects" 10 "default" [] [] []) "L");
    (2, Coordinator.SubmitJob
          (Server.mk_submission "H" "aftereffects" 90 "default" [] [] []) "H");
    (3, Coordinator.RegisterWorker (Farm.agent "W" ["aftereffects"])) ].

Definition store : Database.t := Coordinator.run Farm.plugins history Database.empty.

(** The rows of Worker W, of the two Jobs and of their first chunks. *)
Definition worker : Worker.t :=
  Worker.mk "W" "W" "host" "10.0.0.1" WorkerStatus.IDLE None
    ["default"] ["aftereffects"] 8 0%Q 16 0 (Some 3) "1.0.0".

Definition low : Job.t :=
  Job.mk "L" "L" "aftereffects" 10 "default" [] JobStatus.QUEUED 0%Q 2 0 0
    [] [] None 1 None None None.

Definition high : Job.t :=
  Job.mk "H" "H" "aftereffects" 90 "default" [] JobStatus.QUEUED 0%Q 2 0 0
    [] [] None 2 None None None.

End Priorities.

(** ** Refused requests *)

Module Refusal.


End Refusal.

(** ** The counters of a Job *)

Module Counters.

(** The number of Task rows with [job_id = k]. *)
Definition number_of_tasks (k : string) (db : Database.t) : Z :=
  Z.of_nat (length (filter (λ x, Task.job_id x = k) (Database.tasks db))).

(** Every Job row carries the number of its Tasks in task_total. *)
Definition task_totals (db : Database.t) : Prop :=
  ∀ j, j ∈ Database.jobs db → Job.task_total j = number_of_tasks (Job.id j) db.

(** The completed and the failed counter of a Job row are not negative and
    together do not exceed task_total. *)
Definition within (j : Job.t) : Prop :=
  0 ≤ Job.task_completed j ∧ 0 ≤ Job.task_failed j
  ∧ Job.task_completed j + Job.task_failed j ≤ Job.task_total j.

Definition bounded (db : Database.t) : Prop :=
  ∀ j, j ∈ Database.jobs db → within j.

End Counters.

(** ** Python built-ins used by the code below *)

Module Python.

(** The number of elements of [range(start, stop, step)] for a step that
    is not zero. *)
Definition range_length (start stop step : Z) : Z :=
  if 0 <? step then
    if start <? stop then (stop - start - 1) / step + 1 else 0
  else
    if stop <? start then (start - stop - 1) / (- step) + 1 else 0.

(** [range(start, stop, step)]; [None] is the ValueError of a zero step. *)
Definition range (start stop step : Z) : option (list Z) :=
  if step =? 0 then None
  else Some ((λ i : nat, start + Z.of_nat i * step)
               <$> seq 0 (Z.to_nat (range_length start stop step))).

(** What [l.remove(x)] leaves of [l] when [x] is in it: the first
    occurrence goes. *)
Fixpoint remove_first (x : nat) (l : list nat) : list nat :=
  match l with
  | [] => []
  | y :: ys => if decide (y = x) then ys else y :: remove_first x ys
  end.


End Python.

(** ** The After Effects plugin ([src/src/plugins/aftereffects.py])

    The custom mode partitions a frame range into chunks, one Task per
    chunk. *)

Module AfterEffects.

(** The three integers that [_create_custom_tasks] reads from
    [job.plugin_data] with [data.get]; [None] is an absent key. *)
Record custom_data := mk_custom_data {
  cd_frame_start : option Z;
  cd_frame_end : option Z;
  cd_chunk_size : option Z
}.

(** The chunk size in effect: [min(50, total_frames)] when the given one is
    not positive. *)
Definition chunk_size (data : custom_data) : Z :=
  let frame_start := default 0 (cd_frame_start data) in
  let frame_end := default 100 (cd_frame_end data) in
  let chunk_size := default 0 (cd_chunk_size data) in
  let total_frames := frame_end - frame_start + 1 in
  if chunk_size <=? 0 then Z.min 50 total_frames else chunk_size.

(** [uuid4 idx] is the identifier drawn for the Task of index [idx]. *)
Definition _create_custom_tasks (uuid4 : nat → string) (job : Job.t)
    (data : custom_data) : option (list Task.t) :=
  let frame_start := default 0 (cd_frame_start data) in
  let frame_end := default 100 (cd_frame_end data) in
  imap (λ (idx : nat) (start : Z),
          Task.mk (uuid4 idx) (Job.id job) (Z.of_nat idx) TaskStatus.PENDING 0%Q
            [] None [] (Some start)
            (Some (Z.min (start + chunk_size data - 1) frame_end))
            [("task_type", "render_png")] None None None None None None)
    <$> Python.range frame_start (frame_end + 1) (chunk_size data).

(** Frame [f] lies in the range of Task [x]. *)
Definition renders (x : Task.t) (f : Z) : Prop :=
  ∃ s e, Task.frame_start x = Some s ∧ Task.frame_end x = Some e ∧ s ≤ f ≤ e.

(** [(current_frame - frame_start + 1) / total_frames * 100], with the
    division of floats read as the division of rationals. *)
Definition percent (current_frame frame_start total_frames : Z) : Q :=
  (inject_Z (current_frame - frame_start + 1) / inject_Z total_frames * 100)%Q.

(** [parse_progress].  [current_frame] is the frame number that the
    regular expression finds in the output line, if it matches;
    [elapsed] says whether the line contains
    "PROGRESS: Total Time Elapsed". *)
Definition parse_progress (current_frame : option Z) (elapsed : bool)
    (task : Task.t) : option Q :=
  match current_frame with
  | Some current_frame =>
    match Task.frame_start task, Task.frame_end task with
    | Some frame_start, Some frame_end =>
      let total_frames := frame_end - frame_start + 1 in
      if 0 <? total_frames
      then Some (Qmin 100 (Qmax 0 (percent current_frame frame_start total_frames)))
      else None
    | _, _ => None
    end
  | None => if elapsed then Some 100%Q else None
  end.

End AfterEffects.

(** ** The progress computed by the agent ([src/src/worker/agent.py]) *)

Module WorkerAgent.

(** [_parse_progress].  [current_frame] is the frame number found in the
    line by the regular expression of the Job's plugin, if it matches. *)
Definition _parse_progress (plugin : string) (current_frame : option Z)
    (task : Task.t) : option Q :=
  if decide (plugin = "aftereffects" ∨ plugin = "blender") then
    match current_frame with
    | Some current_frame =>
      match Task.frame_start task, Task.frame_end task with
      | Some frame_start, Some frame_end =>
        let total := frame_end - frame_start + 1 in
        if 0 <? total
        then Some (Qmin 100 (AfterEffects.percent current_frame frame_start total))
        else None
      | _, _ => None
      end
    | None => None
    end
  else None.

End WorkerAgent.

(** ** A Task failed on behalf of the user *)

Module ByUser.

(** What the cancel and the suspend request of a Task do to the store
    [db], in which [task] is the row of [task_id]: the Task is failed with
    [message], its Worker is released, and nothing else is written. *)
Definition failed (message : string) (task_id : string) (task : Task.t)
    (db db' : Database.t) : Prop :=
  Database.get_task task_id db'
  = Some (Task.set_error_message (Some message)
            (Task.set_status TaskStatus.FAILED task))
  ∧ Database.jobs db' = Database.jobs db
  ∧ (∀ k, k ≠ task_id → Database.get_task k db' = Database.get_task k db)
  ∧ (∀ worker_id w,
       Task.assigned_worker task = Some worker_id → worker_id ≠ "" →
       Database.get_worker worker_id db = Some w →
       Database.get_worker worker_id db'
       = Some (Worker.set_current_task None
                 (Worker.set_status WorkerStatus.IDLE w))).

End ByUser.

(** ** The WebSocket connections of the server
    ([ConnectionManager] in [src/src/server/main.py])

    WebSocket objects are compared by identity; a connection is named by a
    number.  Whether [send_json] raises is up to the peer: it is a
    parameter of [broadcast]. *)

Module ConnectionManager.

Definition t := list nat.

(** [connect], once [websocket.accept()] has returned. *)
Definition connect (websocket : nat) (active_connections : t) : t :=
  active_connections ++ [websocket].

Definition disconnect (websocket : nat) (active_connections : t) : t :=
  if decide (websocket ∈ active_connections)
  then Python.remove_first websocket active_connections
  else active_connections.

(** [broadcast]: the connections the message was sent to, and the
    connections that are left. *)
Definition broadcast (send_raises : nat → bool) (active_connections : t)
    : list nat * t :=
  let disconnected := filter (λ c, send_raises c = true) active_connections in
  (filter (λ c, send_raises c = false) active_connections,
   foldl (λ l conn, disconnect conn l) active_connections disconnected).

End ConnectionManager.

(** ** The event bus ([src/src/core/events.py])

    Handlers are callables compared by identity; a handler is named by a
    number.  What a handler does is outside the store; the bus decides
    which handlers are invoked and in which order. *)

Module EventBus.

Inductive EventType :=
| JOB_SUBMITTED | JOB_STARTED | JOB_PROGRESS | JOB_COMPLETED | JOB_FAILED
| JOB_CANCELLED | JOB_SUSPENDED | JOB_RESUMED
| TASK_ASSIGNED | TASK_STARTED | TASK_PROGRESS | TASK_COMPLETED | TASK_FAILED
| WORKER_CONNECTED | WORKER_DISCONNECTED | WORKER_HEARTBEAT.

#[global] Instance EventType_eq_dec : EqDecision EventType.
Proof. solve_decision. Defined.

(** A [dict[EventType, list[Callable]]]: [None] is an absent key. *)
Definition subscriptions := EventType → option (list nat).


Record t := mk {
  _handlers : subscriptions;
  _async_handlers : subscriptions;
  _global_handlers : list nat;
  _async_global_handlers : list nat
}.

Definition empty : t := mk (λ _, None) (λ _, None) [] [].



Definition subscribe_all (handler : nat) (bus : t) : t :=
  mk (_handlers bus) (_async_handlers bus) (_global_handlers bus ++ [handler])
     (_async_global_handlers bus).

Definition subscribe_all_async (handler : nat) (bus : t) : t :=
  mk (_handlers bus) (_async_handlers bus) (_global_handlers bus)
     (_async_global_handlers bus ++ [handler]).






Definition clear (bus : t) : t := empty.

End EventBus.

(** ** The plugin registry ([src/plugins/registry.py]) *)

Module PluginRegistry.

Definition register (plugin : RenderPlugin.t) (_plugins : registry) : registry :=
  <[RenderPlugin.name plugin := plugin]> _plugins.

Definition unregister (name : string) (_plugins : registry) : registry :=
  match _plugins !! name with
  | Some _ => delete name _plugins
  | None => _plugins
  end.

Definition get (name : string) (_plugins : registry) : option RenderPlugin.t :=
  _plugins !! name.

End PluginRegistry.

(** Job R with both chunks pulled, started and reported complete by two
    Workers: the last report completes the Job. *)
Module Reported.

Definition history : list (datetime * Coordinator.request) :=
  [ (1, Coordinator.SubmitJob (Farm.submission "R" "aftereffects" []) "R");
    (2, Coordinator.RegisterWorker (Farm.agent "W1" []));
    (2, Coordinator.RegisterWorker (Farm.agent "W2" []));
    (3, Coordinator.RequestTask "W1");
    (4, Coordinator.RequestTask "W2");
    (5, Coordinator.TaskStarted "R/0");
    (6, Coordinator.TaskStarted "R/1");
    (7, Coordinator.TaskCompleted "R/0" 0);
    (8, Coordinator.TaskCompleted "R/1" 0) ].

Definition store : Database.t := Coordinator.run Farm.plugins history Database.empty.

End Reported.
(** * Properties *)

(** ** Tables *)

Section TableFacts.
Context {A : Type} `{Keyed A}.
Implicit Types (tbl : list A) (k : string) (f : A → A).

Lemma fetchone_key k tbl r : fetchone k tbl = Some r → key r = k.
Proof.
  induction tbl as [|x tbl IH]; simpl; [done|].
  case_decide; [by intros [= <-]|exact IH].
Qed.

Lemma fetchone_elem_of k tbl r : fetchone k tbl = Some r → r ∈ tbl.
Proof.
  induction tbl as [|x tbl IH]; simpl; [done|].
  case_decide.
  - intros [= <-]. apply list_elem_of_here.
  - intros Hr. apply list_elem_of_further, IH, Hr.
Qed.

Lemma fetchone_None k tbl : fetchone k tbl = None ↔ ∀ r, r ∈ tbl → key r ≠ k.
Proof.
  induction tbl as [|x tbl IH]; simpl.
  - split; [intros _ r Hr; by apply elem_of_nil in Hr|done].
  - case_decide as Hx.
    + split; [done|]. intros Hall. destruct (Hall x); [apply list_elem_of_here|done].
    + rewrite IH. split.
      * intros Hall r [->|Hr]%elem_of_cons; [done|by apply Hall].
      * intros Hall r Hr. apply Hall. by apply list_elem_of_further.
Qed.

Lemma fetchone_is_Some k tbl : is_Some (fetchone k tbl) ↔ ∃ r, r ∈ tbl ∧ key r = k.
Proof.
  split.
  - intros [r Hr]. exists r. eauto using fetchone_elem_of, fetchone_key.
  - intros (r & Hr & Hk). destruct (fetchone k tbl) eqn:E; [by eexists|].
    rewrite fetchone_None in E. by destruct (E r Hr).
Qed.

Lemma fetchone_app k tbl1 tbl2 :
  fetchone k (tbl1 ++ tbl2)
  = match fetchone k tbl1 with Some r => Some r | None => fetchone k tbl2 end.
Proof.
  induction tbl1 as [|x tbl1 IH]; simpl; [done|]. by case_decide.
Qed.

Lemma fetchone_update_where k k' f tbl :
  (∀ r, key r = k → key (f r) = k) →
  fetchone k' (update_where k f tbl)
  = if decide (k' = k) then f <$> fetchone k' tbl else fetchone k' tbl.
Proof.
  intros Hf. unfold update_where.
  induction tbl as [|x tbl IH]; simpl; [by case_decide|].
  destruct (decide (key x = k)) as [Hx|Hx].
  - rewrite (Hf x Hx). destruct (decide (k = k')) as [<-|Hk'].
    + rewrite (decide_True (P:=key x = k)) by done.
      by rewrite (decide_True (P:=k = k)).
    + rewrite (decide_False (P:=key x = k')) by congruence. exact IH.
  - destruct (decide (key x = k')) as [Hx'|Hx'].
    + rewrite (decide_False (P:=k' = k)) by congruence. done.
    + exact IH.
Qed.

Lemma fetchone_update_where_eq k f tbl :
  (∀ r, key r = k → key (f r) = k) →
  fetchone k (update_where k f tbl) = f <$> fetchone k tbl.
Proof. intros Hf. rewrite fetchone_update_where by done. by rewrite decide_True. Qed.

Lemma fetchone_update_where_ne k k' f tbl :
  (∀ r, key r = k → key (f r) = k) → k' ≠ k →
  fetchone k' (update_where k f tbl) = fetchone k' tbl.
Proof. intros Hf Hne. rewrite fetchone_update_where by done. by rewrite decide_False. Qed.

Lemma keys_update_where k f tbl :
  (∀ r, key (f r) = key r) → key <$> update_where k f tbl = key <$> tbl.
Proof.
  intros Hf. unfold update_where. rewrite <- list_fmap_compose.
  apply list_fmap_ext. intros _ r _. simpl. case_decide; [apply Hf|done].
Qed.

Lemma elem_of_update_where k f tbl r :
  r ∈ update_where k f tbl →
  ∃ r0, r0 ∈ tbl ∧ (r = r0 ∨ (key r0 = k ∧ r = f r0)).
Proof.
  unfold update_where. intros (r0 & -> & Hr0)%list_elem_of_fmap.
  exists r0. split; [done|]. case_decide; auto.
Qed.

Lemma fetchone_NoDup tbl r :
  NoDup (key <$> tbl) → r ∈ tbl → fetchone (key r) tbl = Some r.
Proof.
  induction tbl as [|x tbl IH]; simpl.
  - intros _ Hr. by apply elem_of_nil in Hr.
  - rewrite NoDup_cons. intros [Hx Hnd] [->|Hr]%elem_of_cons.
    + by rewrite decide_True.
    + rewrite decide_False; [by apply IH|].
      intros Heq. apply Hx. rewrite Heq. by apply list_elem_of_fmap_2.
Qed.

Lemma fetchone_delete_where k k' tbl :
  fetchone k' (delete_where k tbl)
  = if decide (k' = k) then None else fetchone k' tbl.
Proof.
  unfold delete_where. induction tbl as [|x tbl IH]; simpl; [by case_decide|].
  rewrite filter_cons. destruct (decide (key x ≠ k)) as [Hx|Hx]; simpl.
  - destruct (decide (key x = k')) as [Hx'|Hx'].
    + rewrite decide_False by congruence. done.
    + exact IH.
  - apply dec_stable in Hx. rewrite IH.
    destruct (decide (key x = k')) as [Hx'|Hx']; [|done].
    case_decide; congruence.
Qed.

Lemma insert_row_Some r tbl tbl' :
  insert_row r tbl = Some tbl' → fetchone (key r) tbl = None ∧ tbl' = tbl ++ [r].
Proof.
  unfold insert_row. destruct (fetchone (key r) tbl); [done|]. by intros [= <-].
Qed.

End TableFacts.

Section OrderBy.
Context {A : Type} (le : A → A → bool).

Lemma insert_by_perm x (l : list A) : insert_by le x l ≡ₚ x :: l.
Proof.
  induction l as [|y l IH]; simpl; [done|].
  destruct (le x y); [done|]. rewrite IH. apply Permutation_swap.
Qed.

Lemma order_by_perm (l : list A) : order_by le l ≡ₚ l.
Proof.
  induction l as [|x l IH]; simpl; [done|].
  rewrite insert_by_perm. by rewrite IH.
Qed.

Lemma elem_of_order_by x (l : list A) : x ∈ order_by le l ↔ x ∈ l.
Proof. by rewrite (order_by_perm l). Qed.

Lemma length_order_by (l : list A) : length (order_by le l) = length l.
Proof. by rewrite (order_by_perm l). Qed.

End OrderBy.

(** ** Rows keep their key under every column update *)

Lemma job_columns_id job r : Job.id (Database.job_columns job r) = Job.id r.
Proof. done. Qed.

Lemma task_columns_id task r : Task.id (Database.task_columns task r) = Task.id r.
Proof. done. Qed.

Lemma task_columns_job_id task r :
  Task.job_id (Database.task_columns task r) = Task.job_id r.
Proof. done. Qed.

Lemma get_job_id job_id db job :
  Database.get_job job_id db = Some job → Job.id job = job_id.
Proof. apply (fetchone_key (A:=Job.t)). Qed.

Lemma get_task_id task_id db task :
  Database.get_task task_id db = Some task → Task.id task = task_id.
Proof. apply (fetchone_key (A:=Task.t)). Qed.

Lemma get_worker_id worker_id db worker :
  Database.get_worker worker_id db = Some worker → Worker.id worker = worker_id.
Proof. apply (fetchone_key (A:=Worker.t)). Qed.

(** ** Dispatch: dependencies and capabilities (C1, C2) *)

(** C1 (the code departs from the claim).  Job E depends on a Job id that
    is not in the store, so [_check_dependencies] rejects it; the pull of
    Worker W is nevertheless answered with the Task of E, which is written
    back as assigned to W. *)
Theorem pull_returns_task_with_unmet_dependency :
  (∃ job, Database.get_job "E" Dispatch.store = Some job
          ∧ Job.dependent_on job = ["no-such-job"]
          ∧ Database.get_job "no-such-job" Dispatch.store = None
          ∧ Scheduler._check_dependencies job Dispatch.store = false)
  ∧ Dispatch.pulled_job_id (Server.request_task "W" 3 Dispatch.store).1 = Some "E"
  ∧ (Task.status <$> Database.get_task "E/0" (Server.request_task "W" 3 Dispatch.store).2)
    = Some TaskStatus.ASSIGNED.
Proof.
  split; [|split]; [|by vm_compute..].
  eexists. split; [by vm_compute|]. by vm_compute.
Qed.

(** C2 (the code departs from the claim).  Worker W declares the single
    capability "aftereffects" and Job E uses plugin "ffmpeg": the selection
    of [_find_task_for_worker] skips E, yet the pull of W is answered with
    the Task of E. *)
Theorem pull_returns_task_outside_capabilities :
  (∃ worker job,
      Database.get_worker "W" Dispatch.store = Some worker
      ∧ Database.get_job "E" Dispatch.store = Some job
      ∧ Worker.capabilities worker = ["aftereffects"]
      ∧ Job.plugin job = "ffmpeg"
      ∧ Scheduler._find_task_for_worker worker Dispatch.store = None)
  ∧ Dispatch.pulled_job_id (Server.request_task "W" 3 Dispatch.store).1 = Some "E".
Proof.
  split; [|by vm_compute].
  do 2 eexists. split; [by vm_compute|]. split; [by vm_compute|]. by vm_compute.
Qed.

(** ** Heartbeat (C5) *)

(** C5, counterexample.  Worker W holds Task R/0 in the store; a heartbeat
    reporting idle and no current task rewrites the stored row to idle with
    current_task null. *)
Lemma heartbeat_replaces_store_view_example :
  ¬ Stated.heartbeat_keeps_store_view "W" Busy.idle_report 4 Busy.store.
Proof.
  intros Hclaim.
  destruct (Hclaim Busy.worker) as (w' & Hw' & Hstatus & _).
  - by vm_compute.
  - left. by vm_compute.
  - vm_compute in Hw'. injection Hw' as <-. vm_compute in Hstatus. done.
Qed.

(** C5, amended.  A heartbeat for a registered Worker answers OK and
    rewrites five columns of its row: status and current_task take the
    reported values (idle and null when the report omits them), cpu_usage
    and memory_used the reported telemetry, last_heartbeat the time of the
    request.  The other columns, the other Workers, the Jobs and the Tasks
    are unchanged. *)
Theorem heartbeat_overwrites_status_and_current_task
    (worker_id : string) (data : Database.heartbeat) (now : datetime)
    (db : Database.t) (w : Worker.t) :
  Database.get_worker worker_id db = Some w →
  (Server.worker_heartbeat worker_id data now db).1 = Server.Ok ()
  ∧ Database.get_worker worker_id (Server.worker_heartbeat worker_id data now db).2
    = Some (Worker.mk (Worker.id w) (Worker.name w) (Worker.hostname w)
              (Worker.ip_address w)
              (default WorkerStatus.IDLE (Database.hb_status data))
              (Database.hb_current_task data)
              (Worker.pools w) (Worker.capabilities w) (Worker.cpu_cores w)
              (default 0%Q (Database.hb_cpu_usage data))
              (Worker.memory_total w)
              (default 0 (Database.hb_memory_used data))
              (Some now) (Worker.version w))
  ∧ (∀ k, k ≠ worker_id →
       Database.get_worker k (Server.worker_heartbeat worker_id data now db).2
       = Database.get_worker k db)
  ∧ Database.jobs (Server.worker_heartbeat worker_id data now db).2 = Database.jobs db
  ∧ Database.tasks (Server.worker_heartbeat worker_id data now db).2 = Database.tasks db.
Proof.
  intros Hw. unfold Server.worker_heartbeat. rewrite Hw. simpl.
  unfold Database.get_worker in *. simpl.
  split; [done|]. split; [|split; [|done]].
  - rewrite fetchone_update_where_eq by done. by rewrite Hw.
  - intros k Hk. by rewrite fetchone_update_where_ne.
Qed.

Lemma heartbeat_overwrites_status_and_current_task_witness :
  Database.get_worker "W" (Server.worker_heartbeat "W" Busy.idle_report 4 Busy.store).2
  = Some (Worker.mk "W" "W" "host" "10.0.0.1" WorkerStatus.IDLE None
            ["default"] ["aftereffects"] 8 0%Q 16 4 (Some 4) "1.0.0").
Proof.
  refine (proj1 (proj2 (heartbeat_overwrites_status_and_current_task
    "W" Busy.idle_report 4 Busy.store Busy.worker _))).
  vm_compute. reflexivity.
Defined.

(** ** Cancel (C9) *)

(** C9 (the code departs from the claim).  Job E is completed; the cancel
    request is answered with the body "cancelled", not with a 400, and the
    stored status becomes cancelled. *)
Theorem cancel_of_completed_job_is_accepted :
  (Job.status <$> Database.get_job "E" Finished.store) = Some JobStatus.COMPLETED
  ∧ (Server.cancel_job "E" 6 Finished.store).1 = Server.Ok "cancelled"
  ∧ (Job.status <$> Database.get_job "E" (Server.cancel_job "E" 6 Finished.store).2)
    = Some JobStatus.CANCELLED.
Proof. by vm_compute. Qed.

(** ** Submission (C6) *)

Lemma delete_job_get_job job_id db :
  Database.get_job job_id (Database.delete_job job_id db) = None.
Proof.
  unfold Database.get_job, Database.delete_job. simpl.
  rewrite (fetchone_delete_where (A:=Job.t)). by rewrite decide_True.
Qed.

Lemma delete_job_tasks job_id db x :
  x ∈ Database.tasks (Database.delete_job job_id db) → Task.job_id x ≠ job_id.
Proof.
  unfold Database.delete_job. simpl. by intros [? _]%list_elem_of_filter.
Qed.

Lemma submit_job_unknown_plugin plugins submission new_id now db :
  plugins !! Server.sub_plugin submission = None →
  ∃ detail, Server.submit_job plugins submission new_id now db
            = (Server.HTTPException 400 detail, db).
Proof. intros Hp. unfold Server.submit_job. rewrite Hp. by eexists. Qed.

Lemma submit_job_invalid plugins submission new_id now db plugin error :
  plugins !! Server.sub_plugin submission = Some plugin →
  RenderPlugin.validate plugin (Server.sub_plugin_data submission) = (false, error) →
  ∃ detail, Server.submit_job plugins submission new_id now db
            = (Server.HTTPException 400 detail, db).
Proof. intros Hp Hv. unfold Server.submit_job. rewrite Hp, Hv. by eexists. Qed.

Lemma submit_job_partition_failed plugins submission new_id now db plugin error db1 :
  plugins !! Server.sub_plugin submission = Some plugin →
  RenderPlugin.validate plugin (Server.sub_plugin_data submission) = (true, error) →
  Database.add_job (Server.new_job submission new_id now) db = Some db1 →
  RenderPlugin.create_tasks plugin (Server.new_job submission new_id now) = None
  ∨ (∃ tasks,
       RenderPlugin.create_tasks plugin (Server.new_job submission new_id now)
       = Some tasks
       ∧ (Server.add_tasks tasks db1).2 = false) →
  ∃ detail db',
    Server.submit_job plugins submission new_id now db
    = (Server.HTTPException 500 detail, db')
    ∧ Database.get_job new_id db' = None
    ∧ ∀ x, x ∈ Database.tasks db' → Task.job_id x ≠ new_id.
Proof.
  intros Hp Hv Hadd Hfail. unfold Server.submit_job. rewrite Hp, Hv. simpl.
  rewrite Hadd. destruct Hfail as [Hc|(tasks & Hc & Ht)]; rewrite Hc.
  - do 2 eexists. split; [done|]. split.
    + apply delete_job_get_job.
    + intros x. apply delete_job_tasks.
  - destruct (Server.add_tasks tasks db1) as [db2 ok]. simpl in Ht. subst ok.
    do 2 eexists. split; [done|]. split.
    + apply delete_job_get_job.
    + intros x. apply delete_job_tasks.
Qed.

(** C6.  A submission naming an unknown plugin, or one that the plugin's
    [validate] refuses, is answered with a 400 and the store is left as it
    was: no Job is created.  If the Job could be inserted and then
    [create_tasks] raises, or the insertion of one of its Tasks raises, the
    answer is a 500 and the resulting store holds neither a Job with the new
    id nor a Task whose job_id is the new id. *)
Theorem submit_job_rejects_without_leaving_rows
    (plugins : registry) (submission : Server.JobSubmission)
    (new_id : string) (now : datetime) (db : Database.t) :
  (plugins !! Server.sub_plugin submission = None →
   ∃ detail, Server.submit_job plugins submission new_id now db
             = (Server.HTTPException 400 detail, db))
  ∧ (∀ plugin error,
       plugins !! Server.sub_plugin submission = Some plugin →
       RenderPlugin.validate plugin (Server.sub_plugin_data submission)
       = (false, error) →
       ∃ detail, Server.submit_job plugins submission new_id now db
                 = (Server.HTTPException 400 detail, db))
  ∧ (∀ plugin error db1,
       plugins !! Server.sub_plugin submission = Some plugin →
       RenderPlugin.validate plugin (Server.sub_plugin_data submission)
       = (true, error) →
       Database.add_job (Server.new_job submission new_id now) db = Some db1 →
       RenderPlugin.create_tasks plugin (Server.new_job submission new_id now) = None
       ∨ (∃ tasks,
            RenderPlugin.create_tasks plugin (Server.new_job submission new_id now)
            = Some tasks
            ∧ (Server.add_tasks tasks db1).2 = false) →
       ∃ detail db',
         Server.submit_job plugins submission new_id now db
         = (Server.HTTPException 500 detail, db')
         ∧ Database.get_job new_id db' = None
         ∧ ∀ x, x ∈ Database.tasks db' → Task.job_id x ≠ new_id).
Proof.
  split; [|split].
  - apply submit_job_unknown_plugin.
  - intros plugin error. apply submit_job_invalid.
  - intros plugin error db1. apply submit_job_partition_failed.
Qed.

Lemma submit_job_rejects_without_leaving_rows_witness :
  (∃ detail,
     Server.submit_job Farm.plugins (Farm.submission "X" "maya" []) "X" 1 Database.empty
     = (Server.HTTPException 400 detail, Database.empty))
  ∧ (∃ detail,
       Server.submit_job Farm.plugins (Farm.submission "X" "strict" []) "X" 1 Database.empty
       = (Server.HTTPException 400 detail, Database.empty))
  ∧ (∃ detail db',
       Server.submit_job Farm.plugins (Farm.submission "X" "broken" []) "X" 1 Busy.store
       = (Server.HTTPException 500 detail, db')
       ∧ Database.get_job "X" db' = None
       ∧ ∀ x, x ∈ Database.tasks db' → Task.job_id x ≠ "X")
  ∧ (∃ detail db',
       Server.submit_job Farm.plugins (Farm.submission "X" "twice" []) "X" 1 Busy.store
       = (Server.HTTPException 500 detail, db')
       ∧ Database.get_job "X" db' = None
       ∧ ∀ x, x ∈ Database.tasks db' → Task.job_id x ≠ "X").
Proof.
  split; [|split; [|split]].
  - apply (proj1 (submit_job_rejects_without_leaving_rows
             Farm.plugins (Farm.submission "X" "maya" []) "X" 1 Database.empty)).
    vm_compute. reflexivity.
  - apply (proj1 (proj2 (submit_job_rejects_without_leaving_rows
             Farm.plugins (Farm.submission "X" "strict" []) "X" 1 Database.empty))
           Farm.strict (Some "missing project")).
    + vm_compute. reflexivity.
    + vm_compute. reflexivity.
  - eapply (proj2 (proj2 (submit_job_rejects_without_leaving_rows
             Farm.plugins (Farm.submission "X" "broken" []) "X" 1 Busy.store))
           Farm.broken None).
    + vm_compute. reflexivity.
    + vm_compute. reflexivity.
    + vm_compute. reflexivity.
    + left. vm_compute. reflexivity.
  - eapply (proj2 (proj2 (submit_job_rejects_without_leaving_rows
             Farm.plugins (Farm.submission "X" "twice" []) "X" 1 Busy.store))
           Farm.twice None).
    + vm_compute. reflexivity.
    + vm_compute. reflexivity.
    + vm_compute. reflexivity.
    + right. eexists. split; vm_compute; reflexivity.
Defined.

(** ** Aggregation of job progress (C3) *)

Lemma add_job_Some job db db' :
  Database.add_job job db = Some db' →
  Database.get_job (Job.id job) db = None
  ∧ Database.jobs db' = Database.jobs db ++ [job]
  ∧ Database.tasks db' = Database.tasks db
  ∧ Database.workers db' = Database.workers db.
Proof.
  unfold Database.add_job, Database.get_job.
  destruct (insert_row job (Database.jobs db)) as [js|] eqn:E; [|done].
  apply insert_row_Some in E as [E ->]. by intros [= <-].
Qed.

(** The follow-up loop only appends Jobs, each of them pending and with
    task_total 0; it never touches the Tasks or the Workers. *)
Lemma add_follow_up_jobs_appends uuid4 now job l st :
  ∃ new,
    Database.jobs (Scheduler.add_follow_up_jobs uuid4 now job l st).2
    = Database.jobs st.2 ++ new
    ∧ Database.tasks (Scheduler.add_follow_up_jobs uuid4 now job l st).2
      = Database.tasks st.2
    ∧ Database.workers (Scheduler.add_follow_up_jobs uuid4 now job l st).2
      = Database.workers st.2
    ∧ Forall (λ j, Job.status j = JobStatus.PENDING ∧ Job.task_total j = 0) new.
Proof.
  revert st. induction l as [|d l IH]; intros st; simpl.
  - exists []. by rewrite app_nil_r.
  - destruct (Database.add_job _ st.2) as [db'|] eqn:E; simpl.
    + apply add_job_Some in E as (_ & Hj & Ht & Hw).
      destruct (IH (S st.1, db')) as (new & Hj' & Ht' & Hw' & Hnew).
      simpl in *. eexists (_ :: new).
      rewrite Hj', Hj, Ht', Ht, Hw', Hw, <- app_assoc. simpl.
      split; [done|]. split; [done|]. split; [done|].
      constructor; [done|exact Hnew].
    + exists []. by rewrite app_nil_r.
Qed.

Lemma create_follow_up_jobs_appends plugins uuid4 now job st :
  ∃ new,
    Database.jobs (Scheduler._create_follow_up_jobs plugins uuid4 now job st).2
    = Database.jobs st.2 ++ new
    ∧ Database.tasks (Scheduler._create_follow_up_jobs plugins uuid4 now job st).2
      = Database.tasks st.2
    ∧ Database.workers (Scheduler._create_follow_up_jobs plugins uuid4 now job st).2
      = Database.workers st.2
    ∧ Forall (λ j, Job.status j = JobStatus.PENDING ∧ Job.task_total j = 0) new.
Proof.
  unfold Scheduler._create_follow_up_jobs.
  destruct (plugins !! Job.plugin job) as [plugin|];
    [|exists []; by rewrite app_nil_r].
  destruct (RenderPlugin.get_encoding_jobs plugin) as [g|];
    [|exists []; by rewrite app_nil_r].
  destruct (g job) as [l|]; [|exists []; by rewrite app_nil_r].
  apply add_follow_up_jobs_appends.
Qed.

Lemma get_tasks_by_job_tasks job_id db db' :
  Database.tasks db' = Database.tasks db →
  Database.get_tasks_by_job job_id db' = Database.get_tasks_by_job job_id db.
Proof. unfold Database.get_tasks_by_job. by intros ->. Qed.

Lemma update_job_progress_body_tasks plugins uuid4 now st job :
  Database.tasks (Scheduler._update_job_progress_body plugins uuid4 now st job).2
  = Database.tasks st.2.
Proof.
  unfold Scheduler._update_job_progress_body.
  destruct (Database.get_tasks_by_job (Job.id job) st.2); [done|]. simpl.
  destruct (Scheduler.all_completed _); [|done].
  by destruct (create_follow_up_jobs_appends plugins uuid4 now
                 (Scheduler.aggregate now (t :: l) job) st) as (? & _ & -> & _).
Qed.

Lemma update_job_progress_body_workers plugins uuid4 now st job :
  Database.workers (Scheduler._update_job_progress_body plugins uuid4 now st job).2
  = Database.workers st.2.
Proof.
  unfold Scheduler._update_job_progress_body.
  destruct (Database.get_tasks_by_job (Job.id job) st.2); [done|]. simpl.
  destruct (Scheduler.all_completed _); [|done].
  by destruct (create_follow_up_jobs_appends plugins uuid4 now
                 (Scheduler.aggregate now (t :: l) job) st) as (? & _ & _ & -> & _).
Qed.

Lemma aggregate_id now tasks job :
  Job.id (Scheduler.aggregate now tasks job) = Job.id job.
Proof. unfold Scheduler.aggregate. by repeat case_match. Qed.

(** The rows of the other Jobs already in the store are not touched. *)
Lemma update_job_progress_body_other plugins uuid4 now st job k r :
  Database.get_job k st.2 = Some r → k ≠ Job.id job →
  Database.get_job k (Scheduler._update_job_progress_body plugins uuid4 now st job).2
  = Some r.
Proof.
  intros Hk Hne. unfold Scheduler._update_job_progress_body.
  destruct (Database.get_tasks_by_job (Job.id job) st.2) as [|x l]; [done|].
  unfold Database.update_job, Database.get_job in *. rewrite aggregate_id. simpl.
  rewrite (fetchone_update_where_ne (A:=Job.t)) by done.
  destruct (Scheduler.all_completed _); [|done].
  destruct (create_follow_up_jobs_appends plugins uuid4 now
              (Scheduler.aggregate now (x :: l) job) st) as (new & -> & _).
  by rewrite fetchone_app, Hk.
Qed.

(** The row of the Job itself receives the columns of the aggregated
    object. *)
Lemma update_job_progress_body_self plugins uuid4 now st job r :
  Database.get_job (Job.id job) st.2 = Some r →
  Database.get_tasks_by_job (Job.id job) st.2 ≠ [] →
  Database.get_job (Job.id job)
    (Scheduler._update_job_progress_body plugins uuid4 now st job).2
  = Some (Database.job_columns
            (Scheduler.aggregate now (Database.get_tasks_by_job (Job.id job) st.2) job) r).
Proof.
  intros Hk Hne. unfold Scheduler._update_job_progress_body.
  destruct (Database.get_tasks_by_job (Job.id job) st.2) as [|x l]; [done|].
  unfold Database.update_job, Database.get_job in *. rewrite aggregate_id. simpl.
  rewrite (fetchone_update_where_eq (A:=Job.t)) by done.
  destruct (Scheduler.all_completed _); [|by rewrite Hk].
  destruct (create_follow_up_jobs_appends plugins uuid4 now
              (Scheduler.aggregate now (x :: l) job) st) as (new & -> & _).
  by rewrite fetchone_app, Hk.
Qed.

(** A snapshot [ORDER BY ... WHERE ...] of a table with a primary key has
    distinct keys, and each of its rows is the stored row of its key. *)
Lemma snapshot_NoDup {A} `{Keyed A} (le : A → A → bool) (P : A → Prop)
    `{∀ x, Decision (P x)} (tbl : list A) :
  NoDup (key <$> tbl) → NoDup (key <$> order_by le (filter P tbl)).
Proof.
  intros Hnd. rewrite (order_by_perm le).
  eapply sublist_NoDup; [exact Hnd|]. apply fmap_sublist, sublist_filter.
Qed.

Lemma snapshot_elem_of {A} `{Keyed A} (le : A → A → bool) (P : A → Prop)
    `{∀ x, Decision (P x)} (tbl : list A) r :
  r ∈ order_by le (filter P tbl) ↔ P r ∧ r ∈ tbl.
Proof. by rewrite elem_of_order_by, list_elem_of_filter. Qed.

Section UpdateJobProgress.
Context (plugins : registry) (uuid4 : nat → string) (now : datetime).

Let body := Scheduler._update_job_progress_body plugins uuid4 now.

Lemma update_job_progress_fold_tasks l st :
  Database.tasks (foldl body st l).2 = Database.tasks st.2.
Proof.
  revert st. induction l as [|j l IH]; intros st; simpl; [done|].
  rewrite IH. apply update_job_progress_body_tasks.
Qed.

Lemma update_job_progress_fold_workers l st :
  Database.workers (foldl body st l).2 = Database.workers st.2.
Proof.
  revert st. induction l as [|j l IH]; intros st; simpl; [done|].
  rewrite IH. apply update_job_progress_body_workers.
Qed.

Lemma update_job_progress_fold_other l st k r :
  Database.get_job k st.2 = Some r → k ∉ Job.id <$> l →
  Database.get_job k (foldl body st l).2 = Some r.
Proof.
  revert st. induction l as [|j l IH]; intros st Hk Hnotin; simpl; [done|].
  rewrite fmap_cons, not_elem_of_cons in Hnotin. destruct Hnotin as [Hne Hnotin].
  apply IH; [|done]. by apply update_job_progress_body_other.
Qed.

Lemma update_job_progress_fold_self l st job :
  NoDup (Job.id <$> l) → job ∈ l →
  (∀ j, j ∈ l → Database.get_job (Job.id j) st.2 = Some j) →
  Database.get_tasks_by_job (Job.id job) st.2 ≠ [] →
  Database.get_job (Job.id job) (foldl body st l).2
  = Some (Database.job_columns
            (Scheduler.aggregate now (Database.get_tasks_by_job (Job.id job) st.2) job)
            job).
Proof.
  revert st. induction l as [|j l IH]; intros st Hnd Hin Hrows Htasks; simpl.
  - by apply elem_of_nil in Hin.
  - rewrite fmap_cons, NoDup_cons in Hnd. destruct Hnd as [Hj Hnd].
    apply elem_of_cons in Hin as [->|Hin].
    + apply update_job_progress_fold_other; [|done].
      apply update_job_progress_body_self; [|done].
      apply Hrows, list_elem_of_here.
    + assert (Job.id job ≠ Job.id j) as Hne.
      { intros Heq. apply Hj. rewrite <- Heq. by apply list_elem_of_fmap_2. }
      rewrite IH; [| done | done | |].
      * do 3 f_equal. apply get_tasks_by_job_tasks, update_job_progress_body_tasks.
      * intros j' Hj'. apply update_job_progress_body_other.
        -- apply Hrows. by apply list_elem_of_further.
        -- intros Heq. apply Hj. rewrite <- Heq. by apply list_elem_of_fmap_2.
      * erewrite get_tasks_by_job_tasks; [done|].
        apply update_job_progress_body_tasks.
Qed.

(** The row of an active Job after [_update_job_progress]. *)
Lemma update_job_progress_row db job :
  NoDup (Job.id <$> Database.jobs db) →
  job ∈ Database.jobs db →
  Job.status job = JobStatus.ACTIVE →
  Database.get_tasks_by_job (Job.id job) db ≠ [] →
  Database.get_job (Job.id job) (Scheduler._update_job_progress plugins uuid4 now db)
  = Some (Database.job_columns
            (Scheduler.aggregate now (Database.get_tasks_by_job (Job.id job) db) job)
            job).
Proof.
  intros Hnd Hin Hactive Htasks. unfold Scheduler._update_job_progress.
  apply (update_job_progress_fold_self _ (0%nat, db)); simpl; [| |  |done].
  - by apply (snapshot_NoDup (A:=Job.t)).
  - by apply snapshot_elem_of.
  - intros j [_ Hj]%snapshot_elem_of. by apply (fetchone_NoDup (A:=Job.t)).
Qed.

End UpdateJobProgress.

(** C3, counterexample.  Job R is active with two Tasks, one completed and
    one failed; the pass of the scheduler stores the counts and leaves the
    Job active. *)
Lemma aggregation_keeps_job_active_example :
  ¬ Stated.aggregation_fails_job Farm.plugins Farm.uuid4 9 HalfFailed.store "R".
Proof.
  intros Hclaim. edestruct Hclaim as (job' & Hjob' & Hstatus & _).
  - vm_compute. reflexivity.
  - vm_compute. reflexivity.
  - by vm_compute.
  - by vm_compute.
  - vm_compute in Hjob'. injection Hjob' as <-. vm_compute in Hstatus. done.
Qed.

(** C3, amended.  When [_update_job_progress] aggregates an active Job
    whose Tasks are all completed or failed with a nonzero failed count,
    the Job is stored as failed, with finished_at set to the time of the
    pass and the error message "<failed> tasks failed", provided every Task
    failed or more than [max_task_retries] (3) of them did; with fewer
    failures its status is left as it was. *)
Theorem aggregation_fails_job_beyond_retry_budget
    (plugins : registry) (uuid4 : nat → string) (now : datetime)
    (db : Database.t) (job : Job.t) :
  NoDup (Job.id <$> Database.jobs db) →
  job ∈ Database.jobs db →
  Job.status job = JobStatus.ACTIVE →
  let tasks := Database.get_tasks_by_job (Job.id job) db in
  let completed := count_status TaskStatus.COMPLETED tasks in
  let failed := count_status TaskStatus.FAILED tasks in
  let total := Z.of_nat (length tasks) in
  total ≤ completed + failed →
  failed ≠ 0 →
  ∃ job',
    Database.get_job (Job.id job) (Scheduler._update_job_progress plugins uuid4 now db)
    = Some job'
    ∧ Job.task_completed job' = completed
    ∧ Job.task_failed job' = failed
    ∧ (total ≤ failed ∨ Scheduler.max_task_retries < failed →
       Job.status job' = JobStatus.FAILED
       ∧ Job.finished_at job' = Some now
       ∧ Job.error_message job' = Some (pretty failed +:+ " tasks failed"))
    ∧ (failed < total ∧ failed ≤ Scheduler.max_task_retries →
       Job.status job' = JobStatus.ACTIVE
       ∧ Job.finished_at job' = Job.finished_at job
       ∧ Job.error_message job' = Job.error_message job).
Proof.
  intros Hnd Hin Hactive tasks completed failed total Hall Hfailed.
  assert (tasks ≠ []) as Htasks.
  { intros Hnil. apply Hfailed. unfold failed. by rewrite Hnil. }
  eexists. split; [by apply update_job_progress_row|].
  fold tasks. unfold Scheduler.aggregate. fold tasks completed failed total.
  rewrite (proj2 (Z.leb_le _ _) Hall).
  rewrite (proj2 (Z.eqb_neq _ _) Hfailed).
  destruct ((total <=? failed) || (Scheduler.max_task_retries <? failed)) eqn:E.
  - simpl. split; [done|]. split; [done|]. split; [done|].
    intros [Hlt Hle].
    apply orb_true_iff in E as [E%Z.leb_le|E%Z.ltb_lt]; lia.
  - simpl. split; [done|]. split; [done|].
    apply orb_false_iff in E as [E1%Z.leb_gt E2%Z.ltb_ge].
    split; [intros [?|?]; lia|done].
Qed.

Lemma aggregation_fails_job_beyond_retry_budget_witness :
  ∃ job',
    Database.get_job "R"
      (Scheduler._update_job_progress Farm.plugins Farm.uuid4 9 AllFailed.store)
    = Some job'
    ∧ Job.status job' = JobStatus.FAILED
    ∧ Job.finished_at job' = Some 9
    ∧ Job.error_message job' = Some "2 tasks failed".
Proof.
  destruct (aggregation_fails_job_beyond_retry_budget
              Farm.plugins Farm.uuid4 9 AllFailed.store AllFailed.job)
    as (job' & Hjob' & _ & _ & Hfail & _).
  - vm_compute. repeat constructor. intros Hin. inversion Hin.
  - vm_compute. constructor.
  - reflexivity.
  - vm_compute. discriminate.
  - vm_compute. discriminate.
  - exists job'. split; [exact Hjob'|]. apply Hfail. left. vm_compute. discriminate.
Defined.

(** ** Heartbeat timeout sweep (C7) *)

Section WorkerTimeouts.
Context (now : datetime).

Let body := Scheduler._check_worker_timeouts_body now.

(** A Worker whose last heartbeat is at most [worker_timeout] old is
    skipped. *)
Lemma check_worker_timeouts_body_alive db w h :
  Worker.last_heartbeat w = Some h →
  now - h ≤ Scheduler.timedelta Scheduler.worker_timeout →
  body db w = db.
Proof.
  intros Hh Hle. unfold body, Scheduler._check_worker_timeouts_body.
  case_decide; [done|]. rewrite Hh.
  by rewrite (proj2 (Z.ltb_ge _ _) Hle).
Qed.

Lemma check_worker_timeouts_body_jobs db w :
  Database.jobs (body db w) = Database.jobs db.
Proof.
  unfold body, Scheduler._check_worker_timeouts_body.
  repeat case_match; done.
Qed.

(** The body rewrites Worker rows with the id of the examined Worker
    only. *)
Lemma check_worker_timeouts_body_other_worker db w k :
  k ≠ Worker.id w →
  Database.get_worker k (body db w) = Database.get_worker k db.
Proof.
  intros Hne. unfold body, Scheduler._check_worker_timeouts_body.
  repeat case_match; try done;
    unfold Database.get_worker; simpl;
    by rewrite (fetchone_update_where_ne (A:=Worker.t)).
Qed.

Lemma check_worker_timeouts_body_dead db w h r :
  Worker.status w ≠ WorkerStatus.OFFLINE →
  Worker.last_heartbeat w = Some h →
  Scheduler.timedelta Scheduler.worker_timeout < now - h →
  Database.get_worker (Worker.id w) db = Some r →
  Database.get_worker (Worker.id w) (body db w)
  = Some (Worker.set_current_task None (Worker.set_status WorkerStatus.OFFLINE r)).
Proof.
  intros Hs Hh Hlt Hr. unfold body, Scheduler._check_worker_timeouts_body.
  rewrite decide_False by done. rewrite Hh, (proj2 (Z.ltb_lt _ _) Hlt).
  unfold Database.mark_worker_offline, Database.get_worker in *. simpl.
  rewrite (fetchone_update_where_eq (A:=Worker.t)) by done.
  repeat case_match; simpl; by rewrite Hr.
Qed.

Lemma requeue_columns task :
  Database.task_columns (Scheduler.requeue task) task = Scheduler.requeue task.
Proof. by destruct task. Qed.

(** The body leaves a Task row alone unless it is the running current
    Task of the examined Worker, which it requeues. *)
Lemma check_worker_timeouts_body_task db w k x :
  Database.get_task k db = Some x →
  Database.get_task k (body db w) = Some x
  ∨ (Task.status x = TaskStatus.RUNNING
     ∧ Database.get_task k (body db w) = Some (Scheduler.requeue x)).
Proof.
  intros Hx. unfold body, Scheduler._check_worker_timeouts_body.
  case_decide; [by left|].
  destruct (Worker.last_heartbeat w) as [h|]; [|by left].
  destruct (_ <? _); [|by left].
  destruct (Worker.current_task w) as [task_id|]; [|by left].
  destruct (truthy _); [|by left].
  destruct (Database.get_task task_id db) as [task|] eqn:Htask; [|by left].
  case_decide as Hrun; [|by left].
  pose proof (get_task_id _ _ _ Htask) as Hid.
  unfold Database.mark_worker_offline, Database.update_task, Database.get_task in *.
  simpl. rewrite Hid.
  destruct (decide (k = task_id)) as [->|Hne].
  - right. assert (task = x) as -> by congruence. split; [done|].
    rewrite (fetchone_update_where_eq (A:=Task.t)) by done.
    rewrite Hx. simpl. by rewrite requeue_columns.
  - left. rewrite (fetchone_update_where_ne (A:=Task.t)) by done. exact Hx.
Qed.

(** A Task that is not running is left alone. *)
Lemma check_worker_timeouts_body_task_stable db w k x :
  Database.get_task k db = Some x → Task.status x ≠ TaskStatus.RUNNING →
  Database.get_task k (body db w) = Some x.
Proof.
  intros Hx Hs. by destruct (check_worker_timeouts_body_task db w k x Hx) as [?|[? _]].
Qed.

(** The running current Task of a timed-out Worker is requeued. *)
Lemma check_worker_timeouts_body_requeues db w h task_id task :
  Worker.status w ≠ WorkerStatus.OFFLINE →
  Worker.last_heartbeat w = Some h →
  Scheduler.timedelta Scheduler.worker_timeout < now - h →
  Worker.current_task w = Some task_id → task_id ≠ "" →
  Database.get_task task_id db = Some task →
  Task.status task = TaskStatus.RUNNING →
  Database.get_task task_id (body db w) = Some (Scheduler.requeue task).
Proof.
  intros Hs Hh Hlt Hcur Hne Htask Hrun.
  unfold body, Scheduler._check_worker_timeouts_body.
  rewrite decide_False by done. rewrite Hh, (proj2 (Z.ltb_lt _ _) Hlt), Hcur.
  simpl. rewrite bool_decide_eq_false_2 by done. simpl.
  rewrite Htask, decide_True by done.
  unfold Database.mark_worker_offline, Database.get_task in *. simpl.
  rewrite <- (get_task_id _ (Database.mk [] (Database.tasks db) []) _ Htask) at 1.
  rewrite (fetchone_update_where_eq (A:=Task.t)) by done.
  rewrite (get_task_id _ (Database.mk [] (Database.tasks db) []) _ Htask), Htask.
  simpl. by rewrite requeue_columns.
Qed.

Lemma check_worker_timeouts_fold_other_worker l db k :
  k ∉ Worker.id <$> l →
  Database.get_worker k (foldl body db l) = Database.get_worker k db.
Proof.
  revert db. induction l as [|w l IH]; intros db Hk; simpl; [done|].
  rewrite fmap_cons, not_elem_of_cons in Hk. destruct Hk as [Hne Hk].
  rewrite IH by done. by apply check_worker_timeouts_body_other_worker.
Qed.

Lemma check_worker_timeouts_fold_task_stable l db k x :
  Database.get_task k db = Some x → Task.status x ≠ TaskStatus.RUNNING →
  Database.get_task k (foldl body db l) = Some x.
Proof.
  revert db. induction l as [|w l IH]; intros db Hx Hs; simpl; [done|].
  apply IH; [|done]. by apply check_worker_timeouts_body_task_stable.
Qed.

Lemma check_worker_timeouts_fold_task l db k x :
  Database.get_task k db = Some x →
  Database.get_task k (foldl body db l) = Some x
  ∨ (Task.status x = TaskStatus.RUNNING
     ∧ Database.get_task k (foldl body db l) = Some (Scheduler.requeue x)).
Proof.
  revert db. induction l as [|w l IH]; intros db Hx; simpl; [by left|].
  destruct (check_worker_timeouts_body_task db w k x Hx) as [Hsame|[Hrun Hre]].
  - by apply IH.
  - right. split; [done|]. by apply check_worker_timeouts_fold_task_stable.
Qed.

Lemma check_worker_timeouts_fold_row l db w h :
  NoDup (Worker.id <$> l) → w ∈ l →
  Database.get_worker (Worker.id w) db = Some w →
  Worker.status w ≠ WorkerStatus.OFFLINE →
  Worker.last_heartbeat w = Some h →
  Database.get_worker (Worker.id w) (foldl body db l)
  = Some (if Scheduler.timedelta Scheduler.worker_timeout <? now - h
          then Worker.set_current_task None (Worker.set_status WorkerStatus.OFFLINE w)
          else w).
Proof.
  revert db. induction l as [|x l IH]; intros db Hnd Hin Hrow Hs Hh; simpl.
  - by apply elem_of_nil in Hin.
  - rewrite fmap_cons, NoDup_cons in Hnd. destruct Hnd as [Hx Hnd].
    apply elem_of_cons in Hin as [<-|Hin].
    + rewrite check_worker_timeouts_fold_other_worker by done.
      destruct (_ <? _) eqn:E.
      * apply Z.ltb_lt in E. by eapply check_worker_timeouts_body_dead.
      * apply Z.ltb_ge in E.
        by rewrite (check_worker_timeouts_body_alive db w h).
    + apply IH; try done.
      rewrite check_worker_timeouts_body_other_worker; [done|].
      intros Heq. apply Hx. rewrite <- Heq. by apply list_elem_of_fmap_2.
Qed.

Lemma check_worker_timeouts_fold_requeues l db w h task_id task :
  w ∈ l →
  Worker.status w ≠ WorkerStatus.OFFLINE →
  Worker.last_heartbeat w = Some h →
  Scheduler.timedelta Scheduler.worker_timeout < now - h →
  Worker.current_task w = Some task_id → task_id ≠ "" →
  Task.status task = TaskStatus.RUNNING →
  Database.get_task task_id db = Some task
  ∨ Database.get_task task_id db = Some (Scheduler.requeue task) →
  Database.get_task task_id (foldl body db l) = Some (Scheduler.requeue task).
Proof.
  intros Hin Hs Hh Hlt Hcur Hne Hrun. revert db Hin.
  induction l as [|x l IH]; intros db Hin Hrow; simpl.
  - by apply elem_of_nil in Hin.
  - apply elem_of_cons in Hin as [<-|Hin].
    + apply check_worker_timeouts_fold_task_stable; [|done].
      destruct Hrow as [Hrow|Hrow].
      * by eapply check_worker_timeouts_body_requeues.
      * by apply check_worker_timeouts_body_task_stable.
    + apply IH; [done|]. destruct Hrow as [Hrow|Hrow].
      * destruct (check_worker_timeouts_body_task db x task_id task Hrow)
          as [?|[_ ?]]; auto.
      * right. by apply check_worker_timeouts_body_task_stable.
Qed.

End WorkerTimeouts.

(** C7.  Let [w] be a Worker row that is not offline and has a last
    heartbeat.  If the heartbeat is exactly 60 s old, examining [w] leaves
    any store as it is, and after the sweep the row of [w] is unchanged.  If
    it is older than 60 s, after the sweep the row of [w] is offline with
    current_task null, and a Task that was running and named by
    [w.current_task] is stored as pending with assigned_worker null, all
    its other columns unchanged.  (Worker ids are a primary key; task ids
    are non-empty strings.) *)
Theorem timeout_sweep_boundary_and_requeue
    (now : datetime) (db : Database.t) (w : Worker.t) (h : datetime) :
  NoDup (Worker.id <$> Database.workers db) →
  w ∈ Database.workers db →
  Worker.status w ≠ WorkerStatus.OFFLINE →
  Worker.last_heartbeat w = Some h →
  (now - h = Scheduler.timedelta 60 →
     (∀ db0, Scheduler._check_worker_timeouts_body now db0 w = db0)
     ∧ Database.get_worker (Worker.id w) (Scheduler._check_worker_timeouts now db)
       = Some w)
  ∧ (now - h > Scheduler.timedelta 60 →
     Database.get_worker (Worker.id w) (Scheduler._check_worker_timeouts now db)
     = Some (Worker.set_current_task None (Worker.set_status WorkerStatus.OFFLINE w))
     ∧ ∀ task_id task,
         Worker.current_task w = Some task_id → task_id ≠ "" →
         Database.get_task task_id db = Some task →
         Task.status task = TaskStatus.RUNNING →
         Database.get_task task_id (Scheduler._check_worker_timeouts now db)
         = Some (Task.set_assigned_worker None
                   (Task.set_status TaskStatus.PENDING task))).
Proof.
  intros Hnd Hin Hs Hh.
  assert (NoDup (Worker.id <$> Database.get_workers db)) as Hnd'.
  { unfold Database.get_workers. by rewrite (order_by_perm Database.worker_le). }
  assert (w ∈ Database.get_workers db) as Hin'.
  { unfold Database.get_workers. by apply elem_of_order_by. }
  assert (Database.get_worker (Worker.id w) db = Some w) as Hrow.
  { by apply (fetchone_NoDup (A:=Worker.t)). }
  pose proof (check_worker_timeouts_fold_row now _ db w h Hnd' Hin' Hrow Hs Hh) as Hfold.
  fold (Scheduler._check_worker_timeouts now db) in Hfold.
  split.
  - intros Heq. split.
    + intros db0. apply (check_worker_timeouts_body_alive now db0 w h Hh).
      change Scheduler.worker_timeout with 60. lia.
    + rewrite Hfold. change Scheduler.worker_timeout with 60.
      by rewrite (proj2 (Z.ltb_ge _ _)) by lia.
  - intros Hgt. split.
    + rewrite Hfold. change Scheduler.worker_timeout with 60.
      by rewrite (proj2 (Z.ltb_lt _ _)) by lia.
    + intros task_id task Hcur Hne Htask Hrun.
      apply (check_worker_timeouts_fold_requeues now _ db w h task_id task);
        auto. change Scheduler.worker_timeout with 60. lia.
Qed.

Lemma timeout_sweep_boundary_and_requeue_witness :
  Database.get_worker "W" (Scheduler._check_worker_timeouts 60000002 Silent.store)
  = Some Silent.worker
  ∧ Database.get_worker "W" (Scheduler._check_worker_timeouts 60000003 Silent.store)
    = Some (Worker.set_current_task None
              (Worker.set_status WorkerStatus.OFFLINE Silent.worker))
  ∧ Database.get_task "R/0" (Scheduler._check_worker_timeouts 60000003 Silent.store)
    = Some (Task.set_assigned_worker None
              (Task.set_status TaskStatus.PENDING Silent.task)).
Proof.
  assert (NoDup (Worker.id <$> Database.workers Silent.store)) as Hnd.
  { vm_compute. repeat constructor. intros Hin. inversion Hin. }
  assert (Silent.worker ∈ Database.workers Silent.store) as Hin.
  { vm_compute. constructor. }
  assert (Worker.status Silent.worker ≠ WorkerStatus.OFFLINE) as Hs.
  { vm_compute. discriminate. }
  split; [|split].
  - apply (proj1 (timeout_sweep_boundary_and_requeue
                    60000002 Silent.store Silent.worker 2 Hnd Hin Hs eq_refl)).
    vm_compute. reflexivity.
  - apply (proj2 (timeout_sweep_boundary_and_requeue
                    60000003 Silent.store Silent.worker 2 Hnd Hin Hs eq_refl)).
    vm_compute. reflexivity.
  - apply (proj2 (timeout_sweep_boundary_and_requeue
                    60000003 Silent.store Silent.worker 2 Hnd Hin Hs eq_refl)).
    + vm_compute. reflexivity.
    + reflexivity.
    + vm_compute. discriminate.
    + vm_compute. reflexivity.
    + reflexivity.
Defined.

(** ** Retry of a failed Job (C8) *)

Section TableMaps.
Context {A : Type} `{Keyed A}.

Lemma fetchone_fmap (f : A → A) k (tbl : list A) :
  (∀ r, key (f r) = key r) → fetchone k (f <$> tbl) = f <$> fetchone k tbl.
Proof.
  intros Hf. induction tbl as [|x tbl IH]; simpl; [done|].
  rewrite Hf. by case_decide.
Qed.

(** Two tables with the same keys in the same order, without duplicates,
    that answer every lookup alike are equal. *)
Lemma table_ext (tbl1 tbl2 : list A) :
  key <$> tbl1 = key <$> tbl2 → NoDup (key <$> tbl1) →
  (∀ k, fetchone k tbl1 = fetchone k tbl2) → tbl1 = tbl2.
Proof.
  revert tbl2. induction tbl1 as [|x tbl1 IH]; intros [|y tbl2]; simpl; try done.
  intros [= Hk Hks] [Hx Hnd]%NoDup_cons Hall.
  pose proof (Hall (key x)) as Hhead. simpl in Hhead.
  rewrite decide_True in Hhead by done. rewrite decide_True in Hhead by done.
  injection Hhead as ->. f_equal. apply IH; [done|done|].
  intros k. specialize (Hall k). simpl in Hall.
  destruct (decide (key y = k)) as [<-|Hne]; [|done].
  transitivity (@None A); [|symmetry]; apply fetchone_None; intros r Hr Hkey.
  - apply Hx. rewrite <- Hkey. by apply list_elem_of_fmap_2.
  - apply Hx. rewrite Hks, <- Hkey. by apply list_elem_of_fmap_2.
Qed.

Lemma filter_fmap_stable (f : A → A) (P : A → Prop) `{∀ x, Decision (P x)}
    (l : list A) :
  (∀ x, P (f x) ↔ P x) → filter P (f <$> l) = f <$> filter P l.
Proof.
  intros Hf. induction l as [|x l IH]; [done|].
  rewrite fmap_cons, !filter_cons.
  destruct (decide (P x)) as [Hx|Hx], (decide (P (f x))) as [Hfx|Hfx].
  - by rewrite fmap_cons, IH.
  - destruct Hfx. by apply Hf.
  - destruct Hx. by apply Hf.
  - exact IH.
Qed.

Lemma insert_by_fmap (f : A → A) (le : A → A → bool) x (l : list A) :
  (∀ a b, le (f a) (f b) = le a b) →
  insert_by le (f x) (f <$> l) = f <$> insert_by le x l.
Proof.
  intros Hf. induction l as [|y l IH]; [done|].
  rewrite fmap_cons. simpl. rewrite Hf. destruct (le x y); [done|].
  by rewrite fmap_cons, IH.
Qed.

Lemma order_by_fmap (f : A → A) (le : A → A → bool) (l : list A) :
  (∀ a b, le (f a) (f b) = le a b) →
  order_by le (f <$> l) = f <$> order_by le l.
Proof.
  intros Hf. induction l as [|x l IH]; [done|].
  rewrite fmap_cons. unfold order_by in *. simpl. by rewrite IH, insert_by_fmap.
Qed.

End TableMaps.

Lemma reset_task_columns x :
  Database.task_columns (Scheduler.reset_task x) x = Scheduler.reset_task x.
Proof. by destruct x. Qed.

Lemma retried_id job_id x : Task.id (Scheduler.retried job_id x) = Task.id x.
Proof. unfold Scheduler.retried. by case_decide. Qed.

Lemma retried_job_id job_id x :
  Task.job_id (Scheduler.retried job_id x) = Task.job_id x.
Proof. unfold Scheduler.retried. by case_decide. Qed.

Lemma retried_index job_id x : Task.index (Scheduler.retried job_id x) = Task.index x.
Proof. unfold Scheduler.retried. by case_decide. Qed.

Lemma retry_job_body_other db x k :
  k ≠ Task.id x →
  Database.get_task k (Scheduler.retry_job_body db x) = Database.get_task k db.
Proof.
  intros Hne. unfold Scheduler.retry_job_body. case_decide; [|done].
  unfold Database.get_task, Database.update_task. simpl.
  by rewrite (fetchone_update_where_ne (A:=Task.t)).
Qed.

Lemma retry_job_body_frame db x :
  Database.jobs (Scheduler.retry_job_body db x) = Database.jobs db
  ∧ Database.workers (Scheduler.retry_job_body db x) = Database.workers db
  ∧ Task.id <$> Database.tasks (Scheduler.retry_job_body db x)
    = Task.id <$> Database.tasks db.
Proof.
  unfold Scheduler.retry_job_body. case_decide; [|done]. simpl.
  split; [done|]. split; [done|]. by apply (keys_update_where (A:=Task.t)).
Qed.

Lemma retry_job_fold_frame l db :
  Database.jobs (foldl Scheduler.retry_job_body db l) = Database.jobs db
  ∧ Database.workers (foldl Scheduler.retry_job_body db l) = Database.workers db
  ∧ Task.id <$> Database.tasks (foldl Scheduler.retry_job_body db l)
    = Task.id <$> Database.tasks db.
Proof.
  revert db. induction l as [|x l IH]; intros db; simpl; [done|].
  destruct (IH (Scheduler.retry_job_body db x)) as (-> & -> & ->).
  apply retry_job_body_frame.
Qed.

Lemma retry_job_fold_untouched l db k :
  (∀ x, x ∈ l → Task.id x = k → Task.status x ≠ TaskStatus.FAILED) →
  Database.get_task k (foldl Scheduler.retry_job_body db l) = Database.get_task k db.
Proof.
  revert db. induction l as [|x l IH]; intros db Hl; simpl; [done|].
  rewrite IH.
  - destruct (decide (Task.status x = TaskStatus.FAILED)) as [Hf|Hf].
    + apply retry_job_body_other. intros ->. by apply (Hl x); [left|..].
    + unfold Scheduler.retry_job_body. by rewrite decide_False.
  - intros y Hy. apply Hl. by right.
Qed.

Lemma retry_job_fold_reset l db x :
  NoDup (Task.id <$> l) → x ∈ l → Task.status x = TaskStatus.FAILED →
  Database.get_task (Task.id x) db = Some x →
  Database.get_task (Task.id x) (foldl Scheduler.retry_job_body db l)
  = Some (Scheduler.reset_task x).
Proof.
  revert db. induction l as [|y l IH]; intros db Hnd Hin Hf Hrow; simpl.
  - by apply elem_of_nil in Hin.
  - rewrite fmap_cons, NoDup_cons in Hnd. destruct Hnd as [Hy Hnd].
    apply elem_of_cons in Hin as [<-|Hin].
    + rewrite retry_job_fold_untouched.
      * unfold Scheduler.retry_job_body. rewrite decide_True by done.
        unfold Database.get_task, Database.update_task in *. simpl.
        rewrite (fetchone_update_where_eq (A:=Task.t)) by done.
        rewrite Hrow. simpl. by rewrite reset_task_columns.
      * intros z Hz Hid. destruct Hy. rewrite <- Hid. by apply list_elem_of_fmap_2.
    + apply IH; try done. rewrite retry_job_body_other; [done|].
      intros Heq. apply Hy. rewrite <- Heq. by apply list_elem_of_fmap_2.
Qed.

(** The Tasks table after the loop of [retry_job]. *)
Lemma retry_job_fold_tasks job_id db :
  NoDup (Task.id <$> Database.tasks db) →
  Database.tasks (foldl Scheduler.retry_job_body db
                    (Database.get_tasks_by_job job_id db))
  = Scheduler.retried job_id <$> Database.tasks db.
Proof.
  intros Hnd.
  destruct (retry_job_fold_frame (Database.get_tasks_by_job job_id db) db)
    as (_ & _ & Hkeys).
  apply (table_ext (A:=Task.t)).
  - unfold key, task_keyed. rewrite Hkeys, <- list_fmap_compose.
    apply list_fmap_ext. intros _ x _. simpl. by rewrite retried_id.
  - unfold key, task_keyed. by rewrite Hkeys.
  - intros k. rewrite (fetchone_fmap (A:=Task.t)) by apply retried_id.
    change (fetchone k (Database.tasks ?d)) with (Database.get_task k d).
    destruct (Database.get_task k db) as [x|] eqn:Hx.
    + pose proof (get_task_id _ _ _ Hx) as Hid.
      pose proof (fetchone_elem_of (A:=Task.t) _ _ _ Hx) as Hin.
      simpl. unfold Scheduler.retried.
      destruct (decide (Task.job_id x = job_id ∧ Task.status x = TaskStatus.FAILED))
        as [[Hjob Hfailed]|Hnot].
      * rewrite <- Hid. apply retry_job_fold_reset; [| |done|by rewrite Hid].
        -- by apply (snapshot_NoDup (A:=Task.t)).
        -- by apply snapshot_elem_of.
      * rewrite retry_job_fold_untouched; [done|].
        intros y [Hjob Hy]%snapshot_elem_of Hyk Hfailed.
        assert (y = x) as ->.
        { pose proof (fetchone_NoDup (A:=Task.t) _ y Hnd Hy) as Hy'.
          change (key y) with (Task.id y) in Hy'. rewrite Hyk in Hy'.
          assert (Some y = Some x) as [= ->]; [|done].
          rewrite <- Hy'. exact Hx. }
        by apply Hnot.
    + rewrite retry_job_fold_untouched; [by rewrite Hx|].
      intros y [_ Hy]%snapshot_elem_of Hyk _.
      unfold Database.get_task in Hx.
      rewrite (fetchone_None (A:=Task.t)) in Hx. by apply (Hx y).
Qed.

(** The Tasks of a Job, in index order, after every row went through
    [retried]. *)
Lemma get_tasks_by_job_retried job_id k (tasks : list Task.t) jobs workers :
  Database.get_tasks_by_job k
    (Database.mk jobs (Scheduler.retried job_id <$> tasks) workers)
  = Scheduler.retried job_id
    <$> Database.get_tasks_by_job k (Database.mk jobs tasks workers).
Proof.
  unfold Database.get_tasks_by_job. simpl.
  rewrite (filter_fmap_stable (A:=Task.t)).
  - apply (order_by_fmap (A:=Task.t)). intros a b. unfold Database.task_le.
    by rewrite !retried_index.
  - intros x. by rewrite retried_job_id.
Qed.

(** C8, counterexample.  Job R is failed with stored progress 50; none of
    its Tasks is completed (one is running, one failed).  After the retry
    the stored progress is still 50, not the completed percentage 0. *)
Lemma retry_keeps_stale_progress_example :
  ¬ Stated.retry_recomputes_progress "R" Stale.store.
Proof.
  intros Hclaim.
  destruct (Hclaim Stale.job) as (job' & Hjob' & Hprogress).
  - by vm_compute.
  - done.
  - vm_compute in Hjob'. injection Hjob' as <-. vm_compute in Hprogress. done.
Qed.

(** C8, amended.  The retry of a failed Job succeeds; it keeps the ids of
    the Tasks table and of the Tasks of the Job, in order; it resets exactly
    the failed Tasks of the Job (status pending, assigned_worker, exit_code
    and error_message null, every other column kept) and leaves every other
    Task row as it was; it stores the Job as queued with task_failed 0 and
    error_message and finished_at null.  Job.progress is left as stored: it
    is not recomputed.  (Task ids are a primary key.) *)
Theorem retry_job_resets_failed_tasks_and_requeues
    (job_id : string) (db : Database.t) (job : Job.t) :
  NoDup (Task.id <$> Database.tasks db) →
  Database.get_job job_id db = Some job →
  Job.status job = JobStatus.FAILED →
  (Scheduler.retry_job job_id db).1 = true
  ∧ Database.tasks (Scheduler.retry_job job_id db).2
    = Scheduler.retried job_id <$> Database.tasks db
  ∧ (∀ x, Task.job_id x = job_id → Task.status x = TaskStatus.FAILED →
       Task.status (Scheduler.retried job_id x) = TaskStatus.PENDING
       ∧ Task.assigned_worker (Scheduler.retried job_id x) = None
       ∧ Task.exit_code (Scheduler.retried job_id x) = None
       ∧ Task.error_message (Scheduler.retried job_id x) = None)
  ∧ (∀ x, Task.job_id x ≠ job_id ∨ Task.status x ≠ TaskStatus.FAILED →
       Scheduler.retried job_id x = x)
  ∧ Task.id <$> Database.tasks (Scheduler.retry_job job_id db).2
    = Task.id <$> Database.tasks db
  ∧ Task.id <$> Database.get_tasks_by_job job_id (Scheduler.retry_job job_id db).2
    = Task.id <$> Database.get_tasks_by_job job_id db
  ∧ (∃ job',
       Database.get_job job_id (Scheduler.retry_job job_id db).2 = Some job'
       ∧ Job.status job' = JobStatus.QUEUED
       ∧ Job.task_failed job' = 0
       ∧ Job.error_message job' = None
       ∧ Job.finished_at job' = None
       ∧ Job.progress job' = Job.progress job).
Proof.
  intros Hnd Hjob Hfailed. unfold Scheduler.retry_job.
  rewrite Hjob, decide_True by done. simpl.
  pose proof (retry_job_fold_tasks job_id db Hnd) as Htasks.
  destruct (retry_job_fold_frame (Database.get_tasks_by_job job_id db) db)
    as (Hjobs & Hworkers & Hkeys).
  split; [done|]. split; [done|]. split; [|split; [|split; [done|split]]].
  - intros x Hx Hs. unfold Scheduler.retried. by rewrite decide_True.
  - intros x Hx. unfold Scheduler.retried. rewrite decide_False; [done|].
    intros [? ?]. by destruct Hx.
  - unfold Database.get_tasks_by_job at 1. simpl. rewrite Htasks.
    pose proof (get_tasks_by_job_retried job_id job_id (Database.tasks db) [] [])
      as Hsnap.
    unfold Database.get_tasks_by_job in *. simpl in Hsnap. rewrite Hsnap.
    rewrite <- list_fmap_compose. apply list_fmap_ext.
    intros _ x _. simpl. apply retried_id.
  - pose proof (get_job_id _ _ _ Hjob) as Hid.
    unfold Database.get_job, Database.update_job in *. simpl.
    rewrite Hjobs, Hid, (fetchone_update_where_eq (A:=Job.t)) by done.
    rewrite Hjob. simpl. eexists. split; [done|]. by destruct job.
Qed.

Lemma retry_job_resets_failed_tasks_and_requeues_witness :
  (Scheduler.retry_job "R" Stale.store).1 = true
  ∧ (Task.status <$> Database.get_task "R/1" (Scheduler.retry_job "R" Stale.store).2)
    = Some TaskStatus.PENDING
  ∧ ∃ job',
      Database.get_job "R" (Scheduler.retry_job "R" Stale.store).2 = Some job'
      ∧ Job.status job' = JobStatus.QUEUED
      ∧ Job.progress job' = (100 # 2)%Q.
Proof.
  destruct (retry_job_resets_failed_tasks_and_requeues "R" Stale.store Stale.job)
    as (Hok & Htasks & _ & _ & _ & _ & job' & Hjob' & Hstatus & _ & _ & _ & Hprogress).
  - apply (bool_decide_unpack _). vm_compute. exact I.
  - vm_compute. reflexivity.
  - reflexivity.
  - split; [exact Hok|]. split.
    + unfold Database.get_task. rewrite Htasks. vm_compute. reflexivity.
    + exists job'. split; [exact Hjob'|]. split; [exact Hstatus|exact Hprogress].
Defined.

(** ** The link between Tasks in flight and busy Workers (C4) *)

(** What the dispatch query returns is a pending Task row whose Job is
    stored as queued or active in a pool of the Worker. *)
Lemma get_next_task_for_worker_Some worker db x :
  Database.get_next_task_for_worker worker db = Some x →
  x ∈ Database.tasks db
  ∧ Task.status x = TaskStatus.PENDING
  ∧ ∃ j, Database.get_job (Task.job_id x) db = Some j
         ∧ (Job.status j = JobStatus.QUEUED ∨ Job.status j = JobStatus.ACTIVE)
         ∧ Job.pool j ∈ Worker.pools worker.
Proof.
  unfold Database.get_next_task_for_worker.
  destruct (head _) as [[x' j]|] eqn:Hhead; [|done]. intros [= ->].
  apply head_Some_elem_of, elem_of_order_by, list_elem_of_filter in Hhead
    as [(Hpending & Hstatus & Hpool) Hjoin].
  apply list_elem_of_omap in Hjoin as (y & Hy & Hjoin).
  destruct (Database.get_job (Task.job_id y) db) as [j'|] eqn:Hj; [|done].
  simpl in Hjoin. injection Hjoin as -> ->. simpl in *. eauto 10.
Qed.

Lemma upsert_worker_get worker db :
  Database.get_worker (Worker.id worker) (Database.upsert_worker worker db)
  = Some worker.
Proof.
  unfold Database.upsert_worker, Database.get_worker.
  destruct (fetchone (Worker.id worker) (Database.workers db)) as [r|] eqn:Hr; simpl.
  - rewrite (fetchone_update_where_eq (A:=Worker.t)) by done. by rewrite Hr.
  - rewrite fetchone_app, Hr. simpl. by rewrite decide_True.
Qed.

Lemma upsert_worker_frame worker db :
  Database.jobs (Database.upsert_worker worker db) = Database.jobs db
  ∧ Database.tasks (Database.upsert_worker worker db) = Database.tasks db.
Proof. unfold Database.upsert_worker. by case_match. Qed.

Lemma update_job_frame job db :
  Database.tasks (Database.update_job job db) = Database.tasks db
  ∧ Database.workers (Database.update_job job db) = Database.workers db.
Proof. done. Qed.

(** After a pull that returns a Task, the Task and the Worker point at
    each other. *)
Lemma request_task_links worker_id now db task job db' :
  Server.request_task worker_id now db = (Server.Ok (Some (task, job)), db') →
  Task.status task = TaskStatus.ASSIGNED
  ∧ Task.assigned_worker task = Some worker_id
  ∧ (∃ x, Database.get_task (Task.id task) db' = Some x
          ∧ Task.status x = TaskStatus.ASSIGNED
          ∧ Task.assigned_worker x = Some worker_id)
  ∧ (∃ w, Database.get_worker worker_id db' = Some w
          ∧ Worker.status w = WorkerStatus.BUSY
          ∧ Worker.current_task w = Some (Task.id task)).
Proof.
  unfold Server.request_task.
  destruct (Database.get_worker worker_id db) as [worker|] eqn:Hw; [|done].
  case_decide; [done|].
  destruct (Database.get_next_task_for_worker worker db) as [task0|] eqn:Hnext;
    [|done].
  apply get_next_task_for_worker_Some in Hnext as (Hin & _ & _).
  pose proof (get_worker_id _ _ _ Hw) as Hwid.
  set (task1 := Task.set_assigned_worker (Some worker_id)
                  (Task.set_status TaskStatus.ASSIGNED task0)).
  set (worker' := Worker.set_current_task (Some (Task.id task1))
                    (Worker.set_status WorkerStatus.BUSY worker)).
  set (db2 := Database.update_worker worker' (Database.update_task task1 db)).
  assert (∃ x, Database.get_task (Task.id task1) db2 = Some x
               ∧ Task.status x = TaskStatus.ASSIGNED
               ∧ Task.assigned_worker x = Some worker_id) as Htask.
  { destruct (proj2 (fetchone_is_Some (A:=Task.t) (Task.id task0) (Database.tasks db)))
      as [r Hr]; [by exists task0|].
    exists (Database.task_columns task1 r).
    unfold db2, Database.update_worker, Database.get_task.
    rewrite (proj2 (upsert_worker_frame _ _)). simpl.
    rewrite (fetchone_update_where_eq (A:=Task.t)) by done. by rewrite Hr. }
  assert (Database.get_worker worker_id db2 = Some worker') as Hworker.
  { unfold db2, Database.update_worker. rewrite <- Hwid at 1.
    apply (upsert_worker_get worker'). }
  destruct (Database.get_job (Task.job_id task1) db2) as [j|]; [case_decide|];
    intros [= <- <- <-]; (split; [done|]); (split; [done|]);
    (split; [exact Htask|]); exists worker'; split; try done.
Qed.

(** A completion or failure report releases the Worker named by the
    Task. *)
Lemma release_worker_get task db worker_id w :
  Task.assigned_worker task = Some worker_id → worker_id ≠ "" →
  Database.get_worker worker_id db = Some w →
  Database.get_worker worker_id (Server.release_worker task db)
  = Some (Worker.set_current_task None (Worker.set_status WorkerStatus.IDLE w)).
Proof.
  intros Ha Hne Hw. unfold Server.release_worker. rewrite Ha. simpl.
  rewrite bool_decide_eq_false_2 by done. simpl. rewrite Hw.
  unfold Database.update_worker.
  rewrite <- (get_worker_id _ _ _ Hw) at 1.
  apply (upsert_worker_get (Worker.set_current_task None
                              (Worker.set_status WorkerStatus.IDLE w))).
Qed.

Lemma task_completed_releases task_id exit_code now db task worker_id w :
  Database.get_task task_id db = Some task →
  Task.assigned_worker task = Some worker_id → worker_id ≠ "" →
  Database.get_worker worker_id db = Some w →
  Database.get_worker worker_id (Server.task_completed task_id exit_code now db).2
  = Some (Worker.set_current_task None (Worker.set_status WorkerStatus.IDLE w)).
Proof.
  intros Ht Ha Hne Hw. unfold Server.task_completed. rewrite Ht.
  set (db1 := Database.update_task_status _ _ _ _ _ _ db).
  assert (Database.get_worker worker_id (Server.release_worker task db1)
          = Some (Worker.set_current_task None
                    (Worker.set_status WorkerStatus.IDLE w))) as Hrel.
  { by apply release_worker_get. }
  by destruct (Database.get_job _ _).
Qed.

Lemma task_failed_releases task_id exit_code error_message now db task worker_id w :
  Database.get_task task_id db = Some task →
  Task.assigned_worker task = Some worker_id → worker_id ≠ "" →
  Database.get_worker worker_id db = Some w →
  Database.get_worker worker_id
    (Server.task_failed task_id exit_code error_message now db).2
  = Some (Worker.set_current_task None (Worker.set_status WorkerStatus.IDLE w)).
Proof.
  intros Ht Ha Hne Hw. unfold Server.task_failed. rewrite Ht.
  set (db1 := Database.update_task_status _ _ _ _ _ _ db).
  assert (Database.get_worker worker_id (Server.release_worker task db1)
          = Some (Worker.set_current_task None
                    (Worker.set_status WorkerStatus.IDLE w))) as Hrel.
  { by apply release_worker_get. }
  by destruct (Database.get_job _ _).
Qed.

Lemma busy_store_linked : Stated.assignment_invariant Busy.store.
Proof.
  split.
  - intros x Hx Hs. vm_compute in Hx.
    apply elem_of_cons in Hx as [->|Hx].
    + exists "W". eexists. split; [done|]. split; [by vm_compute|]. done.
    + apply elem_of_cons in Hx as [->|Hx]; [by destruct Hs|].
      by apply elem_of_nil in Hx.
  - intros w Hw Hs. vm_compute in Hw.
    apply elem_of_cons in Hw as [->|Hw]; [|by apply elem_of_nil in Hw].
    exists "R/0". eexists. split; [done|]. split; [by vm_compute|]. done.
Qed.

(** C4, counterexample.  In a store where Worker W is busy on the assigned
    Task R/0 the invariant holds; W registers again (an agent restart) and
    its row becomes idle with current_task null while R/0 stays assigned to
    it. *)
Lemma register_breaks_assignment_link_example :
  ¬ Stated.invariant_preserved Farm.plugins 4
      (Coordinator.RegisterWorker (Farm.agent "W" ["aftereffects"])) Busy.store.
Proof.
  intros Hclaim. destruct (Hclaim busy_store_linked) as [Htasks _].
  edestruct Htasks as (worker_id & w & Ha & Hw & Hs & _).
  - vm_compute. apply list_elem_of_here.
  - left. reflexivity.
  - vm_compute in Ha. injection Ha as <-.
    vm_compute in Hw. injection Hw as <-. discriminate Hs.
Qed.

(** C4, amended.  The link is established by dispatch and dissolved by the
    reports, one Task and one Worker at a time:
    - after a pull that returns Task t to Worker w, the stored t is assigned
      with assigned_worker = w and the stored w is busy with current_task =
      t.id;
    - after a completion or a failure report for a Task, the registered
      Worker named by its assigned_worker is idle with current_task null;
    - after a registration the Worker's row is idle with current_task null,
      whatever Tasks name it, and the Jobs and Tasks are unchanged. *)
Theorem dispatch_links_and_reports_release :
  (∀ worker_id now db task job db',
     Server.request_task worker_id now db = (Server.Ok (Some (task, job)), db') →
     Task.status task = TaskStatus.ASSIGNED
     ∧ Task.assigned_worker task = Some worker_id
     ∧ (∃ x, Database.get_task (Task.id task) db' = Some x
             ∧ Task.status x = TaskStatus.ASSIGNED
             ∧ Task.assigned_worker x = Some worker_id)
     ∧ (∃ w, Database.get_worker worker_id db' = Some w
             ∧ Worker.status w = WorkerStatus.BUSY
             ∧ Worker.current_task w = Some (Task.id task)))
  ∧ (∀ task_id exit_code error_message now db task worker_id w,
       Database.get_task task_id db = Some task →
       Task.assigned_worker task = Some worker_id → worker_id ≠ "" →
       Database.get_worker worker_id db = Some w →
       Database.get_worker worker_id
         (Server.task_completed task_id exit_code now db).2
       = Some (Worker.set_current_task None (Worker.set_status WorkerStatus.IDLE w))
       ∧ Database.get_worker worker_id
           (Server.task_failed task_id exit_code error_message now db).2
         = Some (Worker.set_current_task None
                   (Worker.set_status WorkerStatus.IDLE w)))
  ∧ (∀ data now db,
       (∃ w, Database.get_worker (Server.reg_id data)
               (Server.register_worker data now db).2 = Some w
             ∧ Worker.status w = WorkerStatus.IDLE
             ∧ Worker.current_task w = None
             ∧ Worker.last_heartbeat w = Some now)
       ∧ Database.jobs (Server.register_worker data now db).2 = Database.jobs db
       ∧ Database.tasks (Server.register_worker data now db).2 = Database.tasks db).
Proof.
  split; [|split].
  - apply request_task_links.
  - intros task_id exit_code error_message now db task worker_id w Ht Ha Hne Hw.
    split.
    + by eapply task_completed_releases.
    + by eapply task_failed_releases.
  - intros data now db. unfold Server.register_worker. simpl. split.
    + eexists. split; [apply (upsert_worker_get (Worker.mk _ _ _ _ _ _ _ _ _ _ _ _ _ _))|].
      done.
    + apply upsert_worker_frame.
Qed.

Lemma dispatch_links_and_reports_release_witness :
  Server.request_task "W" 3 Busy.before
  = (Server.Ok (Some (Busy.task, Some Busy.job)), Busy.store)
  ∧ (∃ w, Database.get_worker "W" Busy.store = Some w
          ∧ Worker.status w = WorkerStatus.BUSY
          ∧ Worker.current_task w = Some "R/0")
  ∧ Database.get_worker "W" (Server.task_completed "R/0" 0 5 Busy.store).2
    = Some (Worker.set_current_task None
              (Worker.set_status WorkerStatus.IDLE Busy.worker)).
Proof.
  assert (Server.request_task "W" 3 Busy.before
          = (Server.Ok (Some (Busy.task, Some Busy.job)), Busy.store)) as Hpull.
  { vm_compute. reflexivity. }
  split; [exact Hpull|]. split.
  - destruct (proj1 dispatch_links_and_reports_release "W" 3
                Busy.before Busy.task (Some Busy.job) Busy.store Hpull)
      as (_ & _ & _ & Hw).
    exact Hw.
  - apply (proj1 (proj1 (proj2 dispatch_links_and_reports_release)
                    "R/0" 0 None 5 Busy.store Busy.task "W" Busy.worker
                    ltac:(vm_compute; reflexivity) eq_refl
                    ltac:(vm_compute; discriminate)
                    ltac:(vm_compute; reflexivity))).
Defined.

(** ** Follow-up Jobs (C10) *)

(** *** No request creates a Task for an existing Job *)

Section NoTasks.
Context (f : string).

Lemma no_tasks_of_same db db' :
  Database.tasks db' = Database.tasks db →
  FollowUp.no_tasks_of f db → FollowUp.no_tasks_of f db'.
Proof. unfold FollowUp.no_tasks_of. by intros ->. Qed.

Lemma no_tasks_of_update_where k g db :
  (∀ r, Task.job_id (g r) = Task.job_id r) →
  FollowUp.no_tasks_of f db →
  FollowUp.no_tasks_of f (Database.with_tasks (update_where k g) db).
Proof.
  intros Hg Hdb x Hx. simpl in Hx.
  apply elem_of_update_where in Hx as (r & Hr & [->|[_ ->]]).
  - by apply Hdb.
  - rewrite Hg. by apply Hdb.
Qed.

Lemma no_tasks_of_update_task task db :
  FollowUp.no_tasks_of f db → FollowUp.no_tasks_of f (Database.update_task task db).
Proof. by apply no_tasks_of_update_where. Qed.

Lemma no_tasks_of_update_task_status k s a b c d db :
  FollowUp.no_tasks_of f db →
  FollowUp.no_tasks_of f (Database.update_task_status k s a b c d db).
Proof. by apply no_tasks_of_update_where. Qed.

Lemma no_tasks_of_update_task_progress k p db :
  FollowUp.no_tasks_of f db →
  FollowUp.no_tasks_of f (Database.update_task_progress k p db).
Proof. by apply no_tasks_of_update_where. Qed.

Lemma no_tasks_of_delete_job k db :
  FollowUp.no_tasks_of f db → FollowUp.no_tasks_of f (Database.delete_job k db).
Proof.
  intros Hdb x Hx. simpl in Hx. apply list_elem_of_filter in Hx as [_ Hx].
  by apply Hdb.
Qed.

Lemma no_tasks_of_update_job job db :
  FollowUp.no_tasks_of f db → FollowUp.no_tasks_of f (Database.update_job job db).
Proof. by apply no_tasks_of_same. Qed.

Lemma no_tasks_of_update_job_status k s e now db :
  FollowUp.no_tasks_of f db →
  FollowUp.no_tasks_of f (Database.update_job_status k s e now db).
Proof. apply no_tasks_of_same. by destruct s. Qed.

Lemma no_tasks_of_upsert_worker w db :
  FollowUp.no_tasks_of f db → FollowUp.no_tasks_of f (Database.upsert_worker w db).
Proof. apply no_tasks_of_same, upsert_worker_frame. Qed.

Lemma no_tasks_of_update_worker w db :
  FollowUp.no_tasks_of f db → FollowUp.no_tasks_of f (Database.update_worker w db).
Proof. apply no_tasks_of_upsert_worker. Qed.

Lemma no_tasks_of_mark_worker_offline k db :
  FollowUp.no_tasks_of f db →
  FollowUp.no_tasks_of f (Database.mark_worker_offline k db).
Proof. by apply no_tasks_of_same. Qed.

Lemma no_tasks_of_release_worker task db :
  FollowUp.no_tasks_of f db → FollowUp.no_tasks_of f (Server.release_worker task db).
Proof.
  intros Hdb. unfold Server.release_worker.
  repeat case_match; auto using no_tasks_of_update_worker.
Qed.

Lemma no_tasks_of_add_tasks tasks db :
  (∀ x, x ∈ tasks → Task.job_id x ≠ f) →
  FollowUp.no_tasks_of f db →
  FollowUp.no_tasks_of f (Server.add_tasks tasks db).1.
Proof.
  revert db. induction tasks as [|x tasks IH]; intros db Htasks Hdb; simpl; [done|].
  destruct (Database.add_task x db) as [db'|] eqn:Hadd; [|done].
  apply IH.
  - intros y Hy. apply Htasks. by right.
  - unfold Database.add_task in Hadd.
    destruct (insert_row x (Database.tasks db)) as [ts|] eqn:Hins; [|done].
    apply insert_row_Some in Hins as [_ ->]. injection Hadd as <-.
    intros y Hy. simpl in Hy. apply elem_of_app in Hy as [Hy|Hy]; [by apply Hdb|].
    apply list_elem_of_singleton in Hy as ->. apply Htasks. by left.
Qed.

Lemma no_tasks_of_tick plugins uuid4 now db :
  FollowUp.no_tasks_of f db →
  FollowUp.no_tasks_of f (Scheduler.tick plugins uuid4 now db).
Proof.
  intros Hdb. unfold Scheduler.tick, Scheduler._update_job_progress.
  eapply no_tasks_of_same; [apply update_job_progress_fold_tasks|]. simpl.
  unfold Scheduler._check_worker_timeouts.
  generalize (Database.get_workers db). intros l. revert db Hdb.
  induction l as [|w l IH]; intros db Hdb; simpl; [done|].
  apply IH. unfold Scheduler._check_worker_timeouts_body.
  repeat case_match;
    auto using no_tasks_of_update_task, no_tasks_of_mark_worker_offline.
Qed.

Lemma no_tasks_of_retry_job_fold l db :
  FollowUp.no_tasks_of f db →
  FollowUp.no_tasks_of f (foldl Scheduler.retry_job_body db l).
Proof.
  revert db. induction l as [|x l IH]; intros db Hdb; simpl; [done|].
  apply IH. unfold Scheduler.retry_job_body.
  case_match; auto using no_tasks_of_update_task.
Qed.

Lemma no_tasks_of_retry_job k db :
  FollowUp.no_tasks_of f db → FollowUp.no_tasks_of f (Scheduler.retry_job k db).2.
Proof.
  intros Hdb. unfold Scheduler.retry_job. repeat case_match; try done. simpl.
  by apply no_tasks_of_update_job, no_tasks_of_retry_job_fold.
Qed.

Lemma no_tasks_of_submit_job plugins submission new_id now db :
  FollowUp.partition_own_job plugins → new_id ≠ f →
  FollowUp.no_tasks_of f db →
  FollowUp.no_tasks_of f (Server.submit_job plugins submission new_id now db).2.
Proof.
  intros Hplugins Hne Hdb. unfold Server.submit_job.
  destruct (plugins !! Server.sub_plugin submission) as [plugin|] eqn:Hp; [|done].
  destruct (RenderPlugin.validate plugin _) as [[] error]; simpl; [|done].
  destruct (Database.add_job _ db) as [db1|] eqn:Hadd; [|done].
  apply add_job_Some in Hadd as (_ & _ & Htasks1 & _).
  assert (FollowUp.no_tasks_of f db1) as Hdb1 by by eapply no_tasks_of_same.
  destruct (RenderPlugin.create_tasks plugin _) as [tasks|] eqn:Hc; simpl.
  - pose proof (no_tasks_of_add_tasks tasks db1) as Hadd.
    destruct (Server.add_tasks tasks db1) as [db2 []]; simpl in *.
    + apply no_tasks_of_update_job, Hadd; [|done].
      intros x Hx. by rewrite (Hplugins _ _ _ _ Hp Hc x Hx).
    + apply no_tasks_of_delete_job, Hadd; [|done].
      intros x Hx. by rewrite (Hplugins _ _ _ _ Hp Hc x Hx).
  - by apply no_tasks_of_delete_job.
Qed.

(** Every request but a submission that draws [f] keeps Job [f] without
    Tasks. *)
Lemma no_tasks_of_handle plugins now r db :
  FollowUp.partition_own_job plugins →
  (∀ submission, r ≠ Coordinator.SubmitJob submission f) →
  FollowUp.no_tasks_of f db →
  FollowUp.no_tasks_of f (Coordinator.handle plugins now r db).
Proof.
  intros Hplugins Hr Hdb. destruct r; simpl.
  - apply no_tasks_of_submit_job; [done| |done]. intros ->. by eapply Hr.
  - unfold Server.suspend_job, Scheduler.suspend_job.
    repeat case_match; simplify_eq; simpl; auto using no_tasks_of_update_job_status.
  - unfold Server.resume_job, Scheduler.resume_job.
    repeat case_match; simplify_eq; simpl; auto using no_tasks_of_update_job_status.
  - unfold Server.cancel_job, Scheduler.cancel_job.
    repeat case_match; simplify_eq; simpl; auto using no_tasks_of_update_job_status.
  - unfold Server.retry_job.
    pose proof (no_tasks_of_retry_job job_id db Hdb).
    by destruct (Scheduler.retry_job job_id db) as [[] ?].
  - unfold Server.delete_job.
    repeat case_match; simpl; auto using no_tasks_of_delete_job.
  - unfold Server.update_job_priority.
    repeat case_match; simpl; auto using no_tasks_of_update_job.
  - by apply no_tasks_of_update_task_status.
  - by apply no_tasks_of_update_task_progress.
  - unfold Server.task_completed.
    repeat case_match; simpl;
      auto using no_tasks_of_update_job, no_tasks_of_release_worker,
                 no_tasks_of_update_task_status.
  - unfold Server.task_failed.
    repeat case_match; simpl;
      auto using no_tasks_of_update_job, no_tasks_of_release_worker,
                 no_tasks_of_update_task_status.
  - unfold Server.retry_task.
    repeat case_match; simpl;
      auto using no_tasks_of_update_task, no_tasks_of_update_task_status.
  - unfold Server.cancel_task.
    repeat case_match; simpl;
      auto using no_tasks_of_release_worker, no_tasks_of_update_task_status.
  - unfold Server.suspend_task.
    repeat case_match; simpl;
      auto using no_tasks_of_release_worker, no_tasks_of_update_task_status.
  - by apply no_tasks_of_upsert_worker.
  - unfold Server.worker_heartbeat. repeat case_match; simpl; [|done].
    by eapply no_tasks_of_same.
  - unfold Server.request_task.
    repeat case_match; simpl;
      auto using no_tasks_of_update_job, no_tasks_of_update_worker,
                 no_tasks_of_update_task.
  - unfold Server.disable_worker.
    repeat case_match; simpl; auto using no_tasks_of_update_worker.
  - unfold Server.enable_worker.
    repeat case_match; simpl; auto using no_tasks_of_update_worker.
  - unfold Server.delete_worker. repeat case_match; simpl; done.
  - by apply no_tasks_of_tick.
Qed.

End NoTasks.

(** *** Only the user's suspend and cancel requests move a pending Job *)

Section StaysPending.
Context (f : string).

Lemma pending_same db db' :
  Database.jobs db' = Database.jobs db →
  FollowUp.pending f db → FollowUp.pending f db'.
Proof. unfold FollowUp.pending, Database.get_job. by intros ->. Qed.

Lemma pending_update_where k g db :
  (∀ r, Job.id (g r) = Job.id r) →
  (k = f → ∀ r, r ∈ Database.jobs db → Job.id r = f →
           Job.status (g r) = JobStatus.PENDING) →
  FollowUp.pending f db →
  FollowUp.pending f (Database.with_jobs (update_where k g) db).
Proof.
  intros Hid Hg [Hsome Hrows]. split.
  - unfold Database.get_job in *. simpl.
    rewrite (fetchone_update_where (A:=Job.t)) by (intros r <-; apply Hid).
    case_decide; [by apply fmap_is_Some|done].
  - intros j Hj Hjf. simpl in Hj.
    apply elem_of_update_where in Hj as (r & Hr & [->|[Hk ->]]).
    + by apply Hrows.
    + rewrite Hid in Hjf. apply Hg; [|done|done].
      unfold key, job_keyed in Hk. congruence.
Qed.

Lemma pending_update_job job db :
  (Job.id job = f → Job.status job = JobStatus.PENDING) →
  FollowUp.pending f db → FollowUp.pending f (Database.update_job job db).
Proof.
  intros Hjob. apply pending_update_where; [done|]. intros Heq r _ _. by apply Hjob.
Qed.

Lemma pending_update_job_status k s e now db :
  k ≠ f → FollowUp.pending f db →
  FollowUp.pending f (Database.update_job_status k s e now db).
Proof.
  intros Hne. unfold Database.update_job_status.
  destruct s; by apply pending_update_where.
Qed.

Lemma pending_delete_job k db :
  k ≠ f → FollowUp.pending f db → FollowUp.pending f (Database.delete_job k db).
Proof.
  intros Hne [Hsome Hrows]. split.
  - unfold Database.get_job in *. simpl.
    rewrite (fetchone_delete_where (A:=Job.t)). by rewrite decide_False.
  - intros j Hj. simpl in Hj. unfold delete_where in Hj.
    apply list_elem_of_filter in Hj as [_ Hj]. by apply Hrows.
Qed.

Lemma pending_append new db db' :
  Database.jobs db' = Database.jobs db ++ new →
  Forall (λ j, Job.id j = f → Job.status j = JobStatus.PENDING) new →
  FollowUp.pending f db → FollowUp.pending f db'.
Proof.
  intros Hjobs Hnew [Hsome Hrows]. split.
  - unfold Database.get_job in *. rewrite Hjobs, fetchone_app.
    by destruct Hsome as [j ->].
  - intros j Hj. rewrite Hjobs in Hj. apply elem_of_app in Hj as [Hj|Hj].
    + by apply Hrows.
    + rewrite Forall_forall in Hnew. by apply Hnew.
Qed.

Lemma pending_upsert_worker w db :
  FollowUp.pending f db → FollowUp.pending f (Database.upsert_worker w db).
Proof. apply pending_same, upsert_worker_frame. Qed.

Lemma pending_update_worker w db :
  FollowUp.pending f db → FollowUp.pending f (Database.update_worker w db).
Proof. apply pending_upsert_worker. Qed.

Lemma pending_release_worker task db :
  FollowUp.pending f db → FollowUp.pending f (Server.release_worker task db).
Proof.
  intros Hdb. unfold Server.release_worker.
  repeat case_match; auto using pending_update_worker.
Qed.

Lemma pending_with_tasks g db :
  FollowUp.pending f db → FollowUp.pending f (Database.with_tasks g db).
Proof. by apply pending_same. Qed.

Lemma pending_add_tasks tasks db :
  FollowUp.pending f db → FollowUp.pending f (Server.add_tasks tasks db).1.
Proof.
  revert db. induction tasks as [|x tasks IH]; intros db Hdb; simpl; [done|].
  destruct (Database.add_task x db) as [db'|] eqn:Hadd; [|done].
  apply IH. unfold Database.add_task in Hadd.
  destruct (insert_row x (Database.tasks db)); [|done].
  injection Hadd as <-. by eapply pending_same.
Qed.

(** A stored Job whose status is not pending is not Job [f]. *)
Lemma pending_other_status db k job :
  FollowUp.pending f db → Database.get_job k db = Some job →
  Job.status job ≠ JobStatus.PENDING → k ≠ f.
Proof.
  intros [_ Hrows] Hjob Hs ->. apply Hs, Hrows.
  - by eapply (fetchone_elem_of (A:=Job.t)).
  - by eapply get_job_id.
Qed.

(** The Job of a stored Task is not Job [f]. *)
Lemma no_tasks_of_get_task db k task :
  FollowUp.no_tasks_of f db → Database.get_task k db = Some task →
  Task.job_id task ≠ f.
Proof. intros Hdb Ht. by eapply Hdb, (fetchone_elem_of (A:=Task.t)). Qed.

Lemma pending_retry_job_fold l db :
  FollowUp.pending f db → FollowUp.pending f (foldl Scheduler.retry_job_body db l).
Proof.
  intros Hdb. eapply pending_same; [|done]. apply retry_job_fold_frame.
Qed.

Lemma pending_check_worker_timeouts now db :
  FollowUp.pending f db → FollowUp.pending f (Scheduler._check_worker_timeouts now db).
Proof.
  intros Hdb. eapply pending_same; [|done].
  unfold Scheduler._check_worker_timeouts.
  generalize (Database.get_workers db). intros l. clear Hdb. revert db.
  induction l as [|w l IH]; intros db; simpl; [done|].
  rewrite IH. apply check_worker_timeouts_body_jobs.
Qed.

Lemma pending_update_job_progress_body plugins uuid4 now st job :
  Job.id job ≠ f → FollowUp.pending f st.2 →
  FollowUp.pending f (Scheduler._update_job_progress_body plugins uuid4 now st job).2.
Proof.
  intros Hne Hdb. unfold Scheduler._update_job_progress_body.
  destruct (Database.get_tasks_by_job (Job.id job) st.2) as [|x l]; [done|].
  simpl. apply pending_update_job.
  { rewrite aggregate_id. by intros ?. }
  destruct (Scheduler.all_completed _); [|done].
  destruct (create_follow_up_jobs_appends plugins uuid4 now
              (Scheduler.aggregate now (x :: l) job) st) as (new & Hjobs & _ & _ & Hnew).
  eapply pending_append; [exact Hjobs| |done].
  eapply Forall_impl; [exact Hnew|]. by intros j [? _] _.
Qed.

Lemma pending_tick plugins uuid4 now db :
  FollowUp.pending f db → FollowUp.pending f (Scheduler.tick plugins uuid4 now db).
Proof.
  intros Hdb. apply (pending_check_worker_timeouts now) in Hdb.
  unfold Scheduler.tick, Scheduler._update_job_progress.
  set (db1 := Scheduler._check_worker_timeouts now db) in *.
  assert (∀ j, j ∈ Database.get_jobs_by_status JobStatus.ACTIVE db1 → Job.id j ≠ f)
    as Hsnap.
  { intros j [Hactive Hj]%snapshot_elem_of Hid.
    destruct Hdb as [_ Hrows]. by rewrite (Hrows j Hj Hid) in Hactive. }
  revert Hsnap. generalize (Database.get_jobs_by_status JobStatus.ACTIVE db1).
  intros l. change db1 with ((0%nat, db1).2) in Hdb. revert Hdb.
  generalize (0%nat, db1). clear db1.
  induction l as [|j l IH]; intros st Hst Hsnap; simpl; [done|].
  apply IH.
  - apply pending_update_job_progress_body; [|done]. apply Hsnap. by left.
  - intros j' Hj'. apply Hsnap. by right.
Qed.

Lemma pending_submit_job plugins submission new_id now db :
  FollowUp.pending f db →
  FollowUp.pending f (Server.submit_job plugins submission new_id now db).2.
Proof.
  intros Hdb. unfold Server.submit_job.
  destruct (plugins !! Server.sub_plugin submission) as [plugin|]; [|done].
  destruct (RenderPlugin.validate plugin _) as [[] error]; simpl; [|done].
  destruct (Database.add_job _ db) as [db1|] eqn:Hadd; [|done].
  apply add_job_Some in Hadd as (Hnew & Hjobs & _ & _). simpl in Hnew.
  assert (new_id ≠ f) as Hne.
  { intros ->. destruct Hdb as [[j Hj] _]. congruence. }
  assert (FollowUp.pending f db1) as Hdb1.
  { eapply pending_append; [exact Hjobs| |done]. by repeat constructor. }
  destruct (RenderPlugin.create_tasks plugin _) as [tasks|]; simpl.
  - pose proof (pending_add_tasks tasks db1 Hdb1) as Hdb2.
    destruct (Server.add_tasks tasks db1) as [db2 []]; simpl in *.
    + by apply pending_update_job.
    + by apply pending_delete_job.
  - by apply pending_delete_job.
Qed.

Lemma pending_task_report db task job (job' : Job.t) :
  FollowUp.no_tasks_of f db →
  Database.get_task (Task.id task) db = Some task →
  ∀ db2, Database.get_job (Task.job_id task) db2 = Some job →
  Job.id job' = Job.id job →
  FollowUp.pending f db2 → FollowUp.pending f (Database.update_job job' db2).
Proof.
  intros Hno Htask db2 Hjob Hid Hdb2. apply pending_update_job; [|done].
  intros Heq. destruct (no_tasks_of_get_task db _ task Hno Htask).
  rewrite <- Heq, Hid. symmetry. by eapply get_job_id.
Qed.

(** Every request but the suspension or the cancellation of Job [f] keeps
    it pending, as long as it has no Tasks. *)
Lemma pending_handle plugins now r db :
  FollowUp.no_tasks_of f db →
  r ≠ Coordinator.SuspendJob f → r ≠ Coordinator.CancelJob f →
  FollowUp.pending f db →
  FollowUp.pending f (Coordinator.handle plugins now r db).
Proof.
  intros Hno Hsuspend Hcancel Hdb. destruct r; simpl.
  - by apply pending_submit_job.
  - unfold Server.suspend_job, Scheduler.suspend_job.
    destruct (Database.get_job job_id db); [|done].
    case_decide; [|done]. cbn [snd]. apply pending_update_job_status; [|done].
    by intros ->.
  - unfold Server.resume_job, Scheduler.resume_job.
    destruct (Database.get_job job_id db) as [job|] eqn:Hjob; [|done].
    case_decide as Hs; [|done].
    assert (job_id ≠ f) by (eapply pending_other_status; [done..|by rewrite Hs]).
    destruct (existsb _ _); cbn [snd]; by apply pending_update_job_status.
  - unfold Server.cancel_job, Scheduler.cancel_job.
    destruct (Database.get_job job_id db); [|done]. cbn [snd].
    apply pending_update_job_status; [|done]. by intros ->.
  - unfold Server.retry_job, Scheduler.retry_job.
    destruct (Database.get_job job_id db) as [job|] eqn:Hjob; [|done].
    case_decide as Hs; [|done]. cbn [snd].
    assert (job_id ≠ f) by (eapply pending_other_status; [done..|by rewrite Hs]).
    apply pending_update_job, pending_retry_job_fold; [|done].
    simpl. intros Heq. by rewrite (get_job_id _ _ _ Hjob) in Heq.
  - unfold Server.delete_job.
    destruct (Database.get_job job_id db) as [job|] eqn:Hjob; [|done].
    case_decide as Hs; [|done]. cbn [snd]. apply pending_delete_job; [|done].
    eapply pending_other_status; [done..|]. by destruct Hs as [->| [->| ->]].
  - unfold Server.update_job_priority.
    destruct (Database.get_job job_id db) as [job|] eqn:Hjob; [|done].
    case_match; [|done]. cbn [snd]. apply pending_update_job; [|done].
    simpl. intros Hid. destruct Hdb as [_ Hrows]. apply Hrows; [|done].
    by eapply (fetchone_elem_of (A:=Job.t)).
  - by apply pending_with_tasks.
  - by apply pending_with_tasks.
  - unfold Server.task_completed.
    destruct (Database.get_task task_id db) as [task|] eqn:Htask; [|done].
    set (db2 := Server.release_worker task _).
    assert (FollowUp.pending f db2) as Hdb2.
    { by apply pending_release_worker, pending_with_tasks. }
    destruct (Database.get_job (Task.job_id task) db2) as [job|] eqn:Hjob; [|done].
    simpl. eapply (pending_task_report db task job); try done.
    + by rewrite (get_task_id _ _ _ Htask).
    + by repeat case_match.
  - unfold Server.task_failed.
    destruct (Database.get_task task_id db) as [task|] eqn:Htask; [|done].
    set (db2 := Server.release_worker task _).
    assert (FollowUp.pending f db2) as Hdb2.
    { by apply pending_release_worker, pending_with_tasks. }
    destruct (Database.get_job (Task.job_id task) db2) as [job|] eqn:Hjob; [|done].
    simpl. eapply (pending_task_report db task job); try done.
    + by rewrite (get_task_id _ _ _ Htask).
    + by repeat case_match.
  - unfold Server.retry_task. repeat case_match; try done; cbn [snd];
      by do 2 apply pending_with_tasks.
  - unfold Server.cancel_task. repeat case_match; try done; cbn [snd];
      by apply pending_with_tasks, pending_release_worker.
  - unfold Server.suspend_task. repeat case_match; try done; cbn [snd];
      by apply pending_with_tasks, pending_release_worker.
  - by apply pending_upsert_worker.
  - unfold Server.worker_heartbeat. repeat case_match; try done;
      by eapply pending_same.
  - unfold Server.request_task.
    destruct (Database.get_worker worker_id db) as [worker|]; [|done].
    case_decide; [done|].
    destruct (Database.get_next_task_for_worker worker db) as [task0|] eqn:Hnext;
      [|done].
    apply get_next_task_for_worker_Some in Hnext as (Hin & _ & _).
    set (db2 := Database.update_worker _ _).
    assert (FollowUp.pending f db2) as Hdb2.
    { by apply pending_update_worker, pending_with_tasks. }
    simpl. destruct (Database.get_job (Task.job_id task0) db2) as [job|] eqn:Hjob;
      [|done].
    case_decide; [|done]. cbn [snd]. apply pending_update_job; [|done]. cbn [snd].
    intros Heq. destruct (Hno task0 Hin).
    rewrite <- Heq. symmetry. exact (get_job_id _ _ _ Hjob).
  - unfold Server.disable_worker. repeat case_match; try done;
      by apply pending_update_worker.
  - unfold Server.enable_worker. repeat case_match; try done;
      by apply pending_update_worker.
  - unfold Server.delete_worker. repeat case_match; try done;
      by eapply pending_same.
  - by apply pending_tick.
Qed.

End StaysPending.

(** *** Histories *)

Lemma no_tasks_of_run f plugins history db :
  FollowUp.partition_own_job plugins →
  FollowUp.never_drawn f history →
  FollowUp.no_tasks_of f db →
  FollowUp.no_tasks_of f (Coordinator.run plugins history db).
Proof.
  intros Hplugins. revert db.
  induction history as [|[now r] history IH]; intros db Hdrawn Hdb; [done|].
  apply IH.
  - intros now' submission Hin. apply (Hdrawn now' submission). by right.
  - change (FollowUp.no_tasks_of f (Coordinator.handle plugins now r db)).
    apply no_tasks_of_handle; [done| |done].
    intros submission ->. apply (Hdrawn now submission). by left.
Qed.

Lemma pending_run f plugins history db :
  FollowUp.partition_own_job plugins →
  FollowUp.never_drawn f history →
  FollowUp.never_suspended_or_cancelled f history →
  FollowUp.no_tasks_of f db →
  FollowUp.pending f db →
  FollowUp.pending f (Coordinator.run plugins history db).
Proof.
  intros Hplugins. revert db.
  induction history as [|[now r] history IH]; intros db Hdrawn Huser Hno Hdb; [done|].
  assert (FollowUp.never_drawn f history) as Hdrawn'.
  { intros now' submission Hin. apply (Hdrawn now' submission). by right. }
  apply IH; [done| | |].
  - intros now'. destruct (Huser now') as [Hs Hc].
    split; intros Hin; [apply Hs|apply Hc]; by right.
  - change (FollowUp.no_tasks_of f (Coordinator.handle plugins now r db)).
    apply no_tasks_of_handle; [done| |done].
    intros submission ->. apply (Hdrawn now submission). by left.
  - destruct (Huser now) as [Hs Hc].
    change (FollowUp.pending f (Coordinator.handle plugins now r db)).
    apply pending_handle; [done| | |done]; intros ->; [apply Hs|apply Hc]; by left.
Qed.

(** A pull never returns a Task of a Job that has none. *)
Lemma request_task_not_of f worker_id now db task job :
  FollowUp.no_tasks_of f db →
  (Server.request_task worker_id now db).1 = Server.Ok (Some (task, job)) →
  Task.job_id task ≠ f.
Proof.
  intros Hno. unfold Server.request_task.
  destruct (Database.get_worker worker_id db) as [worker|]; [|done].
  case_decide; [done|].
  destruct (Database.get_next_task_for_worker worker db) as [task0|] eqn:Hnext;
    [|done].
  apply get_next_task_for_worker_Some in Hnext as (Hin & _ & _).
  repeat case_match; simpl; intros [= <- _]; exact (Hno task0 Hin).
Qed.

Lemma farm_partition_own_job : FollowUp.partition_own_job Farm.plugins.
Proof.
  intros name plugin job tasks Hp Hc x Hx. unfold Farm.plugins in Hp.
  repeat (apply lookup_insert_Some in Hp as [[_ <-]|[_ Hp]];
          [simpl in Hc; simplify_eq;
           repeat (apply elem_of_cons in Hx as [->|Hx]; [done|]);
           by apply elem_of_nil in Hx|]).
  by rewrite lookup_empty in Hp.
Qed.

Lemma rendered_no_tasks : FollowUp.no_tasks_of "follow-up-0" Rendered.store.
Proof.
  intros x Hx. vm_compute in Hx.
  repeat (apply elem_of_cons in Hx as [->|Hx]; [done|]).
  by apply elem_of_nil in Hx.
Qed.

Lemma rendered_pending : FollowUp.pending "follow-up-0" Rendered.store.
Proof.
  split.
  - exists Rendered.follow_up. by vm_compute.
  - intros j Hj. vm_compute in Hj.
    repeat (apply elem_of_cons in Hj as [->|Hj]; [done|]).
    by apply elem_of_nil in Hj.
Qed.

(** C10, counterexample.  Job "follow-up-0" was created by the scheduler
    when Job R completed: it is pending and has no Tasks.  A cancel request
    for it is accepted and stores it as cancelled. *)
Lemma cancel_moves_follow_up_out_of_pending_example :
  ¬ Stated.follow_up_stays_pending Farm.plugins
      [(10, Coordinator.CancelJob "follow-up-0")] Rendered.store "follow-up-0".
Proof.
  intros Hclaim.
  destruct (Hclaim rendered_pending rendered_no_tasks) as [_ Hrows].
  specialize (Hrows (Job.set_error_message None
                       (Job.set_finished_at (Some 10)
                          (Job.set_status JobStatus.CANCELLED Rendered.follow_up)))).
  assert (JobStatus.CANCELLED = JobStatus.PENDING) as Habsurd; [|done].
  apply Hrows; [|done]. vm_compute. apply list_elem_of_further, list_elem_of_here.
Qed.

(** C10, amended.  A follow-up Job is inserted by [_create_follow_up_jobs]
    with status pending and task_total 0, and the insertion adds no Task.
    From then on, for a Job without Tasks: no request of the coordinator
    creates a Task for it, so no pull ever returns one of its Tasks; and
    its status stays pending under every request other than the user's
    suspend and cancel requests for that Job.  (Plugins partition the Job
    they are given; the identifier of the Job is not drawn again by a later
    submission.) *)
Theorem follow_up_job_has_no_task_to_dispatch :
  (∀ plugins uuid4 now job st,
     ∃ new,
       Database.jobs (Scheduler._create_follow_up_jobs plugins uuid4 now job st).2
       = Database.jobs st.2 ++ new
       ∧ Database.tasks (Scheduler._create_follow_up_jobs plugins uuid4 now job st).2
         = Database.tasks st.2
       ∧ Forall (λ j, Job.status j = JobStatus.PENDING ∧ Job.task_total j = 0) new)
  ∧ (∀ plugins history db f,
       FollowUp.partition_own_job plugins →
       FollowUp.never_drawn f history →
       FollowUp.no_tasks_of f db →
       FollowUp.no_tasks_of f (Coordinator.run plugins history db)
       ∧ (∀ worker_id now task job,
            (Server.request_task worker_id now
               (Coordinator.run plugins history db)).1
            = Server.Ok (Some (task, job)) →
            Task.job_id task ≠ f)
       ∧ (FollowUp.pending f db →
          FollowUp.never_suspended_or_cancelled f history →
          FollowUp.pending f (Coordinator.run plugins history db))).
Proof.
  split.
  - intros plugins uuid4 now job st.
    destruct (create_follow_up_jobs_appends plugins uuid4 now job st)
      as (new & Hjobs & Htasks & _ & Hnew).
    by exists new.
  - intros plugins history db f Hplugins Hdrawn Hno.
    pose proof (no_tasks_of_run f plugins history db Hplugins Hdrawn Hno) as Hno'.
    split; [done|]. split.
    + intros worker_id now task job. by apply request_task_not_of.
    + intros Hdb Huser. by apply pending_run.
Qed.

Lemma follow_up_job_has_no_task_to_dispatch_witness :
  FollowUp.no_tasks_of "follow-up-0"
    (Coordinator.run Farm.plugins Rendered.afterwards Rendered.store)
  ∧ FollowUp.pending "follow-up-0"
      (Coordinator.run Farm.plugins Rendered.afterwards Rendered.store).
Proof.
  assert (FollowUp.never_drawn "follow-up-0" Rendered.afterwards) as Hdrawn.
  { intros now submission Hin. unfold Rendered.afterwards in Hin.
    repeat (apply elem_of_cons in Hin as [Hin|Hin]; [discriminate Hin|]).
    by apply elem_of_nil in Hin. }
  destruct (proj2 follow_up_job_has_no_task_to_dispatch
              Farm.plugins Rendered.afterwards Rendered.store "follow-up-0"
              farm_partition_own_job Hdrawn rendered_no_tasks)
    as (Hno & _ & Hpending).
  split; [exact Hno|]. apply Hpending; [exact rendered_pending|].
  intros now. unfold Rendered.afterwards.
  split; intros Hin;
    repeat (apply elem_of_cons in Hin as [Hin|Hin]; [discriminate Hin|]);
    by apply elem_of_nil in Hin.
Defined.

(** * Further properties of the coordinator *)

(** ** Primary keys are kept by every request *)

Section KeysOfTables.
Context {A : Type} `{Keyed A}.

Lemma keys_update_where_at k (f : A → A) (tbl : list A) :
  (∀ r, key r = k → key (f r) = k) →
  key <$> update_where k f tbl = key <$> tbl.
Proof.
  intros Hf. unfold update_where. rewrite <- list_fmap_compose.
  apply list_fmap_ext. intros _ r _. simpl.
  case_decide as Hr; [|done]. rewrite (Hf r Hr). by rewrite Hr.
Qed.

Lemma NoDup_append_fresh (r : A) (tbl : list A) :
  fetchone (key r) tbl = None →
  NoDup (key <$> tbl) → NoDup (key <$> (tbl ++ [r])).
Proof.
  intros Hnone Hnd.
  rewrite fmap_app. apply NoDup_app. split; [done|]. split.
  - intros k Hk [->|Hin%elem_of_nil]%elem_of_cons; [|done].
    apply list_elem_of_fmap in Hk as (r' & Hkey & Hr').
    rewrite fetchone_None in Hnone. by apply (Hnone r' Hr').
  - apply NoDup_singleton.
Qed.

Lemma NoDup_insert_row (r : A) (tbl tbl' : list A) :
  insert_row r tbl = Some tbl' →
  NoDup (key <$> tbl) → NoDup (key <$> tbl').
Proof. intros [Hnone ->]%insert_row_Some. by apply NoDup_append_fresh. Qed.

Lemma NoDup_delete_where k (tbl : list A) :
  NoDup (key <$> tbl) → NoDup (key <$> delete_where k tbl).
Proof.
  intros Hnd. eapply sublist_NoDup; [exact Hnd|].
  apply fmap_sublist, sublist_filter.
Qed.

End KeysOfTables.

Section PrimaryKeys.

Lemma primary_keys_jobs db js :
  Job.id <$> js = Job.id <$> Database.jobs db →
  Invariant.primary_keys db →
  Invariant.primary_keys (Database.mk js (Database.tasks db) (Database.workers db)).
Proof. intros Hk (Hj & Ht & Hw). split; [|done]. simpl. by rewrite Hk. Qed.

Lemma primary_keys_tasks db ts :
  Task.id <$> ts = Task.id <$> Database.tasks db →
  Invariant.primary_keys db →
  Invariant.primary_keys (Database.mk (Database.jobs db) ts (Database.workers db)).
Proof.
  intros Hk (Hj & Ht & Hw). split; [done|]. split; [|done]. simpl. by rewrite Hk.
Qed.

Lemma primary_keys_workers db ws :
  Worker.id <$> ws = Worker.id <$> Database.workers db →
  Invariant.primary_keys db →
  Invariant.primary_keys (Database.mk (Database.jobs db) (Database.tasks db) ws).
Proof.
  intros Hk (Hj & Ht & Hw). split; [done|]. split; [done|]. simpl. by rewrite Hk.
Qed.

Lemma primary_keys_update_job job db :
  Invariant.primary_keys db → Invariant.primary_keys (Database.update_job job db).
Proof.
  apply primary_keys_jobs. by apply (keys_update_where_at (A:=Job.t)).
Qed.

Lemma primary_keys_update_job_status k s e now db :
  Invariant.primary_keys db →
  Invariant.primary_keys (Database.update_job_status k s e now db).
Proof.
  destruct s; apply primary_keys_jobs; by apply (keys_update_where_at (A:=Job.t)).
Qed.

Lemma primary_keys_delete_job k db :
  Invariant.primary_keys db → Invariant.primary_keys (Database.delete_job k db).
Proof.
  intros (Hj & Ht & Hw). split; [|split; [|done]]; simpl.
  - by apply (NoDup_delete_where (A:=Job.t)).
  - eapply sublist_NoDup; [exact Ht|]. apply fmap_sublist, sublist_filter.
Qed.

Lemma primary_keys_add_job job db db' :
  Database.add_job job db = Some db' →
  Invariant.primary_keys db → Invariant.primary_keys db'.
Proof.
  unfold Database.add_job. intros Hadd (Hj & Ht & Hw).
  destruct (insert_row job (Database.jobs db)) as [js|] eqn:Hins; [|done].
  injection Hadd as <-. split; [|done]. simpl.
  by eapply (NoDup_insert_row (A:=Job.t)).
Qed.

Lemma primary_keys_add_task task db db' :
  Database.add_task task db = Some db' →
  Invariant.primary_keys db → Invariant.primary_keys db'.
Proof.
  unfold Database.add_task. intros Hadd (Hj & Ht & Hw).
  destruct (insert_row task (Database.tasks db)) as [ts|] eqn:Hins; [|done].
  injection Hadd as <-. split; [done|]. split; [|done]. simpl.
  by eapply (NoDup_insert_row (A:=Task.t)).
Qed.

Lemma primary_keys_update_task task db :
  Invariant.primary_keys db → Invariant.primary_keys (Database.update_task task db).
Proof.
  apply primary_keys_tasks. by apply (keys_update_where_at (A:=Task.t)).
Qed.

Lemma primary_keys_update_task_status k s a b c d db :
  Invariant.primary_keys db →
  Invariant.primary_keys (Database.update_task_status k s a b c d db).
Proof.
  apply primary_keys_tasks. by apply (keys_update_where_at (A:=Task.t)).
Qed.

Lemma primary_keys_update_task_progress k p db :
  Invariant.primary_keys db →
  Invariant.primary_keys (Database.update_task_progress k p db).
Proof.
  apply primary_keys_tasks. by apply (keys_update_where_at (A:=Task.t)).
Qed.

Lemma primary_keys_upsert_worker w db :
  Invariant.primary_keys db → Invariant.primary_keys (Database.upsert_worker w db).
Proof.
  intros Hdb. unfold Database.upsert_worker.
  destruct (fetchone (Worker.id w) (Database.workers db)) as [r|] eqn:Hr.
  - revert Hdb. apply primary_keys_workers.
    by apply (keys_update_where_at (A:=Worker.t)).
  - destruct Hdb as (Hj & Ht & Hw). split; [done|]. split; [done|]. simpl.
    apply (NoDup_append_fresh (A:=Worker.t) w (Database.workers db)); [|done].
    exact Hr.
Qed.

Lemma primary_keys_update_worker w db :
  Invariant.primary_keys db → Invariant.primary_keys (Database.update_worker w db).
Proof. apply primary_keys_upsert_worker. Qed.

Lemma primary_keys_update_worker_heartbeat k hb now db :
  Invariant.primary_keys db →
  Invariant.primary_keys (Database.update_worker_heartbeat k hb now db).
Proof.
  apply primary_keys_workers. by apply (keys_update_where_at (A:=Worker.t)).
Qed.

Lemma primary_keys_mark_worker_offline k db :
  Invariant.primary_keys db →
  Invariant.primary_keys (Database.mark_worker_offline k db).
Proof.
  apply primary_keys_workers. by apply (keys_update_where_at (A:=Worker.t)).
Qed.

Lemma primary_keys_delete_worker k db :
  Invariant.primary_keys db → Invariant.primary_keys (Database.delete_worker k db).
Proof.
  intros (Hj & Ht & Hw). split; [done|]. split; [done|]. simpl.
  by apply (NoDup_delete_where (A:=Worker.t)).
Qed.

Lemma primary_keys_release_worker task db :
  Invariant.primary_keys db → Invariant.primary_keys (Server.release_worker task db).
Proof.
  intros Hdb. unfold Server.release_worker.
  repeat case_match; auto using primary_keys_update_worker.
Qed.

Lemma primary_keys_add_tasks tasks db :
  Invariant.primary_keys db → Invariant.primary_keys (Server.add_tasks tasks db).1.
Proof.
  revert db. induction tasks as [|x tasks IH]; intros db Hdb; simpl; [done|].
  destruct (Database.add_task x db) as [db'|] eqn:Hadd; [|done].
  by eapply IH, primary_keys_add_task.
Qed.

Lemma primary_keys_add_follow_up_jobs uuid4 now job l st :
  Invariant.primary_keys st.2 →
  Invariant.primary_keys (Scheduler.add_follow_up_jobs uuid4 now job l st).2.
Proof.
  revert st. induction l as [|d l IH]; intros st Hst; simpl; [done|].
  destruct (Database.add_job _ st.2) as [db'|] eqn:Hadd; [|done].
  apply IH. simpl. by eapply primary_keys_add_job.
Qed.

Lemma primary_keys_create_follow_up_jobs plugins uuid4 now job st :
  Invariant.primary_keys st.2 →
  Invariant.primary_keys (Scheduler._create_follow_up_jobs plugins uuid4 now job st).2.
Proof.
  intros Hst. unfold Scheduler._create_follow_up_jobs.
  repeat case_match; auto using primary_keys_add_follow_up_jobs.
Qed.

Lemma primary_keys_tick plugins uuid4 now db :
  Invariant.primary_keys db →
  Invariant.primary_keys (Scheduler.tick plugins uuid4 now db).
Proof.
  intros Hdb. unfold Scheduler.tick, Scheduler._update_job_progress.
  assert (Invariant.primary_keys (Scheduler._check_worker_timeouts now db)) as Hdb1.
  { unfold Scheduler._check_worker_timeouts.
    generalize (Database.get_workers db). intros l. revert db Hdb.
    induction l as [|w l IH]; intros db Hdb; simpl; [done|].
    apply IH. unfold Scheduler._check_worker_timeouts_body.
    repeat case_match;
      auto using primary_keys_update_task, primary_keys_mark_worker_offline. }
  revert Hdb1. generalize (Scheduler._check_worker_timeouts now db). clear db Hdb.
  intros db Hdb.
  generalize (Database.get_jobs_by_status JobStatus.ACTIVE db). intros l.
  change db with ((0%nat, db).2) in Hdb. revert Hdb. generalize (0%nat, db).
  clear db. induction l as [|j l IH]; intros st Hst; simpl; [done|].
  apply IH. unfold Scheduler._update_job_progress_body.
  destruct (Database.get_tasks_by_job (Job.id j) st.2); [done|].
  cbn [snd]. apply primary_keys_update_job.
  case_match; [|done]. by apply primary_keys_create_follow_up_jobs.
Qed.

Lemma primary_keys_retry_job k db :
  Invariant.primary_keys db → Invariant.primary_keys (Scheduler.retry_job k db).2.
Proof.
  intros Hdb. unfold Scheduler.retry_job. repeat case_match; try done. cbn [snd].
  apply primary_keys_update_job.
  generalize (Database.get_tasks_by_job k db). intros l.
  clear -Hdb. revert db Hdb.
  induction l as [|x l IH]; intros db Hdb; simpl; [done|].
  apply IH. unfold Scheduler.retry_job_body.
  case_match; auto using primary_keys_update_task.
Qed.

Lemma primary_keys_submit_job plugins submission new_id now db :
  Invariant.primary_keys db →
  Invariant.primary_keys (Server.submit_job plugins submission new_id now db).2.
Proof.
  intros Hdb. unfold Server.submit_job.
  destruct (plugins !! Server.sub_plugin submission) as [plugin|]; [|done].
  destruct (RenderPlugin.validate plugin _) as [[] error]; simpl; [|done].
  destruct (Database.add_job _ db) as [db1|] eqn:Hadd; [|done].
  apply primary_keys_add_job in Hadd; [|done].
  destruct (RenderPlugin.create_tasks plugin _) as [tasks|]; simpl.
  - pose proof (primary_keys_add_tasks tasks db1 Hadd) as Hdb2.
    destruct (Server.add_tasks tasks db1) as [db2 []]; simpl in *.
    + by apply primary_keys_update_job.
    + by apply primary_keys_delete_job.
  - by apply primary_keys_delete_job.
Qed.

Lemma primary_keys_handle plugins now r db :
  Invariant.primary_keys db →
  Invariant.primary_keys (Coordinator.handle plugins now r db).
Proof.
  intros Hdb. destruct r; simpl.
  - by apply primary_keys_submit_job.
  - unfold Server.suspend_job, Scheduler.suspend_job.
    repeat case_match; simplify_eq; cbn [snd];
      auto using primary_keys_update_job_status.
  - unfold Server.resume_job, Scheduler.resume_job.
    repeat case_match; simplify_eq; cbn [snd];
      auto using primary_keys_update_job_status.
  - unfold Server.cancel_job, Scheduler.cancel_job.
    repeat case_match; simplify_eq; cbn [snd];
      auto using primary_keys_update_job_status.
  - unfold Server.retry_job.
    pose proof (primary_keys_retry_job job_id db Hdb).
    by destruct (Scheduler.retry_job job_id db) as [[] ?].
  - unfold Server.delete_job.
    repeat case_match; cbn [snd]; auto using primary_keys_delete_job.
  - unfold Server.update_job_priority.
    repeat case_match; cbn [snd]; auto using primary_keys_update_job.
  - by apply primary_keys_update_task_status.
  - by apply primary_keys_update_task_progress.
  - unfold Server.task_completed.
    repeat case_match; cbn [snd];
      auto using primary_keys_update_job, primary_keys_release_worker,
                 primary_keys_update_task_status.
  - unfold Server.task_failed.
    repeat case_match; cbn [snd];
      auto using primary_keys_update_job, primary_keys_release_worker,
                 primary_keys_update_task_status.
  - unfold Server.retry_task.
    repeat case_match; cbn [snd];
      auto using primary_keys_update_task, primary_keys_update_task_status.
  - unfold Server.cancel_task.
    repeat case_match; cbn [snd];
      auto using primary_keys_release_worker, primary_keys_update_task_status.
  - unfold Server.suspend_task.
    repeat case_match; cbn [snd];
      auto using primary_keys_release_worker, primary_keys_update_task_status.
  - by apply primary_keys_upsert_worker.
  - unfold Server.worker_heartbeat.
    repeat case_match; cbn [snd]; auto using primary_keys_update_worker_heartbeat.
  - unfold Server.request_task.
    repeat case_match; cbn [snd];
      auto using primary_keys_update_job, primary_keys_update_worker,
                 primary_keys_update_task.
  - unfold Server.disable_worker.
    repeat case_match; cbn [snd]; auto using primary_keys_update_worker.
  - unfold Server.enable_worker.
    repeat case_match; cbn [snd]; auto using primary_keys_update_worker.
  - unfold Server.delete_worker.
    repeat case_match; cbn [snd]; auto using primary_keys_delete_worker.
  - by apply primary_keys_tick.
Qed.

End PrimaryKeys.

(** X1.  Every request of the coordinator and every pass of the scheduler
    keeps the ids of the Jobs, of the Tasks and of the Workers distinct;
    hence every store reached from the empty store by a history of requests
    has its three primary keys. *)
Theorem primary_keys_are_kept :
  (∀ plugins now r db,
     Invariant.primary_keys db →
     Invariant.primary_keys (Coordinator.handle plugins now r db))
  ∧ (∀ plugins history,
       Invariant.primary_keys (Coordinator.run plugins history Database.empty)).
Proof.
  split; [apply primary_keys_handle|].
  intros plugins history.
  assert (Invariant.primary_keys Database.empty) as Hempty.
  { repeat split; apply NoDup_nil_2. }
  revert Hempty. generalize Database.empty.
  induction history as [|[now r] history IH]; intros db Hdb; [done|].
  apply IH. change (Invariant.primary_keys (Coordinator.handle plugins now r db)).
  by apply primary_keys_handle.
Qed.

Lemma primary_keys_are_kept_witness :
  Invariant.primary_keys Busy.before
  ∧ Invariant.primary_keys
      (Coordinator.handle Farm.plugins 3 (Coordinator.RequestTask "W") Busy.before).
Proof.
  assert (Invariant.primary_keys Busy.before) as Hbefore.
  { repeat split; apply (bool_decide_unpack _); vm_compute; exact I. }
  split; [exact Hbefore|].
  exact (proj1 primary_keys_are_kept Farm.plugins 3 (Coordinator.RequestTask "W")
           Busy.before Hbefore).
Defined.

(** ** No request leaves a Task without its Job *)

Section NoOrphans.

(** A step that keeps every stored Job id and takes its Tasks, up to their
    columns other than job_id, from the Tasks before. *)
Lemma no_orphan_tasks_step db db' :
  (∀ k, is_Some (Database.get_job k db) → is_Some (Database.get_job k db')) →
  (∀ x', x' ∈ Database.tasks db' →
         ∃ x, x ∈ Database.tasks db ∧ Task.job_id x' = Task.job_id x) →
  Invariant.no_orphan_tasks db → Invariant.no_orphan_tasks db'.
Proof.
  intros Hjobs Htasks Hdb x' Hx'. destruct (Htasks x' Hx') as (x & Hx & ->).
  by apply Hjobs, Hdb.
Qed.

Lemma get_job_update_where_is_Some k k' g db :
  (∀ r, Job.id (g r) = Job.id r) →
  is_Some (Database.get_job k' db) →
  is_Some (Database.get_job k' (Database.with_jobs (update_where k g) db)).
Proof.
  intros Hg Hsome. unfold Database.get_job in *. simpl.
  rewrite (fetchone_update_where (A:=Job.t)) by (intros r <-; apply Hg).
  case_decide; [by apply fmap_is_Some|done].
Qed.

Lemma no_orphan_tasks_with_jobs k g db :
  (∀ r, Job.id (g r) = Job.id r) →
  Invariant.no_orphan_tasks db →
  Invariant.no_orphan_tasks (Database.with_jobs (update_where k g) db).
Proof.
  intros Hg. apply no_orphan_tasks_step.
  - intros k'. by apply get_job_update_where_is_Some.
  - intros x' Hx'. by exists x'.
Qed.

Lemma no_orphan_tasks_with_tasks k g db :
  (∀ r, Task.job_id (g r) = Task.job_id r) →
  Invariant.no_orphan_tasks db →
  Invariant.no_orphan_tasks (Database.with_tasks (update_where k g) db).
Proof.
  intros Hg. apply no_orphan_tasks_step; [done|].
  intros x' Hx'. simpl in Hx'.
  apply elem_of_update_where in Hx' as (r & Hr & [->|[_ ->]]); exists r; [done|].
  by rewrite Hg.
Qed.

Lemma no_orphan_tasks_with_workers g db :
  Invariant.no_orphan_tasks db →
  Invariant.no_orphan_tasks (Database.with_workers g db).
Proof. apply no_orphan_tasks_step; [done|]. intros x' Hx'. by exists x'. Qed.

Lemma no_orphan_tasks_update_job job db :
  Invariant.no_orphan_tasks db → Invariant.no_orphan_tasks (Database.update_job job db).
Proof. by apply no_orphan_tasks_with_jobs. Qed.

Lemma no_orphan_tasks_update_job_status k s e now db :
  Invariant.no_orphan_tasks db →
  Invariant.no_orphan_tasks (Database.update_job_status k s e now db).
Proof. destruct s; by apply no_orphan_tasks_with_jobs. Qed.

Lemma no_orphan_tasks_update_task task db :
  Invariant.no_orphan_tasks db → Invariant.no_orphan_tasks (Database.update_task task db).
Proof. by apply no_orphan_tasks_with_tasks. Qed.

Lemma no_orphan_tasks_update_task_status k s a b c d db :
  Invariant.no_orphan_tasks db →
  Invariant.no_orphan_tasks (Database.update_task_status k s a b c d db).
Proof. by apply no_orphan_tasks_with_tasks. Qed.

Lemma no_orphan_tasks_update_task_progress k p db :
  Invariant.no_orphan_tasks db →
  Invariant.no_orphan_tasks (Database.update_task_progress k p db).
Proof. by apply no_orphan_tasks_with_tasks. Qed.

Lemma no_orphan_tasks_upsert_worker w db :
  Invariant.no_orphan_tasks db → Invariant.no_orphan_tasks (Database.upsert_worker w db).
Proof.
  unfold Database.upsert_worker. case_match; apply no_orphan_tasks_with_workers.
Qed.

Lemma no_orphan_tasks_update_worker w db :
  Invariant.no_orphan_tasks db → Invariant.no_orphan_tasks (Database.update_worker w db).
Proof. apply no_orphan_tasks_upsert_worker. Qed.

Lemma no_orphan_tasks_release_worker task db :
  Invariant.no_orphan_tasks db →
  Invariant.no_orphan_tasks (Server.release_worker task db).
Proof.
  intros Hdb. unfold Server.release_worker.
  repeat case_match; auto using no_orphan_tasks_update_worker.
Qed.

(** [delete_job] removes the Tasks of the Job with it. *)
Lemma no_orphan_tasks_delete_job k db :
  Invariant.no_orphan_tasks db → Invariant.no_orphan_tasks (Database.delete_job k db).
Proof.
  intros Hdb x Hx. simpl in Hx. apply list_elem_of_filter in Hx as [Hne Hx].
  unfold Database.get_job. simpl. rewrite (fetchone_delete_where (A:=Job.t)).
  rewrite decide_False by done. by apply Hdb.
Qed.

Lemma no_orphan_tasks_add_job job db db' :
  Database.add_job job db = Some db' →
  Invariant.no_orphan_tasks db → Invariant.no_orphan_tasks db'.
Proof.
  intros (_ & Hjobs & Htasks & _)%add_job_Some. apply no_orphan_tasks_step.
  - intros k [j Hj]. unfold Database.get_job in *.
    rewrite Hjobs, fetchone_app, Hj. by eexists.
  - intros x' Hx'. rewrite Htasks in Hx'. by exists x'.
Qed.

Lemma no_orphan_tasks_add_tasks tasks db :
  (∀ x, x ∈ tasks → is_Some (Database.get_job (Task.job_id x) db)) →
  Invariant.no_orphan_tasks db →
  Invariant.no_orphan_tasks (Server.add_tasks tasks db).1.
Proof.
  revert db. induction tasks as [|x tasks IH]; intros db Htasks Hdb; simpl; [done|].
  destruct (Database.add_task x db) as [db'|] eqn:Hadd; [|done].
  unfold Database.add_task in Hadd.
  destruct (insert_row x (Database.tasks db)) as [ts|] eqn:Hins; [|done].
  apply insert_row_Some in Hins as [_ ->]. injection Hadd as <-.
  apply IH.
  - intros y Hy. apply Htasks. by right.
  - intros y Hy. simpl in Hy. apply elem_of_app in Hy as [Hy|Hy]; [by apply Hdb|].
    apply list_elem_of_singleton in Hy as ->. apply Htasks. by left.
Qed.

Lemma no_orphan_tasks_tick plugins uuid4 now db :
  Invariant.no_orphan_tasks db →
  Invariant.no_orphan_tasks (Scheduler.tick plugins uuid4 now db).
Proof.
  intros Hdb. unfold Scheduler.tick, Scheduler._update_job_progress.
  assert (Invariant.no_orphan_tasks (Scheduler._check_worker_timeouts now db)) as Hdb1.
  { unfold Scheduler._check_worker_timeouts.
    generalize (Database.get_workers db). intros l. revert db Hdb.
    induction l as [|w l IH]; intros db Hdb; simpl; [done|].
    apply IH. unfold Scheduler._check_worker_timeouts_body.
    repeat case_match; try done;
      apply no_orphan_tasks_with_workers; auto using no_orphan_tasks_update_task. }
  revert Hdb1. generalize (Scheduler._check_worker_timeouts now db). clear db Hdb.
  intros db Hdb.
  generalize (Database.get_jobs_by_status JobStatus.ACTIVE db). intros l.
  change db with ((0%nat, db).2) in Hdb. revert Hdb. generalize (0%nat, db).
  clear db. induction l as [|j l IH]; intros st Hst; simpl; [done|].
  apply IH. unfold Scheduler._update_job_progress_body.
  destruct (Database.get_tasks_by_job (Job.id j) st.2) as [|x xs]; [done|].
  cbn [snd]. apply no_orphan_tasks_update_job.
  case_match; [|done].
  destruct (create_follow_up_jobs_appends plugins uuid4 now
              (Scheduler.aggregate now (x :: xs) j) st) as (new & Hjobs & Htasks & _).
  revert Hst. apply no_orphan_tasks_step.
  - intros k [j' Hj']. unfold Database.get_job in *.
    rewrite Hjobs, fetchone_app, Hj'. by eexists.
  - intros x' Hx'. rewrite Htasks in Hx'. by exists x'.
Qed.

Lemma no_orphan_tasks_retry_job k db :
  Invariant.no_orphan_tasks db → Invariant.no_orphan_tasks (Scheduler.retry_job k db).2.
Proof.
  intros Hdb. unfold Scheduler.retry_job. repeat case_match; try done. cbn [snd].
  apply no_orphan_tasks_update_job.
  generalize (Database.get_tasks_by_job k db). intros l.
  clear -Hdb. revert db Hdb.
  induction l as [|x l IH]; intros db Hdb; simpl; [done|].
  apply IH. unfold Scheduler.retry_job_body.
  case_match; auto using no_orphan_tasks_update_task.
Qed.

Lemma no_orphan_tasks_submit_job plugins submission new_id now db :
  FollowUp.partition_own_job plugins →
  Invariant.no_orphan_tasks db →
  Invariant.no_orphan_tasks (Server.submit_job plugins submission new_id now db).2.
Proof.
  intros Hplugins Hdb. unfold Server.submit_job.
  destruct (plugins !! Server.sub_plugin submission) as [plugin|] eqn:Hp; [|done].
  destruct (RenderPlugin.validate plugin _) as [[] error]; simpl; [|done].
  destruct (Database.add_job _ db) as [db1|] eqn:Hadd; [|done].
  pose proof (no_orphan_tasks_add_job _ _ _ Hadd Hdb) as Hdb1.
  apply add_job_Some in Hadd as (_ & Hjobs & _).
  destruct (RenderPlugin.create_tasks plugin _) as [tasks|] eqn:Hc; simpl.
  - assert (Invariant.no_orphan_tasks (Server.add_tasks tasks db1).1) as Hdb2.
    { apply no_orphan_tasks_add_tasks; [|done]. intros x Hx.
      rewrite (Hplugins _ _ _ _ Hp Hc x Hx). simpl.
      unfold Database.get_job. rewrite Hjobs, fetchone_app.
      destruct (fetchone new_id (Database.jobs db)); [by eexists|].
      simpl. rewrite decide_True by done. by eexists. }
    destruct (Server.add_tasks tasks db1) as [db2 []]; simpl in *.
    + by apply no_orphan_tasks_update_job.
    + by apply no_orphan_tasks_delete_job.
  - by apply no_orphan_tasks_delete_job.
Qed.

Lemma no_orphan_tasks_handle plugins now r db :
  FollowUp.partition_own_job plugins →
  Invariant.no_orphan_tasks db →
  Invariant.no_orphan_tasks (Coordinator.handle plugins now r db).
Proof.
  intros Hplugins Hdb. destruct r; simpl.
  - by apply no_orphan_tasks_submit_job.
  - unfold Server.suspend_job, Scheduler.suspend_job.
    repeat case_match; simplify_eq; cbn [snd];
      auto using no_orphan_tasks_update_job_status.
  - unfold Server.resume_job, Scheduler.resume_job.
    repeat case_match; simplify_eq; cbn [snd];
      auto using no_orphan_tasks_update_job_status.
  - unfold Server.cancel_job, Scheduler.cancel_job.
    repeat case_match; simplify_eq; cbn [snd];
      auto using no_orphan_tasks_update_job_status.
  - unfold Server.retry_job.
    pose proof (no_orphan_tasks_retry_job job_id db Hdb).
    by destruct (Scheduler.retry_job job_id db) as [[] ?].
  - unfold Server.delete_job.
    repeat case_match; cbn [snd]; auto using no_orphan_tasks_delete_job.
  - unfold Server.update_job_priority.
    repeat case_match; cbn [snd]; auto using no_orphan_tasks_update_job.
  - by apply no_orphan_tasks_update_task_status.
  - by apply no_orphan_tasks_update_task_progress.
  - unfold Server.task_completed.
    repeat case_match; cbn [snd];
      auto using no_orphan_tasks_update_job, no_orphan_tasks_release_worker,
                 no_orphan_tasks_update_task_status.
  - unfold Server.task_failed.
    repeat case_match; cbn [snd];
      auto using no_orphan_tasks_update_job, no_orphan_tasks_release_worker,
                 no_orphan_tasks_update_task_status.
  - unfold Server.retry_task.
    repeat case_match; cbn [snd];
      auto using no_orphan_tasks_update_task, no_orphan_tasks_update_task_status.
  - unfold Server.cancel_task.
    repeat case_match; cbn [snd];
      auto using no_orphan_tasks_release_worker, no_orphan_tasks_update_task_status.
  - unfold Server.suspend_task.
    repeat case_match; cbn [snd];
      auto using no_orphan_tasks_release_worker, no_orphan_tasks_update_task_status.
  - by apply no_orphan_tasks_upsert_worker.
  - unfold Server.worker_heartbeat.
    repeat case_match; cbn [snd]; try done; by apply no_orphan_tasks_with_workers.
  - unfold Server.request_task.
    repeat case_match; cbn [snd];
      auto using no_orphan_tasks_update_job, no_orphan_tasks_update_worker,
                 no_orphan_tasks_update_task.
  - unfold Server.disable_worker.
    repeat case_match; cbn [snd]; auto using no_orphan_tasks_update_worker.
  - unfold Server.enable_worker.
    repeat case_match; cbn [snd]; auto using no_orphan_tasks_update_worker.
  - unfold Server.delete_worker.
    repeat case_match; cbn [snd]; try done; by apply no_orphan_tasks_with_workers.
  - by apply no_orphan_tasks_tick.
Qed.

End NoOrphans.

(** X2.  When every plugin builds its Tasks with the id of the Job it is
    given, every request of the coordinator keeps the store free of orphan
    Tasks (a Task whose job_id names no stored Job); in particular this
    holds in every store reached from the empty store. *)
Theorem tasks_always_have_their_job (plugins : registry) :
  FollowUp.partition_own_job plugins →
  (∀ now r db,
     Invariant.no_orphan_tasks db →
     Invariant.no_orphan_tasks (Coordinator.handle plugins now r db))
  ∧ (∀ history,
       Invariant.no_orphan_tasks (Coordinator.run plugins history Database.empty)).
Proof.
  intros Hplugins. split; [intros now r db; by apply no_orphan_tasks_handle|].
  intros history.
  assert (Invariant.no_orphan_tasks Database.empty) as Hempty.
  { intros x Hx. by apply elem_of_nil in Hx. }
  revert Hempty. generalize Database.empty.
  induction history as [|[now r] history IH]; intros db Hdb; [done|].
  apply IH. change (Invariant.no_orphan_tasks (Coordinator.handle plugins now r db)).
  by apply no_orphan_tasks_handle.
Qed.

Lemma tasks_always_have_their_job_witness :
  Invariant.no_orphan_tasks (Coordinator.run Farm.plugins Stale.history Database.empty).
Proof.
  exact (proj2 (tasks_always_have_their_job Farm.plugins farm_partition_own_job)
           Stale.history).
Defined.

(** ** The dispatch query *)

Section SortedHead.
Context {A : Type} (le : A → A → bool).
Hypothesis le_total : ∀ a b, le a b = true ∨ le b a = true.
Hypothesis le_trans : ∀ a b c, le a b = true → le b c = true → le a c = true.

Let R (a b : A) : Prop := le a b = true.

Lemma insert_by_sorted x (l : list A) :
  StronglySorted R l → StronglySorted R (insert_by le x l).
Proof.
  induction 1 as [|y l Hl IH Hy]; simpl.
  - repeat constructor.
  - destruct (le x y) eqn:Hxy.
    + constructor; [by constructor|]. constructor; [done|].
      eapply Forall_impl; [exact Hy|]. intros z Hz. by eapply le_trans.
    + constructor; [done|].
      rewrite (insert_by_perm le x l). constructor; [|done].
      destruct (le_total x y) as [Hle|Hle]; [congruence|done].
Qed.

Lemma order_by_sorted (l : list A) : StronglySorted R (order_by le l).
Proof.
  induction l as [|x l IH]; simpl; [constructor|]. by apply insert_by_sorted.
Qed.

(** The first row of an [ORDER BY] comes before every row. *)
Lemma head_order_by x (l : list A) :
  head (order_by le l) = Some x → ∀ y, y ∈ l → le x y = true.
Proof.
  intros Hhead y Hy. pose proof (order_by_sorted l) as Hsorted.
  apply (elem_of_order_by le) in Hy.
  destruct (order_by le l) as [|x' l']; [done|]. injection Hhead as ->.
  apply StronglySorted_inv in Hsorted as [_ Hall].
  apply elem_of_cons in Hy as [->|Hy].
  - by destruct (le_total x x).
  - rewrite Forall_forall in Hall. by apply Hall.
Qed.

End SortedHead.

Lemma join_le_spec a b :
  Database.join_le a b = true ↔ Order.dispatch_before a b.
Proof.
  unfold Database.join_le, Order.dispatch_before.
  destruct (Z.ltb_spec (Job.priority b.2) (Job.priority a.2)); [split; [auto|done]|].
  destruct (Z.ltb_spec (Job.priority a.2) (Job.priority b.2)).
  { split; [done|]. lia. }
  destruct (Z.ltb_spec (Job.submitted_at a.2) (Job.submitted_at b.2)).
  { split; [|done]. intros _. right. split; [lia|]. by left. }
  destruct (Z.ltb_spec (Job.submitted_at b.2) (Job.submitted_at a.2)).
  { split; [done|]. lia. }
  rewrite Z.leb_le. split; [|lia]. intros Hle. right. split; [lia|]. right. lia.
Qed.

Lemma join_le_total a b :
  Database.join_le a b = true ∨ Database.join_le b a = true.
Proof. rewrite !join_le_spec. unfold Order.dispatch_before. lia. Qed.

Lemma join_le_trans a b c :
  Database.join_le a b = true → Database.join_le b c = true →
  Database.join_le a c = true.
Proof. rewrite !join_le_spec. unfold Order.dispatch_before. lia. Qed.

Lemma elem_of_join_jobs db x j :
  (x, j) ∈ Database.join_jobs db
  ↔ x ∈ Database.tasks db ∧ Database.get_job (Task.job_id x) db = Some j.
Proof.
  unfold Database.join_jobs. rewrite list_elem_of_omap. split.
  - intros (y & Hy & Hj).
    destruct (Database.get_job (Task.job_id y) db) as [j'|] eqn:Hj'; [|done].
    simpl in Hj. by injection Hj as -> ->.
  - intros [Hx Hj]. exists x. split; [done|]. by rewrite Hj.
Qed.

(** The selected Task with its Job comes first among the candidates. *)
Lemma get_next_task_for_worker_first worker db x :
  Database.get_next_task_for_worker worker db = Some x →
  ∃ j, x ∈ Database.tasks db
       ∧ Database.get_job (Task.job_id x) db = Some j
       ∧ Database.dispatchable worker (x, j)
       ∧ ∀ x' j',
           x' ∈ Database.tasks db →
           Database.get_job (Task.job_id x') db = Some j' →
           Database.dispatchable worker (x', j') →
           Order.dispatch_before (x, j) (x', j').
Proof.
  unfold Database.get_next_task_for_worker. intros Hx.
  destruct (head _) as [[x0 j]|] eqn:Hhead; [|done]. injection Hx as ->.
  exists j.
  pose proof (head_Some_elem_of _ _ Hhead) as Hin.
  apply elem_of_order_by, list_elem_of_filter in Hin as [Hd Hin].
  apply elem_of_join_jobs in Hin as [Hx Hj].
  split; [done|]. split; [done|]. split; [done|].
  intros x' j' Hx' Hj' Hd'. apply join_le_spec.
  apply (head_order_by Database.join_le join_le_total join_le_trans _ _ Hhead).
  apply list_elem_of_filter. split; [done|]. by apply elem_of_join_jobs.
Qed.

Lemma get_next_task_for_worker_None worker db :
  Database.get_next_task_for_worker worker db = None
  ↔ ∀ x j, x ∈ Database.tasks db →
           Database.get_job (Task.job_id x) db = Some j →
           ¬ Database.dispatchable worker (x, j).
Proof.
  unfold Database.get_next_task_for_worker.
  rewrite fmap_None, head_None. split.
  - intros Hnil x j Hx Hj Hd.
    assert ((x, j) ∈ order_by Database.join_le
              (filter (Database.dispatchable worker) (Database.join_jobs db)))
      as Hin.
    { apply elem_of_order_by, list_elem_of_filter. split; [done|].
      by apply elem_of_join_jobs. }
    rewrite Hnil in Hin. by apply elem_of_nil in Hin.
  - intros Hnone.
    destruct (order_by _ _) as [|[x j] l] eqn:Hl; [done|].
    assert ((x, j) ∈ order_by Database.join_le
              (filter (Database.dispatchable worker) (Database.join_jobs db)))
      as Hin by (rewrite Hl; left).
    apply elem_of_order_by, list_elem_of_filter in Hin as [Hd Hin].
    apply elem_of_join_jobs in Hin as [Hx Hj]. by destruct (Hnone x j).
Qed.

(** X3.  The Task selected for a Worker is a stored pending Task whose Job
    is stored as queued or active in one of the Worker's pools, and it comes
    first among all such Tasks: highest Job priority, then earliest
    submission, then lowest index.  Nothing is selected exactly when there
    is no such Task. *)
Theorem dispatch_selects_first_candidate (worker : Worker.t) (db : Database.t) :
  (∀ x, Database.get_next_task_for_worker worker db = Some x →
     ∃ j, x ∈ Database.tasks db
          ∧ Database.get_job (Task.job_id x) db = Some j
          ∧ Database.dispatchable worker (x, j)
          ∧ ∀ x' j',
              x' ∈ Database.tasks db →
              Database.get_job (Task.job_id x') db = Some j' →
              Database.dispatchable worker (x', j') →
              Order.dispatch_before (x, j) (x', j'))
  ∧ (Database.get_next_task_for_worker worker db = None
     ↔ ∀ x j, x ∈ Database.tasks db →
              Database.get_job (Task.job_id x) db = Some j →
              ¬ Database.dispatchable worker (x, j)).
Proof.
  split.
  - intros x Hx. by apply get_next_task_for_worker_first.
  - apply get_next_task_for_worker_None.
Qed.

Lemma dispatch_selects_first_candidate_witness :
  Database.get_next_task_for_worker Priorities.worker Priorities.store
  = Some (Farm.chunk Priorities.high 0)
  ∧ Order.dispatch_before (Farm.chunk Priorities.high 0, Priorities.high)
      (Farm.chunk Priorities.low 0, Priorities.low).
Proof.
  assert (Database.get_next_task_for_worker Priorities.worker Priorities.store
          = Some (Farm.chunk Priorities.high 0)) as Hnext.
  { vm_compute. reflexivity. }
  split; [exact Hnext|].
  destruct (proj1 (dispatch_selects_first_candidate Priorities.worker Priorities.store)
              _ Hnext) as (j & _ & Hj & _ & Hfirst).
  assert (j = Priorities.high) as ->.
  { vm_compute in Hj. by injection Hj as <-. }
  apply Hfirst.
  - vm_compute. constructor.
  - vm_compute. reflexivity.
  - split; [reflexivity|]. split; [by left|]. vm_compute. constructor.
Defined.

(** ** What a pull changes *)

Lemma upsert_worker_other w db k :
  k ≠ Worker.id w →
  Database.get_worker k (Database.upsert_worker w db) = Database.get_worker k db.
Proof.
  intros Hne. unfold Database.upsert_worker, Database.get_worker.
  destruct (fetchone (Worker.id w) (Database.workers db)); simpl.
  - by rewrite (fetchone_update_where_ne (A:=Worker.t)).
  - rewrite fetchone_app. destruct (fetchone k (Database.workers db)); [done|].
    simpl. by rewrite decide_False.
Qed.

Lemma assigned_columns worker_id x :
  Database.task_columns
    (Task.set_assigned_worker (Some worker_id) (Task.set_status TaskStatus.ASSIGNED x)) x
  = Task.set_assigned_worker (Some worker_id) (Task.set_status TaskStatus.ASSIGNED x).
Proof. by destruct x. Qed.

Lemma started_columns now j :
  Database.job_columns
    (Job.set_started_at (Some now) (Job.set_status JobStatus.ACTIVE j)) j
  = Job.set_started_at (Some now) (Job.set_status JobStatus.ACTIVE j).
Proof. by destruct j. Qed.

(** X4.  In a store with primary keys, a pull either leaves the store as it
    is (unknown Worker, Worker not idle, or nothing to dispatch) or returns
    a Task that was pending and rewrites exactly three rows: the Task
    becomes assigned to the Worker, the Worker (which was idle) becomes busy
    on the Task, and the Task's Job, if it was queued, becomes active with
    started_at set to the time of the pull.  Every other Task, Worker and
    Job row is unchanged. *)
Theorem pull_rewrites_task_worker_and_job
    (worker_id : string) (now : datetime) (db : Database.t) :
  Invariant.primary_keys db →
  match Server.request_task worker_id now db with
  | (Server.Ok (Some (task, job)), db') =>
    ∃ task0 worker j,
      Database.get_task (Task.id task) db = Some task0
      ∧ Task.status task0 = TaskStatus.PENDING
      ∧ Database.get_worker worker_id db = Some worker
      ∧ Worker.status worker = WorkerStatus.IDLE
      ∧ Database.get_job (Task.job_id task) db = Some j
      ∧ task = Task.set_assigned_worker (Some worker_id)
                 (Task.set_status TaskStatus.ASSIGNED task0)
      ∧ job = Some (if decide (Job.status j = JobStatus.QUEUED)
                    then Job.set_started_at (Some now)
                           (Job.set_status JobStatus.ACTIVE j)
                    else j)
      ∧ Database.get_task (Task.id task) db' = Some task
      ∧ Database.get_worker worker_id db'
        = Some (Worker.set_current_task (Some (Task.id task))
                  (Worker.set_status WorkerStatus.BUSY worker))
      ∧ Database.get_job (Task.job_id task) db' = job
      ∧ (∀ k, k ≠ Task.id task → Database.get_task k db' = Database.get_task k db)
      ∧ (∀ k, k ≠ worker_id → Database.get_worker k db' = Database.get_worker k db)
      ∧ (∀ k, k ≠ Task.job_id task → Database.get_job k db' = Database.get_job k db)
  | (_, db') => db' = db
  end.
Proof.
  intros (_ & Hpk & _). unfold Server.request_task.
  destruct (Database.get_worker worker_id db) as [worker|] eqn:Hw; [|done].
  case_decide as Hidle; [done|].
  destruct (Database.get_next_task_for_worker worker db) as [task0|] eqn:Hnext;
    [|done].
  apply get_next_task_for_worker_Some in Hnext as (Hin & Hpending & j & Hj & _).
  pose proof (fetchone_NoDup (A:=Task.t) _ task0 Hpk Hin) as Htask0.
  pose proof (get_worker_id _ _ _ Hw) as Hwid.
  set (task := Task.set_assigned_worker (Some worker_id)
                 (Task.set_status TaskStatus.ASSIGNED task0)).
  set (worker' := Worker.set_current_task (Some (Task.id task))
                    (Worker.set_status WorkerStatus.BUSY worker)).
  set (db1 := Database.update_task task db).
  set (db2 := Database.update_worker worker' db1).
  assert (Database.get_task (Task.id task0) db2 = Some task) as Htask.
  { unfold db2, Database.update_worker, Database.get_task.
    rewrite (proj2 (upsert_worker_frame _ _)). simpl.
    rewrite (fetchone_update_where_eq (A:=Task.t)) by done.
    transitivity (Database.task_columns task <$> Some task0);
      [exact (f_equal _ Htask0)|].
    exact (f_equal Some (assigned_columns worker_id task0)). }
  assert (∀ k, k ≠ Task.id task0 →
               Database.get_task k db2 = Database.get_task k db) as Htasks.
  { intros k Hk. unfold db2, Database.update_worker, Database.get_task.
    rewrite (proj2 (upsert_worker_frame _ _)). simpl.
    by rewrite (fetchone_update_where_ne (A:=Task.t)). }
  assert (Database.get_worker worker_id db2 = Some worker') as Hworker.
  { unfold db2, Database.update_worker. rewrite <- Hwid at 1.
    apply (upsert_worker_get worker'). }
  assert (∀ k, k ≠ worker_id →
               Database.get_worker k db2 = Database.get_worker k db) as Hworkers.
  { intros k Hk. unfold db2, Database.update_worker.
    rewrite upsert_worker_other by (simpl; congruence). done. }
  assert (Database.jobs db2 = Database.jobs db) as Hjobs.
  { unfold db2, Database.update_worker.
    by rewrite (proj1 (upsert_worker_frame _ _)). }
  assert (Database.get_job (Task.job_id task0) db2 = Some j) as Hj2.
  { unfold Database.get_job in *. by rewrite Hjobs. }
  change (Task.job_id task) with (Task.job_id task0). rewrite Hj2.
  pose proof (get_job_id _ _ _ Hj) as Hjid.
  destruct (decide (Job.status j = JobStatus.QUEUED)) as [Hq|Hq].
  - exists task0, worker, j. split_and!; try done.
    + by rewrite decide_True.
    + unfold Database.update_job, Database.get_job. simpl.
      rewrite Hjobs, Hjid, (fetchone_update_where_eq (A:=Job.t)) by done.
      transitivity (Database.job_columns
                      (Job.set_started_at (Some now)
                         (Job.set_status JobStatus.ACTIVE j)) <$> Some j);
        [exact (f_equal _ Hj)|].
      exact (f_equal Some (started_columns now j)).
    + intros k Hk. unfold Database.update_job, Database.get_job. simpl.
      rewrite Hjobs, Hjid.
      by rewrite (fetchone_update_where_ne (A:=Job.t)).
  - exists task0, worker, j. split_and!; try done.
    + by rewrite decide_False.
    + intros k _. unfold Database.get_job. by rewrite Hjobs.
Qed.

Lemma pull_rewrites_task_worker_and_job_witness :
  Invariant.primary_keys Priorities.store
  ∧ ∀ k, k ≠ "H/0" →
         Database.get_task k (Server.request_task "W" 4 Priorities.store).2
         = Database.get_task k Priorities.store.
Proof.
  assert (Invariant.primary_keys Priorities.store) as Hpk.
  { repeat split; apply (bool_decide_unpack _); vm_compute; exact I. }
  split; [exact Hpk|].
  pose proof (pull_rewrites_task_worker_and_job "W" 4 Priorities.store Hpk) as H.
  assert ((Server.request_task "W" 4 Priorities.store).1
          = Server.Ok (Some (Task.set_assigned_worker (Some "W")
                               (Task.set_status TaskStatus.ASSIGNED
                                  (Farm.chunk Priorities.high 0)),
                             Some (Job.set_started_at (Some 4)
                                     (Job.set_status JobStatus.ACTIVE
                                        Priorities.high))))) as Hreply.
  { vm_compute. reflexivity. }
  destruct (Server.request_task "W" 4 Priorities.store) as [reply db'].
  simpl in Hreply. rewrite Hreply in H.
  destruct H as (? & ? & ? & _ & _ & _ & _ & _ & _ & _ & _ & _ & _ & Htasks & _).
  exact Htasks.
Defined.

(** ** Dispatch and the status of the Job *)

Lemma update_job_status_sets k status error now db j :
  Database.get_job k db = Some j →
  ∃ j', Database.get_job k (Database.update_job_status k status error now db) = Some j'
        ∧ Job.status j' = status.
Proof.
  intros Hj. unfold Database.get_job in *.
  destruct status; simpl;
    (eexists; split;
     [rewrite (fetchone_update_where_eq (A:=Job.t)) by done;
      etrans; [exact (f_equal _ Hj)|reflexivity]
     |done]).
Qed.

Lemma request_task_job_status worker_id now db task job db' :
  Server.request_task worker_id now db = (Server.Ok (Some (task, job)), db') →
  ∃ j, Database.get_job (Task.job_id task) db = Some j
       ∧ (Job.status j = JobStatus.QUEUED ∨ Job.status j = JobStatus.ACTIVE).
Proof.
  unfold Server.request_task.
  destruct (Database.get_worker worker_id db) as [worker|]; [|done].
  case_decide; [done|].
  destruct (Database.get_next_task_for_worker worker db) as [task0|] eqn:Hnext;
    [|done].
  apply get_next_task_for_worker_Some in Hnext as (_ & _ & j & Hj & Hd).
  intros Heq. exists j.
  assert (Task.job_id task = Task.job_id task0) as ->.
  { revert Heq. repeat case_match; by intros [= <- _ _]. }
  split; [done|]. apply Hd.
Qed.

(** X5.  A pull only returns a Task whose Job is stored as queued or
    active.  Hence once a suspend or a cancel request for a Job has been
    accepted, the next pull of any Worker does not return a Task of that
    Job, whatever the status of its Tasks. *)
Theorem suspended_or_cancelled_job_is_not_dispatched :
  (∀ worker_id now db task job db',
     Server.request_task worker_id now db = (Server.Ok (Some (task, job)), db') →
     ∃ j, Database.get_job (Task.job_id task) db = Some j
          ∧ (Job.status j = JobStatus.QUEUED ∨ Job.status j = JobStatus.ACTIVE))
  ∧ (∀ job_id now db body db',
       Server.suspend_job job_id now db = (Server.Ok body, db')
       ∨ Server.cancel_job job_id now db = (Server.Ok body, db') →
       ∀ worker_id now' task job db'',
         Server.request_task worker_id now' db' = (Server.Ok (Some (task, job)), db'') →
         Task.job_id task ≠ job_id).
Proof.
  split; [apply request_task_job_status|].
  intros job_id now db body db' Haccepted worker_id now' task job db'' Hpull.
  apply request_task_job_status in Hpull as (j & Hj & Hstatus).
  intros Heq. rewrite Heq in Hj.
  assert (∃ j', Database.get_job job_id db' = Some j'
                ∧ (Job.status j' = JobStatus.SUSPENDED
                   ∨ Job.status j' = JobStatus.CANCELLED)) as (j' & Hj' & Hs).
  { destruct Haccepted as [H|H].
    - unfold Server.suspend_job, Scheduler.suspend_job in H.
      destruct (Database.get_job job_id db) as [j0|] eqn:Hj0; [|done].
      case_decide; [|done]. injection H as _ <-.
      destruct (update_job_status_sets job_id JobStatus.SUSPENDED None now db j0 Hj0)
        as (j' & ? & ?). exists j'. auto.
    - unfold Server.cancel_job, Scheduler.cancel_job in H.
      destruct (Database.get_job job_id db) as [j0|] eqn:Hj0; [|done].
      injection H as _ <-.
      destruct (update_job_status_sets job_id JobStatus.CANCELLED None now db j0 Hj0)
        as (j' & ? & ?). exists j'. auto. }
  assert (j' = j) as -> by congruence.
  destruct Hs as [Hs|Hs], Hstatus as [Hq|Hq]; congruence.
Qed.

Lemma suspended_or_cancelled_job_is_not_dispatched_witness :
  Server.cancel_job "H" 4 Priorities.store
  = (Server.Ok "cancelled", (Server.cancel_job "H" 4 Priorities.store).2)
  ∧ Server.request_task "W" 5 (Server.cancel_job "H" 4 Priorities.store).2
    = (Server.Ok (Some (Task.set_assigned_worker (Some "W")
                          (Task.set_status TaskStatus.ASSIGNED
                             (Farm.chunk Priorities.low 0)),
                        Some (Job.set_started_at (Some 5)
                                (Job.set_status JobStatus.ACTIVE Priorities.low)))),
       (Server.request_task "W" 5 (Server.cancel_job "H" 4 Priorities.store).2).2)
  ∧ Task.job_id (Task.set_assigned_worker (Some "W")
                   (Task.set_status TaskStatus.ASSIGNED
                      (Farm.chunk Priorities.low 0))) ≠ "H".
Proof.
  assert (Server.cancel_job "H" 4 Priorities.store
          = (Server.Ok "cancelled", (Server.cancel_job "H" 4 Priorities.store).2))
    as Hcancel.
  { vm_compute. reflexivity. }
  assert (Server.request_task "W" 5 (Server.cancel_job "H" 4 Priorities.store).2
    = (Server.Ok (Some (Task.set_assigned_worker (Some "W")
                          (Task.set_status TaskStatus.ASSIGNED
                             (Farm.chunk Priorities.low 0)),
                        Some (Job.set_started_at (Some 5)
                                (Job.set_status JobStatus.ACTIVE Priorities.low)))),
       (Server.request_task "W" 5 (Server.cancel_job "H" 4 Priorities.store).2).2))
    as Hpull.
  { vm_compute. reflexivity. }
  split; [exact Hcancel|]. split; [exact Hpull|].
  exact (proj2 suspended_or_cancelled_job_is_not_dispatched "H" 4 Priorities.store
           "cancelled" _ (or_intror Hcancel) "W" 5 _ _ _ Hpull).
Defined.

(** ** Refusals *)


(** ** Suspend and resume *)

Section UpdateWhereFixes.
Context {A : Type} `{Keyed A}.

Lemma update_where_fixes k (f : A → A) (tbl : list A) :
  (∀ r, r ∈ tbl → key r = k → f r = r) → update_where k f tbl = tbl.
Proof.
  intros Hf. unfold update_where.
  induction tbl as [|x tbl IH]; [done|]. rewrite fmap_cons.
  rewrite IH by (intros r Hr; apply Hf; by right). f_equal.
  case_decide; [|done]. apply Hf; [by left|done].
Qed.

Lemma update_where_compose k (f g : A → A) (tbl : list A) :
  (∀ r, key r = k → key (f r) = k) →
  update_where k g (update_where k f tbl) = update_where k (g ∘ f) tbl.
Proof.
  intros Hf. unfold update_where. rewrite <- list_fmap_compose.
  apply list_fmap_ext. intros _ r _. simpl.
  destruct (decide (key r = k)) as [Hr|Hr].
  - by rewrite decide_True by auto.
  - by rewrite decide_False.
Qed.

Lemma update_where_absent k (f : A → A) (tbl : list A) :
  fetchone k tbl = None → update_where k f tbl = tbl.
Proof.
  intros Hnone. apply update_where_fixes. intros r Hr Hk.
  pose proof (proj2 (fetchone_is_Some k tbl) (ex_intro _ r (conj Hr Hk))) as [? ?].
  congruence.
Qed.

End UpdateWhereFixes.

Lemma has_pending_task job_id db :
  existsb (λ x, bool_decide (Task.status x = TaskStatus.PENDING))
    (Database.get_tasks_by_job job_id db) = true
  ↔ ∃ x, x ∈ Database.tasks db ∧ Task.job_id x = job_id
         ∧ Task.status x = TaskStatus.PENDING.
Proof.
  rewrite existsb_exists. unfold Database.get_tasks_by_job. split.
  - intros (x & Hx & Hp). exists x.
    apply list_elem_of_In, elem_of_order_by, list_elem_of_filter in Hx as [? ?].
    split; [done|]. split; [done|]. by apply bool_decide_eq_true in Hp.
  - intros (x & Hx & Hj & Hp). exists x. split.
    + apply list_elem_of_In, elem_of_order_by, list_elem_of_filter. done.
    + by apply bool_decide_eq_true.
Qed.

(** X7.  A suspend request for a Job that is pending, queued or active is
    accepted, and a resume request that follows is accepted too.  Neither
    touches a Task, a Worker or another Job: Tasks that are running keep
    running.  After the two, the Job is queued if one of its Tasks is
    pending, and otherwise active with started_at set to the time of the
    resume request (also a Job that has no Task at all).  A queued Job with
    a pending Task gets the store back as it was. *)
Theorem suspend_then_resume
    (job_id : string) (now now' : datetime) (db : Database.t) (j : Job.t) :
  Invariant.primary_keys db →
  Database.get_job job_id db = Some j →
  Job.status j = JobStatus.PENDING ∨ Job.status j = JobStatus.QUEUED
  ∨ Job.status j = JobStatus.ACTIVE →
  ∃ db1 db2,
    Server.suspend_job job_id now db = (Server.Ok "suspended", db1)
    ∧ Database.get_job job_id db1 = Some (Job.set_status JobStatus.SUSPENDED j)
    ∧ Server.resume_job job_id now' db1 = (Server.Ok "resumed", db2)
    ∧ Database.tasks db1 = Database.tasks db
    ∧ Database.workers db1 = Database.workers db
    ∧ Database.tasks db2 = Database.tasks db
    ∧ Database.workers db2 = Database.workers db
    ∧ (∀ k, k ≠ job_id →
            Database.get_job k db1 = Database.get_job k db
            ∧ Database.get_job k db2 = Database.get_job k db)
    ∧ ((∃ x, x ∈ Database.tasks db ∧ Task.job_id x = job_id
             ∧ Task.status x = TaskStatus.PENDING) →
       Database.get_job job_id db2 = Some (Job.set_status JobStatus.QUEUED j)
       ∧ (Job.status j = JobStatus.QUEUED → db2 = db))
    ∧ ((¬ ∃ x, x ∈ Database.tasks db ∧ Task.job_id x = job_id
               ∧ Task.status x = TaskStatus.PENDING) →
       Database.get_job job_id db2
       = Some (Job.set_started_at (Some now') (Job.set_status JobStatus.ACTIVE j))).
Proof.
  intros (Hpk & _ & _) Hj Hstatus.
  set (db1 := Database.update_job_status job_id JobStatus.SUSPENDED None now db).
  assert (Server.suspend_job job_id now db = (Server.Ok "suspended", db1)) as Hs.
  { unfold Server.suspend_job, Scheduler.suspend_job. rewrite Hj.
    by rewrite decide_True. }
  assert (Database.get_job job_id db1 = Some (Job.set_status JobStatus.SUSPENDED j))
    as Hj1.
  { unfold db1, Database.get_job. simpl.
    rewrite (fetchone_update_where_eq (A:=Job.t)) by done.
    exact (f_equal _ Hj). }
  assert (∀ k, k ≠ job_id → Database.get_job k db1 = Database.get_job k db) as Hf1.
  { intros k Hk. unfold db1, Database.get_job. simpl.
    by rewrite (fetchone_update_where_ne (A:=Job.t)). }
  pose proof (has_pending_task job_id db) as Hpending.
  change (Database.get_tasks_by_job job_id db)
    with (Database.get_tasks_by_job job_id db1) in Hpending.
  assert (∀ r, r ∈ Database.jobs db → Job.id r = job_id → r = j) as Hrow.
  { intros r Hr Hk. pose proof (fetchone_NoDup (A:=Job.t) _ r Hpk Hr) as Hr'.
    assert (Some r = Some j) as [= ->]; [|done].
    rewrite <- Hr', <- Hj. unfold Database.get_job. by rewrite <- Hk. }
  destruct (existsb (λ x, bool_decide (Task.status x = TaskStatus.PENDING))
              (Database.get_tasks_by_job job_id db1)) eqn:Hex.
  - exists db1, (Database.update_job_status job_id JobStatus.QUEUED None now' db1).
    split; [done|]. split; [done|]. split.
    { unfold Server.resume_job, Scheduler.resume_job. rewrite Hj1. simpl.
      by rewrite Hex. }
    split_and!; try done.
    + intros k Hk. split; [by apply Hf1|].
      unfold Database.get_job. simpl.
      by rewrite !(fetchone_update_where_ne (A:=Job.t)).
    + intros _. split.
      * unfold Database.get_job. simpl.
        rewrite (fetchone_update_where_eq (A:=Job.t)) by done.
        etrans; [exact (f_equal _ Hj1)|]. by destruct j.
      * intros Hq. unfold db1. destruct db as [jobs tasks workers]. simpl in *.
        unfold Database.with_jobs. simpl. f_equal.
        rewrite (update_where_compose (A:=Job.t)) by done.
        apply (update_where_fixes (A:=Job.t)). intros r Hr Hk.
        rewrite (Hrow r Hr Hk). destruct j; simpl in *; by subst.
    + intros Hno. destruct Hno. by apply Hpending.
  - exists db1, (Database.update_job_status job_id JobStatus.ACTIVE None now' db1).
    split; [done|]. split; [done|]. split.
    { unfold Server.resume_job, Scheduler.resume_job. rewrite Hj1. simpl.
      by rewrite Hex. }
    split_and!; try done.
    + intros k Hk. split; [by apply Hf1|].
      unfold Database.get_job. simpl.
      by rewrite !(fetchone_update_where_ne (A:=Job.t)).
    + intros Hsome. apply Hpending in Hsome. congruence.
    + intros _. unfold Database.get_job. simpl.
      rewrite (fetchone_update_where_eq (A:=Job.t)) by done.
      etrans; [exact (f_equal _ Hj1)|]. by destruct j.
Qed.

Lemma suspend_then_resume_witness :
  Invariant.primary_keys Priorities.store
  ∧ Database.get_job "H" Priorities.store = Some Priorities.high
  ∧ (Server.resume_job "H" 5 (Server.suspend_job "H" 4 Priorities.store).2).2
    = Priorities.store.
Proof.
  assert (Invariant.primary_keys Priorities.store) as Hpk.
  { repeat split; apply (bool_decide_unpack _); vm_compute; exact I. }
  assert (Database.get_job "H" Priorities.store = Some Priorities.high) as Hj.
  { vm_compute. reflexivity. }
  split; [exact Hpk|]. split; [exact Hj|].
  destruct (suspend_then_resume "H" 4 5 Priorities.store Priorities.high Hpk Hj
              (or_intror (or_introl eq_refl)))
    as (db1 & db2 & -> & _ & Hr & _ & _ & _ & _ & _ & Hpending & _).
  simpl. rewrite Hr. simpl. apply Hpending; [|reflexivity].
  exists (Farm.chunk Priorities.high 0). split; [|done].
  vm_compute. do 2 right. left.
Defined.

(** ** Deleting a Job *)

Lemma get_tasks_by_job_delete_job k job_id db :
  k ≠ job_id →
  Database.get_tasks_by_job k (Database.delete_job job_id db)
  = Database.get_tasks_by_job k db.
Proof.
  intros Hk. unfold Database.get_tasks_by_job, Database.delete_job. simpl.
  f_equal. rewrite list_filter_filter. apply list_filter_iff.
  intros x. split; [by intros [? _]|]. intros Hx. split; [done|congruence].
Qed.

Lemma get_tasks_by_job_deleted job_id db :
  Database.get_tasks_by_job job_id (Database.delete_job job_id db) = [].
Proof.
  unfold Database.get_tasks_by_job, Database.delete_job. simpl.
  rewrite list_filter_filter.
  replace (filter _ (Database.tasks db)) with (@nil Task.t); [done|].
  symmetry. induction (Database.tasks db) as [|x l IH]; [done|].
  rewrite filter_cons. by rewrite decide_False by (by intros [? ?]).
Qed.

(** X8.  A delete request for a stored Job is accepted exactly when the Job
    is completed, cancelled or failed; otherwise it is refused with 400 and
    nothing changes.  An accepted delete removes the Job and every Task of
    it and nothing else: the other Jobs and their Tasks are as before, and
    so is every Worker row (a Worker whose current_task names a removed Task
    keeps naming it). *)
Theorem delete_job_removes_job_and_its_tasks
    (job_id : string) (db : Database.t) (j : Job.t) :
  Database.get_job job_id db = Some j →
  (Job.status j = JobStatus.COMPLETED ∨ Job.status j = JobStatus.CANCELLED
   ∨ Job.status j = JobStatus.FAILED →
   ∃ db',
     Server.delete_job job_id db = (Server.Ok "deleted", db')
     ∧ Database.get_job job_id db' = None
     ∧ Database.get_tasks_by_job job_id db' = []
     ∧ (∀ x, x ∈ Database.tasks db'
             ↔ x ∈ Database.tasks db ∧ Task.job_id x ≠ job_id)
     ∧ (∀ k, k ≠ job_id →
             Database.get_job k db' = Database.get_job k db
             ∧ Database.get_tasks_by_job k db' = Database.get_tasks_by_job k db)
     ∧ Database.workers db' = Database.workers db)
  ∧ (¬ (Job.status j = JobStatus.COMPLETED ∨ Job.status j = JobStatus.CANCELLED
        ∨ Job.status j = JobStatus.FAILED) →
     Server.delete_job job_id db
     = (Server.HTTPException 400 "Cannot delete active job", db)).
Proof.
  intros Hj. unfold Server.delete_job. rewrite Hj. split; intros Hs.
  - exists (Database.delete_job job_id db). rewrite decide_True by done.
    split_and!; try done.
    + apply delete_job_get_job.
    + apply get_tasks_by_job_deleted.
    + intros x. unfold Database.delete_job. simpl.
      rewrite list_elem_of_filter. tauto.
    + intros k Hk. split; [|by apply get_tasks_by_job_delete_job].
      unfold Database.get_job, Database.delete_job. simpl.
      rewrite (fetchone_delete_where (A:=Job.t)). by rewrite decide_False.
  - by rewrite decide_False.
Qed.

Lemma delete_job_removes_job_and_its_tasks_witness :
  Database.get_job "E" Finished.store ≠ None
  ∧ Database.get_job "E" (Server.delete_job "E" Finished.store).2 = None
  ∧ Database.tasks (Server.delete_job "E" Finished.store).2 = [].
Proof.
  assert (Database.tasks (Server.delete_job "E" Finished.store).2 = []) as Htasks.
  { vm_compute. reflexivity. }
  destruct (Database.get_job "E" Finished.store) as [j|] eqn:Hj;
    [|vm_compute in Hj; discriminate].
  split; [done|].
  assert (Job.status j = JobStatus.COMPLETED) as Hs.
  { vm_compute in Hj. by injection Hj as <-. }
  destruct (proj1 (delete_job_removes_job_and_its_tasks "E" Finished.store j Hj)
              (or_introl Hs)) as (db' & Hdel & Hnone & _).
  split; [|exact Htasks]. rewrite Hdel. exact Hnone.
Defined.

(** ** An accepted submission *)

Lemma add_tasks_fresh tasks db :
  NoDup (Task.id <$> tasks) →
  (∀ x, x ∈ tasks → Database.get_task (Task.id x) db = None) →
  Server.add_tasks tasks db
  = (Database.mk (Database.jobs db) (Database.tasks db ++ tasks)
       (Database.workers db), true).
Proof.
  revert db. induction tasks as [|x tasks IH]; intros db Hnd Hfresh.
  - simpl. rewrite app_nil_r. by destruct db.
  - rewrite fmap_cons in Hnd. apply NoDup_cons in Hnd as [Hx Hnd]. simpl.
    unfold Database.add_task, insert_row.
    pose proof (Hfresh x ltac:(by left)) as Hnone.
    unfold Database.get_task in Hnone.
    change (key x) with (Task.id x). rewrite Hnone. simpl.
    rewrite IH; simpl.
    + by rewrite <- app_assoc.
    + done.
    + intros y Hy. unfold Database.get_task. simpl. rewrite fetchone_app.
      pose proof (Hfresh y ltac:(by right)) as Hy'.
      unfold Database.get_task in Hy'. rewrite Hy'. simpl.
      rewrite decide_False; [done|].
      intros Heq. apply Hx. apply list_elem_of_fmap. exists y.
      split; [exact Heq|done].
Qed.

(** X9.  A submission for a registered plugin whose validation passes, with
    a Job id that is new and a partitioning into Tasks whose ids are
    distinct and new, is answered with the Job in status queued and
    task_total equal to the number of Tasks; the Job row is appended to the
    Jobs, the Tasks are appended in the order of the partitioning, and the
    Workers are unchanged. *)
Theorem submit_job_stores_job_and_tasks
    (plugins : registry) (submission : Server.JobSubmission) (new_id : string)
    (now : datetime) (db : Database.t) (plugin : RenderPlugin.t)
    (error : option string) (tasks : list Task.t) :
  plugins !! Server.sub_plugin submission = Some plugin →
  RenderPlugin.validate plugin (Server.sub_plugin_data submission) = (true, error) →
  Database.get_job new_id db = None →
  RenderPlugin.create_tasks plugin (Server.new_job submission new_id now) = Some tasks →
  NoDup (Task.id <$> tasks) →
  (∀ x, x ∈ tasks → Database.get_task (Task.id x) db = None) →
  let job :=
    Job.set_status JobStatus.QUEUED
      (Job.set_task_total (Z.of_nat (length tasks))
         (Server.new_job submission new_id now)) in
  Server.submit_job plugins submission new_id now db
  = (Server.Ok job,
     Database.mk (Database.jobs db ++ [job]) (Database.tasks db ++ tasks)
       (Database.workers db))
  ∧ Database.get_job new_id
      (Server.submit_job plugins submission new_id now db).2 = Some job.
Proof.
  intros Hplugin Hvalid Hnew Hcreate Hnd Hfresh job.
  assert (Server.submit_job plugins submission new_id now db
          = (Server.Ok job,
             Database.mk (Database.jobs db ++ [job]) (Database.tasks db ++ tasks)
               (Database.workers db))) as Hsubmit.
  { unfold Server.submit_job. rewrite Hplugin, Hvalid. simpl.
    unfold Database.add_job, insert_row.
    change (key (Server.new_job submission new_id now)) with new_id.
    unfold Database.get_job in Hnew. rewrite Hnew. simpl. rewrite Hcreate.
    rewrite add_tasks_fresh by done. simpl. f_equal.
    unfold Database.update_job, Database.with_jobs. simpl. f_equal.
    unfold update_where. rewrite fmap_app. f_equal.
    - apply (update_where_absent (A:=Job.t)). exact Hnew.
    - simpl. by rewrite decide_True. }
  split; [exact Hsubmit|]. rewrite Hsubmit. unfold Database.get_job. simpl.
  rewrite fetchone_app. unfold Database.get_job in Hnew. rewrite Hnew. simpl.
  by rewrite decide_True.
Qed.

Lemma submit_job_stores_job_and_tasks_witness :
  Database.tasks
    (Server.submit_job Farm.plugins (Farm.submission "R" "aftereffects" []) "R" 1
       Database.empty).2
  = [Farm.chunk (Server.new_job (Farm.submission "R" "aftereffects" []) "R" 1) 0;
     Farm.chunk (Server.new_job (Farm.submission "R" "aftereffects" []) "R" 1) 1].
Proof.
  refine (f_equal (λ out, Database.tasks out.2)
            (proj1 (submit_job_stores_job_and_tasks Farm.plugins
                      (Farm.submission "R" "aftereffects" []) "R" 1 Database.empty
                      Farm.renderer None _ _ _ _ _ _ _))).
  - vm_compute. reflexivity.
  - reflexivity.
  - reflexivity.
  - reflexivity.
  - apply (bool_decide_unpack _). vm_compute. exact I.
  - intros x _. reflexivity.
Defined.

(** ** The reports of a Worker *)

Lemma release_worker_frame task db :
  Database.jobs (Server.release_worker task db) = Database.jobs db
  ∧ Database.tasks (Server.release_worker task db) = Database.tasks db.
Proof.
  unfold Server.release_worker, Database.update_worker.
  repeat case_match; try done. apply upsert_worker_frame.
Qed.



(** X11.  A fail report for a stored Task is accepted whatever the status
    of the Task and of its Job.  The Task is stored as failed with
    finished_at, exit_code and, when the report has one, error_message of
    the report.  The Job's row gets the number of completed and of failed
    Tasks as stored after the report; when the two reach task_total the Job
    is stored as failed, finished at the time of the report and with the
    error_message of the report, however few Tasks failed.  Below
    task_total the Job's status and error_message are kept. *)
Theorem fail_report_updates_task_and_job
    (task_id : string) (exit_code : Z) (error_message : option string)
    (now : datetime) (db : Database.t) (task : Task.t) (j : Job.t) :
  Database.get_task task_id db = Some task →
  Database.get_job (Task.job_id task) db = Some j →
  let out := Server.task_failed task_id exit_code error_message now db in
  let completed :=
    count_status TaskStatus.COMPLETED
      (Database.get_tasks_by_job (Task.job_id task) out.2) in
  let failed :=
    count_status TaskStatus.FAILED
      (Database.get_tasks_by_job (Task.job_id task) out.2) in
  out.1 = Server.Ok ()
  ∧ (∃ x, Database.get_task task_id out.2 = Some x
          ∧ Task.status x = TaskStatus.FAILED
          ∧ Task.finished_at x = Some now
          ∧ Task.exit_code x = Some exit_code
          ∧ Task.error_message x
            = Database.coalesce error_message (Task.error_message task))
  ∧ ∃ j', Database.get_job (Task.job_id task) out.2 = Some j'
          ∧ Job.task_total j' = Job.task_total j
          ∧ Job.task_completed j' = completed
          ∧ Job.task_failed j' = failed
          ∧ Job.progress j' = Server.completed_percent completed (Job.task_total j)
          ∧ (Job.task_total j ≤ completed + failed →
             Job.status j' = JobStatus.FAILED
             ∧ Job.finished_at j' = Some now
             ∧ Job.error_message j' = error_message)
          ∧ (completed + failed < Job.task_total j →
             Job.status j' = Job.status j
             ∧ Job.finished_at j' = Job.finished_at j
             ∧ Job.error_message j' = Job.error_message j).
Proof.
  intros Htask Hjob. unfold Server.task_failed. rewrite Htask.
  set (db1 := Database.update_task_status task_id TaskStatus.FAILED
                None (Some now) (Some exit_code) error_message db).
  set (db2 := Server.release_worker task db1).
  destruct (release_worker_frame task db1) as [Hjobs Htasks]. fold db2 in Hjobs, Htasks.
  assert (Database.get_job (Task.job_id task) db2 = Some j) as Hjob2.
  { unfold Database.get_job. rewrite Hjobs. exact Hjob. }
  rewrite Hjob2.
  set (all_tasks := Database.get_tasks_by_job (Task.job_id task) db2).
  set (job2 := if _ <=? _ then _ else _).
  assert (Database.get_tasks_by_job (Task.job_id task) (Database.update_job job2 db2)
          = all_tasks) as Hall by done.
  cbn zeta. cbn [fst snd]. rewrite Hall. split; [done|]. split.
  - unfold Database.get_task. cbn [Database.update_job Database.with_jobs Database.tasks].
    rewrite Htasks. unfold db1. simpl.
    rewrite (fetchone_update_where_eq (A:=Task.t)) by done.
    eexists. split; [exact (f_equal _ Htask)|]. done.
  - exists (Database.job_columns job2 j). split.
    { unfold Database.get_job, Database.update_job. simpl.
      assert (Job.id job2 = Task.job_id task) as ->.
      { unfold job2. case_match; simpl; exact (get_job_id _ _ _ Hjob). }
      rewrite (fetchone_update_where_eq (A:=Job.t)) by done.
      unfold Database.get_job in Hjob2. exact (f_equal _ Hjob2). }
    unfold job2. simpl.
    destruct (Z.leb_spec (Job.task_total j)
                (count_status TaskStatus.COMPLETED all_tasks
                 + count_status TaskStatus.FAILED all_tasks)); simpl;
      split_and!; try done; lia.
Qed.

Lemma fail_report_updates_task_and_job_witness :
  ∃ j', Database.get_job "R"
          (Server.task_failed "R/0" 1 (Some "crash") 5 Busy.store).2 = Some j'
        ∧ Job.task_failed j' = 1
        ∧ Job.status j' = JobStatus.ACTIVE.
Proof.
  assert (Database.get_task "R/0" Busy.store = Some Busy.task) as Htask.
  { vm_compute. reflexivity. }
  assert (Database.get_job (Task.job_id Busy.task) Busy.store = Some Busy.job) as Hjob.
  { vm_compute. reflexivity. }
  destruct (fail_report_updates_task_and_job "R/0" 1 (Some "crash") 5 Busy.store
              _ _ Htask Hjob)
    as (_ & _ & j' & Hj' & _ & _ & Hfailed & _ & _ & Hkept).
  exists j'. split; [exact Hj'|]. split.
  - rewrite Hfailed. vm_compute. reflexivity.
  - apply Hkept. vm_compute. reflexivity.
Defined.

(** ** Retrying one Task *)

Lemma request_task_selects worker_id now db task job db' :
  Server.request_task worker_id now db = (Server.Ok (Some (task, job)), db') →
  ∃ task0, task0 ∈ Database.tasks db
           ∧ Task.status task0 = TaskStatus.PENDING
           ∧ Task.id task0 = Task.id task.
Proof.
  unfold Server.request_task.
  destruct (Database.get_worker worker_id db) as [worker|]; [|done].
  case_decide; [done|].
  destruct (Database.get_next_task_for_worker worker db) as [task0|] eqn:Hnext;
    [|done].
  apply get_next_task_for_worker_Some in Hnext as (Hin & Hpending & _).
  intros Heq. exists task0. split; [done|]. split; [done|].
  revert Heq. repeat case_match; by intros [= <- _ _].
Qed.

(** X12.  A retry request for a Task is accepted exactly when the stored
    Task is failed.  It clears assigned_worker, started_at, finished_at,
    exit_code and error_message and sets progress to 0, but the status it
    leaves in the store is failed: the row is written back from the object
    read before the status was set to pending.  Nothing else changes, and in
    a store with primary keys no pull returns the Task afterwards. *)
Theorem retry_task_leaves_task_failed
    (task_id : string) (db : Database.t) (task : Task.t) :
  Database.get_task task_id db = Some task →
  (Task.status task ≠ TaskStatus.FAILED →
   Server.retry_task task_id db
   = (Server.HTTPException 400 "Can only retry failed tasks", db))
  ∧ (Task.status task = TaskStatus.FAILED →
     ∃ db',
       Server.retry_task task_id db = (Server.Ok (), db')
       ∧ Database.get_task task_id db'
         = Some (Task.set_error_message None
                   (Task.set_exit_code None
                      (Task.set_progress 0%Q
                         (Task.set_finished_at None
                            (Task.set_started_at None
                               (Task.set_assigned_worker None task))))))
       ∧ Database.jobs db' = Database.jobs db
       ∧ Database.workers db' = Database.workers db
       ∧ (∀ k, k ≠ task_id → Database.get_task k db' = Database.get_task k db)
       ∧ (Invariant.primary_keys db →
          ∀ worker_id now task' job db'',
            Server.request_task worker_id now db'
            = (Server.Ok (Some (task', job)), db'') →
            Task.id task' ≠ task_id)).
Proof.
  intros Htask. unfold Server.retry_task. rewrite Htask.
  split; intros Hs; [by rewrite decide_False|]. rewrite decide_True by done.
  pose proof (get_task_id _ _ _ Htask) as Hid.
  set (task1 := Task.set_error_message None _).
  set (db' := Database.update_task task1 _).
  assert (Database.get_task task_id db' = Some task1) as Hget.
  { unfold db', Database.get_task, Database.update_task, Database.update_task_status.
    simpl. rewrite Hid.
    rewrite !(fetchone_update_where_eq (A:=Task.t)) by done.
    unfold Database.get_task in Htask.
    etrans; [exact (f_equal (λ o, _ <$> (_ <$> o)) Htask)|].
    by destruct task. }
  exists db'. split_and!; try done.
  - intros k Hk.
    unfold db', Database.get_task, Database.update_task, Database.update_task_status.
    simpl. rewrite Hid.
    by rewrite !(fetchone_update_where_ne (A:=Task.t)).
  - intros Hpk worker_id now task' job db'' Hpull Heq.
    apply request_task_selects in Hpull as (task0 & Hin & Hpending & Hid0).
    assert (Invariant.primary_keys db') as (_ & Hpk' & _).
    { pose proof (primary_keys_handle ∅ 0 (Coordinator.RetryTask task_id) db Hpk)
        as Hpk'.
      simpl in Hpk'. unfold Server.retry_task in Hpk'. rewrite Htask in Hpk'.
      by rewrite decide_True in Hpk'. }
    pose proof (fetchone_NoDup (A:=Task.t) _ task0 Hpk' Hin) as Hrow.
    assert (Some task0 = Some task1) as [= ->].
    { rewrite <- Hrow, <- Hget. unfold Database.get_task.
      f_equal. change (Task.id task0 = task_id). congruence. }
    simpl in Hpending. congruence.
Qed.

Lemma retry_task_leaves_task_failed_witness :
  ∃ x, Database.get_task "R/1" HalfFailed.store = Some x
       ∧ Task.status x = TaskStatus.FAILED
       ∧ ∃ x', Database.get_task "R/1" (Server.retry_task "R/1" HalfFailed.store).2
               = Some x'
               ∧ Task.status x' = TaskStatus.FAILED.
Proof.
  destruct (Database.get_task "R/1" HalfFailed.store) as [x|] eqn:Hx;
    [|vm_compute in Hx; discriminate].
  assert (Task.status x = TaskStatus.FAILED) as Hs.
  { vm_compute in Hx. by injection Hx as <-. }
  exists x. split; [done|]. split; [exact Hs|].
  destruct (proj2 (retry_task_leaves_task_failed "R/1" HalfFailed.store x Hx) Hs)
    as (db' & Hretry & Hget & _).
  eexists. rewrite Hretry. split; [exact Hget|]. exact Hs.
Defined.

(** ** task_total is the number of Tasks *)

Section TaskTotals.

Lemma length_filter_fmap_stable {A} (P : A → Prop) `{∀ x, Decision (P x)}
    (f : A → A) (l : list A) :
  (∀ x, P (f x) ↔ P x) → length (filter P (f <$> l)) = length (filter P l).
Proof.
  intros Hf. induction l as [|x l IH]; [done|].
  rewrite fmap_cons, !filter_cons.
  destruct (decide (P x)) as [Hx|Hx].
  - rewrite decide_True by (by apply Hf). simpl. by rewrite IH.
  - by rewrite decide_False by (by rewrite Hf).
Qed.

Lemma filter_none {A} (P : A → Prop) `{∀ x, Decision (P x)} (l : list A) :
  (∀ x, x ∈ l → ¬ P x) → filter P l = [].
Proof.
  induction l as [|x l IH]; intros Hl; [done|].
  rewrite filter_cons, decide_False by (apply Hl; by left).
  apply IH. intros y Hy. apply Hl. by right.
Qed.

Lemma filter_all {A} (P : A → Prop) `{∀ x, Decision (P x)} (l : list A) :
  (∀ x, x ∈ l → P x) → filter P l = l.
Proof.
  induction l as [|x l IH]; intros Hl; [done|].
  rewrite filter_cons, decide_True by (apply Hl; by left).
  f_equal. apply IH. intros y Hy. apply Hl. by right.
Qed.

Lemma elem_of_update_where_inv {A} `{Keyed A} k (f : A → A) (tbl : list A) r :
  r ∈ update_where k f tbl →
  ∃ r0, r0 ∈ tbl ∧ ((key r0 ≠ k ∧ r = r0) ∨ (key r0 = k ∧ r = f r0)).
Proof.
  unfold update_where. intros (r0 & -> & Hr0)%list_elem_of_fmap.
  exists r0. split; [done|]. case_decide; auto.
Qed.

Lemma number_of_tasks_update_where k' k g db :
  (∀ r, Task.job_id (g r) = Task.job_id r) →
  Counters.number_of_tasks k' (Database.with_tasks (update_where k g) db)
  = Counters.number_of_tasks k' db.
Proof.
  intros Hg. unfold Counters.number_of_tasks. simpl. f_equal.
  unfold update_where. apply length_filter_fmap_stable.
  intros x. case_decide; [by rewrite Hg|done].
Qed.

Lemma task_totals_with_tasks k g db :
  (∀ r, Task.job_id (g r) = Task.job_id r) →
  Counters.task_totals db →
  Counters.task_totals (Database.with_tasks (update_where k g) db).
Proof.
  intros Hg Hdb j Hj. rewrite number_of_tasks_update_where by done. by apply Hdb.
Qed.

Lemma task_totals_with_workers g db :
  Counters.task_totals db → Counters.task_totals (Database.with_workers g db).
Proof. done. Qed.

Lemma task_totals_with_jobs k g db :
  (∀ r, Job.id (g r) = Job.id r ∧ Job.task_total (g r) = Job.task_total r) →
  Counters.task_totals db →
  Counters.task_totals (Database.with_jobs (update_where k g) db).
Proof.
  intros Hg Hdb j Hj. simpl in Hj.
  apply elem_of_update_where in Hj as (r & Hr & [->|[_ ->]]); [by apply Hdb|].
  destruct (Hg r) as [-> ->]. by apply Hdb.
Qed.

Lemma task_totals_fetched k db j :
  Counters.task_totals db → Database.get_job k db = Some j →
  Job.task_total j = Counters.number_of_tasks (Job.id j) db.
Proof. intros Hdb Hj. apply Hdb. exact (fetchone_elem_of _ _ _ Hj). Qed.

Lemma task_totals_update_job job db :
  Job.task_total job = Counters.number_of_tasks (Job.id job) db →
  Counters.task_totals db → Counters.task_totals (Database.update_job job db).
Proof.
  intros Hjob Hdb j Hj. simpl in Hj.
  apply elem_of_update_where in Hj as (r & Hr & [->|[Hk ->]]); [by apply Hdb|].
  simpl. change (key r = Job.id job) in Hk.
  change (Job.task_total job = Counters.number_of_tasks (Job.id r) db).
  rewrite Hjob. f_equal. by symmetry.
Qed.

Lemma task_totals_update_job_status k s e now db :
  Counters.task_totals db →
  Counters.task_totals (Database.update_job_status k s e now db).
Proof. destruct s; by apply task_totals_with_jobs. Qed.

Lemma task_totals_update_task task db :
  Counters.task_totals db → Counters.task_totals (Database.update_task task db).
Proof. by apply task_totals_with_tasks. Qed.

Lemma task_totals_update_task_status k s a b c d db :
  Counters.task_totals db →
  Counters.task_totals (Database.update_task_status k s a b c d db).
Proof. by apply task_totals_with_tasks. Qed.

Lemma task_totals_update_task_progress k p db :
  Counters.task_totals db →
  Counters.task_totals (Database.update_task_progress k p db).
Proof. by apply task_totals_with_tasks. Qed.

Lemma task_totals_upsert_worker w db :
  Counters.task_totals db → Counters.task_totals (Database.upsert_worker w db).
Proof.
  unfold Database.upsert_worker. case_match; apply task_totals_with_workers.
Qed.

Lemma task_totals_update_worker w db :
  Counters.task_totals db → Counters.task_totals (Database.update_worker w db).
Proof. apply task_totals_upsert_worker. Qed.

Lemma task_totals_release_worker task db :
  Counters.task_totals db → Counters.task_totals (Server.release_worker task db).
Proof.
  intros Hdb. unfold Server.release_worker.
  repeat case_match; auto using task_totals_update_worker.
Qed.

(** Deleting a Job takes its Tasks with it, whatever its own counter
    says. *)
Lemma task_totals_delete_job k db :
  (∀ j, j ∈ Database.jobs db → Job.id j ≠ k →
        Job.task_total j = Counters.number_of_tasks (Job.id j) db) →
  Counters.task_totals (Database.delete_job k db).
Proof.
  intros Hdb j Hj. simpl in Hj. apply list_elem_of_filter in Hj as [Hne Hj].
  rewrite (Hdb j Hj Hne). unfold Counters.number_of_tasks. simpl. do 2 f_equal.
  rewrite list_filter_filter. apply list_filter_iff.
  intros x. split; [|by intros [? _]]. intros Hx. split; [done|].
  rewrite Hx. exact Hne.
Qed.

(** A new Job without Tasks: its id names no Task, because no Task is an
    orphan. *)
Lemma task_totals_add_job job db db' :
  Database.add_job job db = Some db' → Job.task_total job = 0 →
  Invariant.no_orphan_tasks db →
  Counters.task_totals db → Counters.task_totals db'.
Proof.
  intros (Hnew & Hjobs & Htasks & _)%add_job_Some Hzero Horphans Hdb j Hj.
  unfold Counters.number_of_tasks. rewrite Htasks.
  rewrite Hjobs in Hj. apply elem_of_app in Hj as [Hj|Hj]; [by apply Hdb|].
  apply list_elem_of_singleton in Hj as ->. rewrite Hzero.
  replace (filter _ (Database.tasks db)) with (@nil Task.t); [done|].
  symmetry. apply filter_none.
  intros x Hx Hk. destruct (Horphans x Hx) as [j' Hj']. congruence.
Qed.

Lemma add_tasks_appends tasks db :
  ∃ added,
    added `prefix_of` tasks
    ∧ Database.jobs (Server.add_tasks tasks db).1 = Database.jobs db
    ∧ Database.tasks (Server.add_tasks tasks db).1 = Database.tasks db ++ added
    ∧ ((Server.add_tasks tasks db).2 = true → added = tasks).
Proof.
  revert db. induction tasks as [|x tasks IH]; intros db; simpl.
  { exists []. by rewrite app_nil_r. }
  destruct (Database.add_task x db) as [db'|] eqn:Hadd.
  - unfold Database.add_task in Hadd.
    destruct (insert_row x (Database.tasks db)) as [ts|] eqn:Hins; [|done].
    apply insert_row_Some in Hins as [_ ->]. injection Hadd as <-.
    destruct (IH (Database.mk (Database.jobs db) (Database.tasks db ++ [x])
                    (Database.workers db))) as (added & Hpre & Hjobs & Htasks & Hok).
    exists (x :: added). split_and!.
    + by apply prefix_cons.
    + exact Hjobs.
    + rewrite Htasks. simpl. by rewrite <- app_assoc.
    + intros Htrue. by rewrite (Hok Htrue).
  - exists []. simpl. split_and!; try done.
    + apply prefix_nil.
    + by rewrite app_nil_r.
Qed.

Lemma number_of_tasks_app k jobs l1 l2 workers :
  Counters.number_of_tasks k (Database.mk jobs (l1 ++ l2) workers)
  = Counters.number_of_tasks k (Database.mk jobs l1 workers)
    + Z.of_nat (length (filter (λ x, Task.job_id x = k) l2)).
Proof.
  unfold Counters.number_of_tasks. simpl. rewrite filter_app, length_app. lia.
Qed.

Lemma task_totals_submit_job plugins submission new_id now db :
  FollowUp.partition_own_job plugins →
  Invariant.no_orphan_tasks db →
  Counters.task_totals db →
  Counters.task_totals (Server.submit_job plugins submission new_id now db).2.
Proof.
  intros Hplugins Horphans Hdb. unfold Server.submit_job.
  destruct (plugins !! Server.sub_plugin submission) as [plugin|] eqn:Hp; [|done].
  destruct (RenderPlugin.validate plugin _) as [[] error]; simpl; [|done].
  set (job := Server.new_job submission new_id now).
  destruct (Database.add_job job db) as [db1|] eqn:Hadd; [|done].
  pose proof (task_totals_add_job _ _ _ Hadd eq_refl Horphans Hdb) as Hdb1.
  apply add_job_Some in Hadd as (Hnew & Hjobs & Htasks & _).
  assert (∀ added jobs workers,
            (∀ x, x ∈ added → Task.job_id x = new_id) →
            ∀ j, j ∈ Database.jobs db1 → Job.id j ≠ new_id →
                 Job.task_total j
                 = Counters.number_of_tasks (Job.id j)
                     (Database.mk jobs (Database.tasks db1 ++ added) workers))
    as Hothers.
  { intros added jobs workers Hadded j Hj Hne. rewrite number_of_tasks_app.
    replace (filter _ added) with (@nil Task.t).
    - rewrite (Hdb1 j Hj). unfold Counters.number_of_tasks. simpl. lia.
    - symmetry. apply filter_none.
      intros x Hx Hk. rewrite (Hadded x Hx) in Hk. congruence. }
  destruct (RenderPlugin.create_tasks plugin job) as [tasks|] eqn:Hc; simpl.
  - pose proof (Hplugins _ _ _ _ Hp Hc) as Hown. change (Job.id job) with new_id in Hown.
    destruct (add_tasks_appends tasks db1) as (added & Hpre & Hjobs2 & Htasks2 & Hok).
    destruct (Server.add_tasks tasks db1) as [db2 ok]. simpl in *.
    assert (∀ x, x ∈ added → Task.job_id x = new_id) as Hadded.
    { intros x Hx. apply Hown. destruct Hpre as [rest ->].
      apply elem_of_app. by left. }
    destruct db2 as [jobs2 tasks2 workers2]. simpl in *. subst jobs2 tasks2.
    destruct ok.
    + rewrite (Hok eq_refl) in *. intros j Hj. simpl in Hj.
      apply elem_of_update_where_inv in Hj as (r & Hr & [[Hne ->]|[Hk ->]]).
      * by apply (Hothers tasks).
      * change (key r = new_id) in Hk.
        change (Z.of_nat (length tasks)
                = Counters.number_of_tasks (Job.id r)
                    (Database.mk (update_where new_id
                                    (Database.job_columns
                                       (Job.set_status JobStatus.QUEUED
                                          (Job.set_task_total (Z.of_nat (length tasks))
                                             job)))
                                    (Database.jobs db1))
                       (Database.tasks db1 ++ tasks) workers2)).
        assert (Job.id r = new_id) as -> by exact Hk.
        rewrite number_of_tasks_app, (filter_all _ tasks) by done.
        assert (job ∈ Database.jobs db1) as Hjob.
        { rewrite Hjobs. apply elem_of_app. right. by apply list_elem_of_singleton. }
        pose proof (Hdb1 job Hjob) as Hzero. simpl in Hzero.
        unfold Counters.number_of_tasks in *. simpl in *. lia.
    + apply task_totals_delete_job. simpl. intros j Hj Hne. by apply (Hothers added).
  - apply task_totals_delete_job. intros j Hj Hne.
    pose proof (Hothers [] (Database.jobs db1) (Database.workers db1)
                  ltac:(intros x Hx; by apply elem_of_nil in Hx) j Hj Hne) as Hj1.
    rewrite app_nil_r in Hj1. by destruct db1.
Qed.

End TaskTotals.

Section TaskTotalsOfRequests.

Lemma task_totals_add_follow_up_jobs uuid4 now job l st :
  Invariant.no_orphan_tasks st.2 → Counters.task_totals st.2 →
  Invariant.no_orphan_tasks (Scheduler.add_follow_up_jobs uuid4 now job l st).2
  ∧ Counters.task_totals (Scheduler.add_follow_up_jobs uuid4 now job l st).2.
Proof.
  revert st. induction l as [|d l IH]; intros st Horphans Hst; simpl; [done|].
  destruct (Database.add_job _ st.2) as [db'|] eqn:Hadd; [|done].
  apply IH; simpl.
  - by eapply no_orphan_tasks_add_job.
  - by eapply task_totals_add_job.
Qed.

Lemma task_totals_create_follow_up_jobs plugins uuid4 now job st :
  Invariant.no_orphan_tasks st.2 → Counters.task_totals st.2 →
  Invariant.no_orphan_tasks (Scheduler._create_follow_up_jobs plugins uuid4 now job st).2
  ∧ Counters.task_totals (Scheduler._create_follow_up_jobs plugins uuid4 now job st).2.
Proof.
  intros Horphans Hst. unfold Scheduler._create_follow_up_jobs.
  repeat case_match; auto using task_totals_add_follow_up_jobs.
Qed.

Lemma task_totals_check_worker_timeouts now db :
  Counters.task_totals db →
  Counters.task_totals (Scheduler._check_worker_timeouts now db).
Proof.
  unfold Scheduler._check_worker_timeouts.
  generalize (Database.get_workers db). intros l. revert db.
  induction l as [|w l IH]; intros db Hdb; simpl; [done|].
  apply IH. unfold Scheduler._check_worker_timeouts_body.
  repeat case_match; try done;
    apply task_totals_with_workers; auto using task_totals_update_task.
Qed.

Lemma aggregate_task_total now tasks job :
  Job.task_total (Scheduler.aggregate now tasks job) = Job.task_total job.
Proof. unfold Scheduler.aggregate. by repeat case_match. Qed.

Lemma number_of_tasks_tasks k db db' :
  Database.tasks db' = Database.tasks db →
  Counters.number_of_tasks k db' = Counters.number_of_tasks k db.
Proof. unfold Counters.number_of_tasks. by intros ->. Qed.

Lemma task_totals_update_job_progress_body plugins uuid4 now st j :
  Job.task_total j = Counters.number_of_tasks (Job.id j) st.2 →
  Invariant.no_orphan_tasks st.2 → Counters.task_totals st.2 →
  Invariant.no_orphan_tasks
    (Scheduler._update_job_progress_body plugins uuid4 now st j).2
  ∧ Counters.task_totals
      (Scheduler._update_job_progress_body plugins uuid4 now st j).2.
Proof.
  intros Hj Horphans Hst. unfold Scheduler._update_job_progress_body.
  destruct (Database.get_tasks_by_job (Job.id j) st.2) as [|x xs]; [done|].
  cbn [snd]. set (job' := Scheduler.aggregate now (x :: xs) j).
  set (st' := if Scheduler.all_completed (x :: xs) then _ else st).
  assert (Database.tasks st'.2 = Database.tasks st.2
          ∧ Invariant.no_orphan_tasks st'.2 ∧ Counters.task_totals st'.2)
    as (Htasks & Horphans' & Hst').
  { unfold st'. case_match; [|done].
    destruct (create_follow_up_jobs_appends plugins uuid4 now job' st)
      as (new & _ & Htasks & _).
    split; [exact Htasks|]. by apply task_totals_create_follow_up_jobs. }
  split; [by apply no_orphan_tasks_update_job|].
  apply task_totals_update_job; [|done].
  unfold job'. rewrite aggregate_task_total, aggregate_id, Hj.
  symmetry. by apply number_of_tasks_tasks.
Qed.

Lemma task_totals_update_job_progress_fold plugins uuid4 now l st :
  (∀ j, j ∈ l → Job.task_total j = Counters.number_of_tasks (Job.id j) st.2) →
  Invariant.no_orphan_tasks st.2 → Counters.task_totals st.2 →
  Counters.task_totals
    (foldl (Scheduler._update_job_progress_body plugins uuid4 now) st l).2.
Proof.
  revert st. induction l as [|j l IH]; intros st Hl Horphans Hst; simpl; [done|].
  destruct (task_totals_update_job_progress_body plugins uuid4 now st j)
    as [Horphans' Hst']; [apply Hl; by left|done|done|].
  apply IH; [|done|done]. intros j' Hj'.
  rewrite (number_of_tasks_tasks _ st.2) by apply update_job_progress_body_tasks.
  apply Hl. by right.
Qed.

Lemma task_totals_update_job_progress plugins uuid4 now db :
  Invariant.no_orphan_tasks db → Counters.task_totals db →
  Counters.task_totals (Scheduler._update_job_progress plugins uuid4 now db).
Proof.
  intros Horphans Hdb. unfold Scheduler._update_job_progress.
  apply task_totals_update_job_progress_fold; [|done|done].
  intros j Hj. apply Hdb. unfold Database.get_jobs_by_status in Hj.
  by apply elem_of_order_by, list_elem_of_filter in Hj as [_ ?].
Qed.

Lemma no_orphan_tasks_check_worker_timeouts now db :
  Invariant.no_orphan_tasks db →
  Invariant.no_orphan_tasks (Scheduler._check_worker_timeouts now db).
Proof.
  unfold Scheduler._check_worker_timeouts.
  generalize (Database.get_workers db). intros l. revert db.
  induction l as [|w l IH]; intros db Hdb; simpl; [done|].
  apply IH. unfold Scheduler._check_worker_timeouts_body.
  repeat case_match; try done;
    apply no_orphan_tasks_with_workers; auto using no_orphan_tasks_update_task.
Qed.

Lemma task_totals_tick plugins uuid4 now db :
  Invariant.no_orphan_tasks db → Counters.task_totals db →
  Counters.task_totals (Scheduler.tick plugins uuid4 now db).
Proof.
  intros Horphans Hdb. unfold Scheduler.tick.
  apply task_totals_update_job_progress.
  - by apply no_orphan_tasks_check_worker_timeouts.
  - by apply task_totals_check_worker_timeouts.
Qed.

Lemma task_totals_retry_job k db :
  Counters.task_totals db → Counters.task_totals (Scheduler.retry_job k db).2.
Proof.
  intros Hdb. unfold Scheduler.retry_job.
  destruct (Database.get_job k db) as [job|] eqn:Hjob; [|done].
  case_decide; [|done]. cbn [snd].
  pose proof (task_totals_fetched _ _ _ Hdb Hjob) as Htotal.
  generalize (Database.get_tasks_by_job k db). intros l.
  assert (Counters.task_totals (foldl Scheduler.retry_job_body db l)
          ∧ Counters.number_of_tasks (Job.id job) (foldl Scheduler.retry_job_body db l)
            = Counters.number_of_tasks (Job.id job) db) as [Hdb1 Hn].
  { clear Hjob Htotal. revert db Hdb.
    induction l as [|x l IH]; intros db Hdb; simpl; [done|].
    destruct (IH (Scheduler.retry_job_body db x)) as [? ->].
    - unfold Scheduler.retry_job_body. case_match; auto using task_totals_update_task.
    - split; [done|]. unfold Scheduler.retry_job_body. case_match; [|done].
      by apply number_of_tasks_update_where. }
  apply task_totals_update_job; [|done]. simpl. by rewrite Hn.
Qed.

Lemma task_totals_handle plugins now r db :
  FollowUp.partition_own_job plugins →
  Invariant.no_orphan_tasks db →
  Counters.task_totals db →
  Counters.task_totals (Coordinator.handle plugins now r db).
Proof.
  intros Hplugins Horphans Hdb. destruct r; simpl.
  - by apply task_totals_submit_job.
  - unfold Server.suspend_job, Scheduler.suspend_job.
    repeat case_match; simplify_eq; cbn [snd];
      auto using task_totals_update_job_status.
  - unfold Server.resume_job, Scheduler.resume_job.
    repeat case_match; simplify_eq; cbn [snd];
      auto using task_totals_update_job_status.
  - unfold Server.cancel_job, Scheduler.cancel_job.
    repeat case_match; simplify_eq; cbn [snd];
      auto using task_totals_update_job_status.
  - unfold Server.retry_job.
    pose proof (task_totals_retry_job job_id db Hdb).
    by destruct (Scheduler.retry_job job_id db) as [[] ?].
  - unfold Server.delete_job.
    repeat case_match; cbn [snd]; try done.
    apply task_totals_delete_job. intros j Hj _. by apply Hdb.
  - unfold Server.update_job_priority.
    destruct (Database.get_job job_id db) as [job|] eqn:Hjob; [|done].
    case_match; [|done]. cbn [snd].
    apply task_totals_update_job; [|done].
    exact (task_totals_fetched _ _ _ Hdb Hjob).
  - by apply task_totals_update_task_status.
  - by apply task_totals_update_task_progress.
  - unfold Server.task_completed.
    destruct (Database.get_task task_id db) as [task|]; [|done].
    set (db2 := Server.release_worker task _).
    assert (Counters.task_totals db2) as Hdb2.
    { by apply task_totals_release_worker, task_totals_update_task_status. }
    destruct (Database.get_job (Task.job_id task) db2) as [job|] eqn:Hjob; [|done].
    cbn [snd]. apply task_totals_update_job; [|done].
    pose proof (task_totals_fetched _ _ _ Hdb2 Hjob). by case_match.
  - unfold Server.task_failed.
    destruct (Database.get_task task_id db) as [task|]; [|done].
    set (db2 := Server.release_worker task _).
    assert (Counters.task_totals db2) as Hdb2.
    { by apply task_totals_release_worker, task_totals_update_task_status. }
    destruct (Database.get_job (Task.job_id task) db2) as [job|] eqn:Hjob; [|done].
    cbn [snd]. apply task_totals_update_job; [|done].
    pose proof (task_totals_fetched _ _ _ Hdb2 Hjob). by case_match.
  - unfold Server.retry_task.
    repeat case_match; cbn [snd];
      auto using task_totals_update_task, task_totals_update_task_status.
  - unfold Server.cancel_task.
    repeat case_match; cbn [snd];
      auto using task_totals_release_worker, task_totals_update_task_status.
  - unfold Server.suspend_task.
    repeat case_match; cbn [snd];
      auto using task_totals_release_worker, task_totals_update_task_status.
  - by apply task_totals_upsert_worker.
  - unfold Server.worker_heartbeat.
    repeat case_match; cbn [snd]; try done; by apply task_totals_with_workers.
  - unfold Server.request_task.
    destruct (Database.get_worker worker_id db) as [worker|]; [|done].
    case_decide; [done|].
    destruct (Database.get_next_task_for_worker worker db) as [task0|]; [|done].
    set (db2 := Database.update_worker _ _).
    assert (Counters.task_totals db2) as Hdb2.
    { by apply task_totals_update_worker, task_totals_update_task. }
    destruct (Database.get_job _ db2) as [job|] eqn:Hjob; [|done].
    case_decide; [|done]. cbn [snd]. apply task_totals_update_job; [|done].
    exact (task_totals_fetched _ _ _ Hdb2 Hjob).
  - unfold Server.disable_worker.
    repeat case_match; cbn [snd]; auto using task_totals_update_worker.
  - unfold Server.enable_worker.
    repeat case_match; cbn [snd]; auto using task_totals_update_worker.
  - unfold Server.delete_worker.
    repeat case_match; cbn [snd]; try done; by apply task_totals_with_workers.
  - by apply task_totals_tick.
Qed.

End TaskTotalsOfRequests.

(** X13.  When every plugin builds its Tasks with the id of the Job it is
    given, every request keeps, in a store without orphan Tasks, the
    task_total of every Job equal to the number of Tasks stored for it; in
    particular this holds in every store reached from the empty store. *)
Theorem task_total_is_the_number_of_tasks (plugins : registry) :
  FollowUp.partition_own_job plugins →
  (∀ now r db,
     Invariant.no_orphan_tasks db → Counters.task_totals db →
     Counters.task_totals (Coordinator.handle plugins now r db))
  ∧ (∀ history,
       Counters.task_totals (Coordinator.run plugins history Database.empty)).
Proof.
  intros Hplugins. split; [intros now r db; by apply task_totals_handle|].
  intros history.
  assert (Invariant.no_orphan_tasks Database.empty
          ∧ Counters.task_totals Database.empty) as Hempty.
  { split; [intros x Hx|intros j Hj]; by apply elem_of_nil in Hx || apply elem_of_nil in Hj. }
  revert Hempty. generalize Database.empty.
  induction history as [|[now r] history IH]; intros db [Horphans Hdb]; [done|].
  apply IH. change (Invariant.no_orphan_tasks (Coordinator.handle plugins now r db)
                    ∧ Counters.task_totals (Coordinator.handle plugins now r db)).
  split; [by apply no_orphan_tasks_handle|by apply task_totals_handle].
Qed.

Lemma task_total_is_the_number_of_tasks_witness :
  FollowUp.partition_own_job Farm.plugins
  ∧ Counters.task_totals (Coordinator.run Farm.plugins Stale.history Database.empty).
Proof.
  split; [exact farm_partition_own_job|].
  exact (proj2 (task_total_is_the_number_of_tasks Farm.plugins farm_partition_own_job)
           Stale.history).
Defined.

(** ** The counters of a Job stay within task_total *)

Section Bounded.

Lemma count_status_nonneg s l : 0 ≤ count_status s l.
Proof. unfold count_status. lia. Qed.

Lemma count_status_disjoint l :
  count_status TaskStatus.COMPLETED l + count_status TaskStatus.FAILED l
  ≤ Z.of_nat (length l).
Proof.
  unfold count_status. induction l as [|x l IH]; [done|].
  rewrite !filter_cons. simpl length.
  destruct (Task.status x); repeat case_decide; simpl length; try done; lia.
Qed.

Lemma bounded_jobs db db' :
  Database.jobs db' = Database.jobs db → Counters.bounded db → Counters.bounded db'.
Proof. intros Hjobs Hdb j Hj. rewrite Hjobs in Hj. by apply Hdb. Qed.

Lemma bounded_with_jobs k g db :
  (∀ r, Counters.within r → Counters.within (g r)) →
  Counters.bounded db → Counters.bounded (Database.with_jobs (update_where k g) db).
Proof.
  intros Hg Hdb j Hj. simpl in Hj.
  apply elem_of_update_where in Hj as (r & Hr & [->|[_ ->]]); auto.
Qed.

Lemma bounded_update_job job db :
  Counters.within job → Counters.bounded db →
  Counters.bounded (Database.update_job job db).
Proof. intros Hjob. by apply bounded_with_jobs. Qed.

Lemma bounded_update_job_status k s e now db :
  Counters.bounded db → Counters.bounded (Database.update_job_status k s e now db).
Proof. destruct s; by apply bounded_with_jobs. Qed.

Lemma bounded_release_worker task db :
  Counters.bounded db → Counters.bounded (Server.release_worker task db).
Proof. apply bounded_jobs, release_worker_frame. Qed.

Lemma bounded_upsert_worker w db :
  Counters.bounded db → Counters.bounded (Database.upsert_worker w db).
Proof. apply bounded_jobs, upsert_worker_frame. Qed.

Lemma bounded_delete_job k db :
  Counters.bounded db → Counters.bounded (Database.delete_job k db).
Proof.
  intros Hdb j Hj. simpl in Hj. apply list_elem_of_filter in Hj as [_ Hj]. by apply Hdb.
Qed.

Lemma bounded_add_job job db db' :
  Database.add_job job db = Some db' → Counters.within job →
  Counters.bounded db → Counters.bounded db'.
Proof.
  intros (_ & Hjobs & _)%add_job_Some Hjob Hdb j Hj. rewrite Hjobs in Hj.
  apply elem_of_app in Hj as [Hj|Hj]; [by apply Hdb|].
  by apply list_elem_of_singleton in Hj as ->.
Qed.

Lemma bounded_add_follow_up_jobs uuid4 now job l st :
  Counters.bounded st.2 →
  Counters.bounded (Scheduler.add_follow_up_jobs uuid4 now job l st).2.
Proof.
  revert st. induction l as [|d l IH]; intros st Hst; simpl; [done|].
  destruct (Database.add_job _ st.2) as [db'|] eqn:Hadd; [|done].
  apply IH. simpl. eapply bounded_add_job; [exact Hadd| |done].
  unfold Counters.within. simpl. lia.
Qed.

Lemma bounded_create_follow_up_jobs plugins uuid4 now job st :
  Counters.bounded st.2 →
  Counters.bounded (Scheduler._create_follow_up_jobs plugins uuid4 now job st).2.
Proof.
  intros Hst. unfold Scheduler._create_follow_up_jobs.
  repeat case_match; auto using bounded_add_follow_up_jobs.
Qed.

Lemma length_get_tasks_by_job k db :
  Z.of_nat (length (Database.get_tasks_by_job k db)) = Counters.number_of_tasks k db.
Proof.
  unfold Database.get_tasks_by_job, Counters.number_of_tasks.
  by rewrite length_order_by.
Qed.

(** The counters written by the two aggregations are within the number of
    Tasks they were counted from. *)
Lemma within_counts tasks job :
  Job.task_total job = Z.of_nat (length tasks) →
  Counters.within
    (Job.set_task_failed (count_status TaskStatus.FAILED tasks)
       (Job.set_task_completed (count_status TaskStatus.COMPLETED tasks) job)).
Proof.
  intros Htotal. unfold Counters.within. simpl. rewrite Htotal.
  pose proof (count_status_nonneg TaskStatus.COMPLETED tasks).
  pose proof (count_status_nonneg TaskStatus.FAILED tasks).
  pose proof (count_status_disjoint tasks). lia.
Qed.

Lemma within_aggregate now tasks job :
  Job.task_total job = Z.of_nat (length tasks) →
  Counters.within (Scheduler.aggregate now tasks job).
Proof.
  intros Htotal. pose proof (within_counts tasks job Htotal) as H.
  unfold Scheduler.aggregate. repeat case_match; exact H.
Qed.

Lemma bounded_check_worker_timeouts now db :
  Counters.bounded db → Counters.bounded (Scheduler._check_worker_timeouts now db).
Proof.
  unfold Scheduler._check_worker_timeouts.
  generalize (Database.get_workers db). intros l. revert db.
  induction l as [|w l IH]; intros db Hdb; simpl; [done|].
  apply IH. revert Hdb. apply bounded_jobs.
  unfold Scheduler._check_worker_timeouts_body. by repeat case_match.
Qed.

Lemma bounded_update_job_progress_fold plugins uuid4 now l st :
  (∀ j, j ∈ l → Job.task_total j = Counters.number_of_tasks (Job.id j) st.2) →
  Counters.bounded st.2 →
  Counters.bounded
    (foldl (Scheduler._update_job_progress_body plugins uuid4 now) st l).2.
Proof.
  revert st. induction l as [|j l IH]; intros st Hl Hst; simpl; [done|].
  apply IH.
  - intros j' Hj'.
    rewrite (number_of_tasks_tasks _ st.2) by apply update_job_progress_body_tasks.
    apply Hl. by right.
  - unfold Scheduler._update_job_progress_body.
    pose proof (length_get_tasks_by_job (Job.id j) st.2) as Hlen.
    destruct (Database.get_tasks_by_job (Job.id j) st.2) as [|x xs]; [done|].
    cbn [snd]. apply bounded_update_job.
    + apply within_aggregate. rewrite Hlen. apply Hl. by left.
    + case_match; [|done]. by apply bounded_create_follow_up_jobs.
Qed.

Lemma bounded_tick plugins uuid4 now db :
  Counters.task_totals db → Counters.bounded db →
  Counters.bounded (Scheduler.tick plugins uuid4 now db).
Proof.
  intros Htotals Hdb. unfold Scheduler.tick, Scheduler._update_job_progress.
  apply bounded_update_job_progress_fold.
  - intros j Hj. apply task_totals_check_worker_timeouts; [done|].
    unfold Database.get_jobs_by_status in Hj.
    by apply elem_of_order_by, list_elem_of_filter in Hj as [_ ?].
  - by apply bounded_check_worker_timeouts.
Qed.

Lemma bounded_retry_job k db :
  Counters.bounded db → Counters.bounded (Scheduler.retry_job k db).2.
Proof.
  intros Hdb. unfold Scheduler.retry_job.
  destruct (Database.get_job k db) as [job|] eqn:Hjob; [|done].
  case_decide; [|done]. cbn [snd]. apply bounded_update_job.
  - pose proof (Hdb job (fetchone_elem_of _ _ _ Hjob)) as Hwithin.
    unfold Counters.within in *. simpl. lia.
  - revert Hdb. apply bounded_jobs, retry_job_fold_frame.
Qed.

Lemma bounded_submit_job plugins submission new_id now db :
  Counters.bounded db →
  Counters.bounded (Server.submit_job plugins submission new_id now db).2.
Proof.
  intros Hdb. unfold Server.submit_job.
  destruct (plugins !! Server.sub_plugin submission) as [plugin|]; [|done].
  destruct (RenderPlugin.validate plugin _) as [[] error]; simpl; [|done].
  destruct (Database.add_job _ db) as [db1|] eqn:Hadd; [|done].
  assert (Counters.bounded db1) as Hdb1.
  { eapply bounded_add_job; [exact Hadd| |done]. unfold Counters.within. simpl. lia. }
  destruct (RenderPlugin.create_tasks plugin _) as [tasks|]; simpl;
    [|by apply bounded_delete_job].
  destruct (add_tasks_appends tasks db1) as (added & _ & Hjobs & _).
  destruct (Server.add_tasks tasks db1) as [db2 ok]. simpl in *.
  assert (Counters.bounded db2) as Hdb2 by (revert Hdb1; by apply bounded_jobs).
  destruct ok; [|by apply bounded_delete_job].
  apply bounded_update_job; [|done]. unfold Counters.within. simpl. lia.
Qed.

Lemma bounded_report job db2 (job2 : Job.t) all_tasks :
  Counters.task_totals db2 → Counters.bounded db2 →
  job ∈ Database.jobs db2 →
  all_tasks = Database.get_tasks_by_job (Job.id job) db2 →
  Job.task_total job2 = Job.task_total job →
  Job.task_completed job2 = count_status TaskStatus.COMPLETED all_tasks →
  Job.task_failed job2 = count_status TaskStatus.FAILED all_tasks →
  Counters.bounded (Database.update_job job2 db2).
Proof.
  intros Htotals Hdb Hjob -> Htotal Hc Hf. apply bounded_update_job; [|done].
  unfold Counters.within. rewrite Htotal, Hc, Hf, (Htotals job Hjob).
  rewrite <- length_get_tasks_by_job.
  pose proof (count_status_nonneg TaskStatus.COMPLETED
                (Database.get_tasks_by_job (Job.id job) db2)).
  pose proof (count_status_nonneg TaskStatus.FAILED
                (Database.get_tasks_by_job (Job.id job) db2)).
  pose proof (count_status_disjoint (Database.get_tasks_by_job (Job.id job) db2)).
  lia.
Qed.

Lemma bounded_handle plugins now r db :
  Counters.task_totals db →
  Counters.bounded db →
  Counters.bounded (Coordinator.handle plugins now r db).
Proof.
  intros Htotals Hdb. destruct r; simpl.
  - by apply bounded_submit_job.
  - unfold Server.suspend_job, Scheduler.suspend_job.
    repeat case_match; simplify_eq; cbn [snd]; auto using bounded_update_job_status.
  - unfold Server.resume_job, Scheduler.resume_job.
    repeat case_match; simplify_eq; cbn [snd]; auto using bounded_update_job_status.
  - unfold Server.cancel_job, Scheduler.cancel_job.
    repeat case_match; simplify_eq; cbn [snd]; auto using bounded_update_job_status.
  - unfold Server.retry_job.
    pose proof (bounded_retry_job job_id db Hdb).
    by destruct (Scheduler.retry_job job_id db) as [[] ?].
  - unfold Server.delete_job.
    repeat case_match; cbn [snd]; auto using bounded_delete_job.
  - unfold Server.update_job_priority.
    destruct (Database.get_job job_id db) as [job|] eqn:Hjob; [|done].
    case_match; [|done]. cbn [snd]. apply bounded_update_job; [|done].
    exact (Hdb job (fetchone_elem_of _ _ _ Hjob)).
  - done.
  - done.
  - unfold Server.task_completed.
    destruct (Database.get_task task_id db) as [task|]; [|done].
    set (db2 := Server.release_worker task _).
    assert (Counters.task_totals db2) as Htotals2.
    { by apply task_totals_release_worker, task_totals_update_task_status. }
    assert (Counters.bounded db2) as Hdb2.
    { revert Hdb. apply bounded_jobs.
      unfold db2. by rewrite (proj1 (release_worker_frame _ _)). }
    destruct (Database.get_job (Task.job_id task) db2) as [job|] eqn:Hjob; [|done].
    cbn [snd].
    apply (bounded_report job db2 _
             (Database.get_tasks_by_job (Task.job_id task) db2));
      [done|done|exact (fetchone_elem_of _ _ _ Hjob)
      |by rewrite (get_job_id _ _ _ Hjob)
      |by case_match|by case_match|by case_match].
  - unfold Server.task_failed.
    destruct (Database.get_task task_id db) as [task|]; [|done].
    set (db2 := Server.release_worker task _).
    assert (Counters.task_totals db2) as Htotals2.
    { by apply task_totals_release_worker, task_totals_update_task_status. }
    assert (Counters.bounded db2) as Hdb2.
    { revert Hdb. apply bounded_jobs.
      unfold db2. by rewrite (proj1 (release_worker_frame _ _)). }
    destruct (Database.get_job (Task.job_id task) db2) as [job|] eqn:Hjob; [|done].
    cbn [snd].
    apply (bounded_report job db2 _
             (Database.get_tasks_by_job (Task.job_id task) db2));
      [done|done|exact (fetchone_elem_of _ _ _ Hjob)
      |by rewrite (get_job_id _ _ _ Hjob)
      |by case_match|by case_match|by case_match].
  - unfold Server.retry_task. by repeat case_match.
  - unfold Server.cancel_task.
    repeat case_match; cbn [snd]; try done.
    revert Hdb. apply bounded_jobs. simpl. apply release_worker_frame.
  - unfold Server.suspend_task.
    repeat case_match; cbn [snd]; try done.
    revert Hdb. apply bounded_jobs. simpl. apply release_worker_frame.
  - by apply bounded_upsert_worker.
  - unfold Server.worker_heartbeat. by repeat case_match.
  - unfold Server.request_task.
    destruct (Database.get_worker worker_id db) as [worker|]; [|done].
    case_decide; [done|].
    destruct (Database.get_next_task_for_worker worker db) as [task0|]; [|done].
    set (db2 := Database.update_worker _ _).
    assert (Counters.bounded db2) as Hdb2.
    { revert Hdb. apply bounded_jobs.
      unfold db2, Database.update_worker.
      by rewrite (proj1 (upsert_worker_frame _ _)). }
    destruct (Database.get_job _ db2) as [job|] eqn:Hjob; [|done].
    case_decide; [|done]. cbn [snd]. apply bounded_update_job; [|done].
    exact (Hdb2 job (fetchone_elem_of _ _ _ Hjob)).
  - unfold Server.disable_worker.
    repeat case_match; cbn [snd]; auto using bounded_upsert_worker.
  - unfold Server.enable_worker.
    repeat case_match; cbn [snd]; auto using bounded_upsert_worker.
  - unfold Server.delete_worker. by repeat case_match.
  - by apply bounded_tick.
Qed.

End Bounded.

(** X14.  In a store where task_total is the number of Tasks of each Job,
    every request keeps the completed and the failed counter of every Job
    row non-negative and their sum at most task_total; with plugins that
    build their Tasks with the id of the Job, this holds in every store
    reached from the empty store. *)
Theorem job_counters_stay_within_task_total (plugins : registry) :
  (∀ now r db,
     Counters.task_totals db → Counters.bounded db →
     Counters.bounded (Coordinator.handle plugins now r db))
  ∧ (FollowUp.partition_own_job plugins →
     ∀ history, Counters.bounded (Coordinator.run plugins history Database.empty)).
Proof.
  split; [intros now r db; by apply bounded_handle|].
  intros Hplugins history.
  assert (Invariant.no_orphan_tasks Database.empty
          ∧ Counters.task_totals Database.empty
          ∧ Counters.bounded Database.empty) as Hempty.
  { split_and!; intros x Hx; by apply elem_of_nil in Hx. }
  revert Hempty. generalize Database.empty.
  induction history as [|[now r] history IH];
    intros db (Horphans & Htotals & Hdb); [done|].
  apply IH.
  change (Invariant.no_orphan_tasks (Coordinator.handle plugins now r db)
          ∧ Counters.task_totals (Coordinator.handle plugins now r db)
          ∧ Counters.bounded (Coordinator.handle plugins now r db)).
  split_and!.
  - by apply no_orphan_tasks_handle.
  - by apply task_totals_handle.
  - by apply bounded_handle.
Qed.

Lemma job_counters_stay_within_task_total_witness :
  FollowUp.partition_own_job Farm.plugins
  ∧ Counters.bounded (Coordinator.run Farm.plugins HalfFailed.history Database.empty).
Proof.
  split; [exact farm_partition_own_job|].
  exact (proj2 (job_counters_stay_within_task_total Farm.plugins)
           farm_partition_own_job HalfFailed.history).
Defined.

(** ** What the timeout sweep leaves alone *)

Section Sweep.
Context (now : datetime).

(** A Worker row that the sweep acts on. *)
Let dead (w : Worker.t) : Prop :=
  Worker.status w ≠ WorkerStatus.OFFLINE
  ∧ ∃ h, Worker.last_heartbeat w = Some h
         ∧ Scheduler.timedelta Scheduler.worker_timeout < now - h.

Lemma check_worker_timeouts_body_skips db w :
  ¬ dead w → Scheduler._check_worker_timeouts_body now db w = db.
Proof.
  intros Hw. unfold Scheduler._check_worker_timeouts_body.
  case_decide as Hs; [done|].
  destruct (Worker.last_heartbeat w) as [h|] eqn:Hh; [|done].
  destruct (Z.ltb_spec (Scheduler.timedelta Scheduler.worker_timeout) (now - h));
    [|done].
  destruct Hw. split; [done|]. by exists h.
Qed.

Lemma check_worker_timeouts_body_workers db w r :
  r ∈ Database.workers (Scheduler._check_worker_timeouts_body now db w) →
  ∃ r0, r0 ∈ Database.workers db
        ∧ ((r = r0 ∧ (dead w → Worker.id r0 ≠ Worker.id w))
           ∨ r = Worker.set_current_task None
                   (Worker.set_status WorkerStatus.OFFLINE r0)).
Proof.
  unfold Scheduler._check_worker_timeouts_body.
  case_decide as Hs; [intros Hr; exists r; split; [done|]; left; split; [done|];
                      by intros [? _]|].
  destruct (Worker.last_heartbeat w) as [h|] eqn:Hh;
    [|intros Hr; exists r; split; [done|]; left; split; [done|];
      intros [_ (? & ? & _)]; congruence].
  destruct (Z.ltb_spec (Scheduler.timedelta Scheduler.worker_timeout) (now - h)).
  - intros Hr.
    assert (r ∈ update_where (Worker.id w)
                  (λ r, Worker.set_current_task None
                          (Worker.set_status WorkerStatus.OFFLINE r))
                  (Database.workers db)) as Hr'.
    { revert Hr. unfold Database.mark_worker_offline. by repeat case_match. }
    apply elem_of_update_where_inv in Hr' as (r0 & Hr0 & [[Hne ->]|[_ ->]]);
      exists r0; (split; [done|]); [left|by right]. done.
  - intros Hr. exists r. split; [done|]. left. split; [done|].
    intros [_ (h' & Hh' & Hlt)]. simplify_eq. lia.
Qed.

(** After the sweep no Worker row is left for it to act on. *)
Lemma check_worker_timeouts_fold_no_dead l db :
  (∀ r, r ∈ Database.workers db → dead r → r ∈ l) →
  ∀ r, r ∈ Database.workers (foldl (Scheduler._check_worker_timeouts_body now) db l) →
       ¬ dead r.
Proof.
  revert db. induction l as [|w l IH]; intros db Hdb r Hr; simpl in Hr.
  - intros Hdead. pose proof (Hdb r Hr Hdead) as Hnil. by apply elem_of_nil in Hnil.
  - revert r Hr. apply IH. intros r Hr Hdead.
    apply check_worker_timeouts_body_workers in Hr as (r0 & Hr0 & [[-> Hw]| ->]).
    + pose proof (Hdb r0 Hr0 Hdead) as Hin.
      apply elem_of_cons in Hin as [->|Hin]; [|done].
      by destruct (Hw Hdead).
    + by destruct Hdead as [? _].
Qed.

Lemma check_worker_timeouts_fold_skips l db :
  (∀ w, w ∈ l → ¬ dead w) →
  foldl (Scheduler._check_worker_timeouts_body now) db l = db.
Proof.
  revert db. induction l as [|w l IH]; intros db Hl; simpl; [done|].
  rewrite check_worker_timeouts_body_skips by (apply Hl; by left).
  apply IH. intros w' Hw'. apply Hl. by right.
Qed.

Lemma check_worker_timeouts_idempotent db :
  Scheduler._check_worker_timeouts now (Scheduler._check_worker_timeouts now db)
  = Scheduler._check_worker_timeouts now db.
Proof.
  set (db1 := Scheduler._check_worker_timeouts now db).
  unfold Scheduler._check_worker_timeouts at 1.
  apply check_worker_timeouts_fold_skips. intros w Hw.
  unfold Database.get_workers in Hw. apply elem_of_order_by in Hw.
  revert w Hw. unfold db1, Scheduler._check_worker_timeouts.
  apply check_worker_timeouts_fold_no_dead.
  intros r Hr _. unfold Database.get_workers. by apply elem_of_order_by.
Qed.

Lemma check_worker_timeouts_fold_jobs l db :
  Database.jobs (foldl (Scheduler._check_worker_timeouts_body now) db l)
  = Database.jobs db.
Proof.
  revert db. induction l as [|w l IH]; intros db; simpl; [done|].
  rewrite IH. apply check_worker_timeouts_body_jobs.
Qed.

Lemma check_worker_timeouts_fold_workers l db r :
  r ∈ Database.workers (foldl (Scheduler._check_worker_timeouts_body now) db l) →
  ∃ r0, r0 ∈ Database.workers db
        ∧ (r = r0 ∨ r = Worker.set_current_task None
                          (Worker.set_status WorkerStatus.OFFLINE r0)).
Proof.
  revert db r. induction l as [|w l IH]; intros db r Hr; simpl in Hr.
  - exists r. auto.
  - apply IH in Hr as (r1 & Hr1 & Hr).
    apply check_worker_timeouts_body_workers in Hr1 as (r0 & Hr0 & Hr1).
    exists r0. split; [done|].
    destruct Hr as [-> | ->], Hr1 as [[-> _]| ->]; auto.
Qed.

End Sweep.

(** X15.  The timeout sweep never touches a Job.  A Task row is either
    left as it is or, if it was running, written back pending with
    assigned_worker cleared; a Task that is assigned but not yet started
    stays assigned, also when its Worker timed out.  A Worker row is either
    left as it is or set offline with current_task cleared.  Running the
    sweep a second time at the same instant changes nothing. *)
Theorem sweep_requeues_running_tasks_only (now : datetime) (db : Database.t) :
  Database.jobs (Scheduler._check_worker_timeouts now db) = Database.jobs db
  ∧ (∀ k x,
       Database.get_task k db = Some x →
       (Task.status x ≠ TaskStatus.RUNNING →
        Database.get_task k (Scheduler._check_worker_timeouts now db) = Some x)
       ∧ (Database.get_task k (Scheduler._check_worker_timeouts now db) = Some x
          ∨ Database.get_task k (Scheduler._check_worker_timeouts now db)
            = Some (Scheduler.requeue x)))
  ∧ (∀ r,
       r ∈ Database.workers (Scheduler._check_worker_timeouts now db) →
       ∃ r0, r0 ∈ Database.workers db
             ∧ (r = r0 ∨ r = Worker.set_current_task None
                               (Worker.set_status WorkerStatus.OFFLINE r0)))
  ∧ Scheduler._check_worker_timeouts now (Scheduler._check_worker_timeouts now db)
    = Scheduler._check_worker_timeouts now db.
Proof.
  split_and!.
  - apply check_worker_timeouts_fold_jobs.
  - intros k x Hx. split.
    + intros Hs. by apply check_worker_timeouts_fold_task_stable.
    + destruct (check_worker_timeouts_fold_task now (Database.get_workers db) db k x Hx)
        as [?|[_ ?]]; auto.
  - apply check_worker_timeouts_fold_workers.
  - apply check_worker_timeouts_idempotent.
Qed.

Lemma sweep_requeues_running_tasks_only_witness :
  Database.get_task "R/0" Busy.store = Some Busy.task
  ∧ Database.get_task "R/0" (Scheduler._check_worker_timeouts 999000000 Busy.store)
    = Some Busy.task
  ∧ (∃ w, Database.get_worker "W" (Scheduler._check_worker_timeouts 999000000 Busy.store)
          = Some w ∧ Worker.status w = WorkerStatus.OFFLINE).
Proof.
  assert (Database.get_task "R/0" Busy.store = Some Busy.task) as Htask.
  { vm_compute. reflexivity. }
  split; [exact Htask|]. split.
  - apply (proj1 (proj1 (proj2 (sweep_requeues_running_tasks_only 999000000 Busy.store))
                    "R/0" Busy.task Htask)).
    discriminate.
  - eexists. split; vm_compute; reflexivity.
Defined.

(** ** The aggregation pass of the scheduler *)

Section AggregationPass.
Context (plugins : registry) (uuid4 : nat → string) (now : datetime).

Let body := Scheduler._update_job_progress_body plugins uuid4 now.

(** A Job without Tasks is skipped by every iteration. *)
Lemma update_job_progress_fold_no_tasks l st k r :
  Database.get_job k st.2 = Some r →
  Database.get_tasks_by_job k st.2 = [] →
  Database.get_job k (foldl body st l).2 = Some r.
Proof.
  revert st. induction l as [|j l IH]; intros st Hr Hnone; simpl; [done|].
  apply IH.
  - destruct (decide (k = Job.id j)) as [->|Hne].
    + unfold body, Scheduler._update_job_progress_body. by rewrite Hnone.
    + by apply update_job_progress_body_other.
  - erewrite get_tasks_by_job_tasks; [exact Hnone|].
    apply update_job_progress_body_tasks.
Qed.

Lemma progress_sum_fold_completed l acc :
  (∀ x, x ∈ l → Task.status x = TaskStatus.COMPLETED) →
  (foldl (λ acc x,
      if decide (Task.status x = TaskStatus.COMPLETED) then (acc + 100)%Q
      else if decide (Task.status x = TaskStatus.RUNNING)
           then (acc + Task.progress x)%Q
           else acc) acc l
   == acc + inject_Z (100 * Z.of_nat (length l)))%Q.
Proof.
  revert acc. induction l as [|x l IH]; intros acc Hl; simpl foldl.
  - change (acc == acc + 0)%Q. ring.
  - rewrite decide_True by (apply Hl; by left).
    rewrite IH by (intros y Hy; apply Hl; by right).
    replace (100 * Z.of_nat (length (x :: l)))
      with (100 * Z.of_nat (length l) + 100) by (simpl length; lia).
    rewrite inject_Z_plus. change (inject_Z 100) with 100%Q. ring.
Qed.

Lemma count_status_all s l :
  (∀ x, x ∈ l → Task.status x = s) → count_status s l = Z.of_nat (length l).
Proof. intros Hl. unfold count_status. by rewrite filter_all. Qed.

Lemma count_status_none s l :
  (∀ x, x ∈ l → Task.status x ≠ s) → count_status s l = 0.
Proof. intros Hl. unfold count_status. by rewrite filter_none. Qed.

Lemma aggregate_all_completed tasks job :
  tasks ≠ [] →
  (∀ x, x ∈ tasks → Task.status x = TaskStatus.COMPLETED) →
  Job.status (Scheduler.aggregate now tasks job) = JobStatus.COMPLETED
  ∧ Job.finished_at (Scheduler.aggregate now tasks job) = Some now
  ∧ (Job.progress (Scheduler.aggregate now tasks job) == 100)%Q
  ∧ Job.task_completed (Scheduler.aggregate now tasks job) = Z.of_nat (length tasks)
  ∧ Job.task_failed (Scheduler.aggregate now tasks job) = 0.
Proof.
  intros Hne Hall. unfold Scheduler.aggregate.
  rewrite (count_status_all _ _ Hall).
  rewrite (count_status_none TaskStatus.FAILED tasks)
    by (intros x Hx; by rewrite (Hall x Hx)).
  rewrite (proj2 (Z.leb_le _ _)) by lia. simpl.
  assert (0 < Z.of_nat (length tasks)) as Hpos by (destruct tasks; [done|simpl; lia]).
  rewrite (proj2 (Z.ltb_lt _ _) Hpos). split_and!; try done.
  unfold Scheduler.progress_sum. rewrite progress_sum_fold_completed by done.
  rewrite inject_Z_mult. change (inject_Z 100) with 100%Q. field.
  intros Hzero. unfold Qeq in Hzero. simpl in Hzero. lia.
Qed.

End AggregationPass.

(** X16.  The aggregation pass of the scheduler never touches a Task or a
    Worker.  In a store with primary keys it leaves every Job that is not
    active as it is, and also an active Job that has no Task (such a Job
    stays active).  An active Job all of whose Tasks are completed is stored
    as completed, finished at the time of the pass, with progress 100,
    task_completed the number of its Tasks and task_failed 0. *)
Theorem aggregation_pass_completes_jobs
    (plugins : registry) (uuid4 : nat → string) (now : datetime) (db : Database.t) :
  Database.tasks (Scheduler._update_job_progress plugins uuid4 now db)
  = Database.tasks db
  ∧ Database.workers (Scheduler._update_job_progress plugins uuid4 now db)
    = Database.workers db
  ∧ (Invariant.primary_keys db →
     ∀ job, job ∈ Database.jobs db →
       (Job.status job ≠ JobStatus.ACTIVE
        ∨ Database.get_tasks_by_job (Job.id job) db = [] →
        Database.get_job (Job.id job)
          (Scheduler._update_job_progress plugins uuid4 now db) = Some job)
       ∧ (Job.status job = JobStatus.ACTIVE →
          Database.get_tasks_by_job (Job.id job) db ≠ [] →
          (∀ x, x ∈ Database.get_tasks_by_job (Job.id job) db →
                Task.status x = TaskStatus.COMPLETED) →
          ∃ job',
            Database.get_job (Job.id job)
              (Scheduler._update_job_progress plugins uuid4 now db) = Some job'
            ∧ Job.status job' = JobStatus.COMPLETED
            ∧ Job.finished_at job' = Some now
            ∧ (Job.progress job' == 100)%Q
            ∧ Job.task_completed job'
              = Z.of_nat (length (Database.get_tasks_by_job (Job.id job) db))
            ∧ Job.task_failed job' = 0)).
Proof.
  split; [apply (update_job_progress_fold_tasks plugins uuid4 now _ (0%nat, db))|].
  split; [apply (update_job_progress_fold_workers plugins uuid4 now _ (0%nat, db))|].
  intros (Hpk & _ & _) job Hjob.
  pose proof (fetchone_NoDup (A:=Job.t) _ job Hpk Hjob) as Hrow.
  split.
  - intros [Hs|Hnone]; unfold Scheduler._update_job_progress.
    + apply (update_job_progress_fold_other plugins uuid4 now _ (0%nat, db));
        [exact Hrow|].
      intros (j & Hid & [Hactive Hj]%snapshot_elem_of)%list_elem_of_fmap.
      pose proof (fetchone_NoDup (A:=Job.t) _ j Hpk Hj) as Hrow'.
      assert (Some j = Some job) as [= ->]; [|done].
      rewrite <- Hrow, <- Hrow'. f_equal. by symmetry.
    + by apply (update_job_progress_fold_no_tasks plugins uuid4 now _ (0%nat, db)).
  - intros Hactive Hne Hall.
    destruct (aggregate_all_completed now _ job Hne Hall)
      as (Hs & Hf & Hp & Hc & Hfailed).
    eexists. split; [by apply update_job_progress_row|]. simpl. done.
Qed.

Lemma aggregation_pass_completes_jobs_witness :
  Invariant.primary_keys Rendered.before
  ∧ ∃ job', Database.get_job "R"
              (Scheduler._update_job_progress Farm.plugins Farm.uuid4 9 Rendered.before)
            = Some job'
            ∧ Job.status job' = JobStatus.COMPLETED.
Proof.
  assert (Invariant.primary_keys Rendered.before) as Hpk.
  { repeat split; apply (bool_decide_unpack _); vm_compute; exact I. }
  split; [exact Hpk|].
  destruct (Database.get_job "R" Rendered.before) as [job|] eqn:Hjob;
    [|vm_compute in Hjob; discriminate].
  assert (Job.id job = "R") as Hid by exact (get_job_id _ _ _ Hjob).
  assert (job ∈ Database.jobs Rendered.before) as Hin
    by exact (fetchone_elem_of _ _ _ Hjob).
  destruct (proj2 (proj2 (proj2 (aggregation_pass_completes_jobs
                                   Farm.plugins Farm.uuid4 9 Rendered.before))
                     Hpk job Hin))
    as (job' & Hjob' & Hs & _).
  - vm_compute in Hjob. by injection Hjob as <-.
  - rewrite Hid. vm_compute. discriminate.
  - rewrite Hid. vm_compute. intros x Hx.
    repeat (apply elem_of_cons in Hx as [->|Hx]; [reflexivity|]).
    by apply elem_of_nil in Hx.
  - exists job'. rewrite <- Hid. done.
Defined.

(** ** The chunks of the After Effects plugin *)

Section Chunks.
Context (uuid4 : nat → string) (job : Job.t) (data : AfterEffects.custom_data).

Let frame_start := default 0 (AfterEffects.cd_frame_start data).
Let frame_end := default 100 (AfterEffects.cd_frame_end data).
Let size := AfterEffects.chunk_size data.
Let n := Z.to_nat ((frame_end - frame_start) / size + 1).

Lemma chunk_size_positive : frame_start ≤ frame_end → 0 < size.
Proof.
  intros Hle. unfold size, AfterEffects.chunk_size.
  fold frame_start frame_end. case_match eqn:E; [lia|].
  by apply Z.leb_gt in E.
Qed.

Lemma create_custom_tasks_lookup :
  frame_start ≤ frame_end →
  ∃ tasks,
    AfterEffects._create_custom_tasks uuid4 job data = Some tasks
    ∧ length tasks = n
    ∧ ∀ i x, tasks !! i = Some x ↔
        (i < n)%nat
        ∧ x = Task.mk (uuid4 i) (Job.id job) (Z.of_nat i) TaskStatus.PENDING 0%Q
                [] None [] (Some (frame_start + Z.of_nat i * size))
                (Some (Z.min (frame_start + Z.of_nat i * size + size - 1) frame_end))
                [("task_type", "render_png")] None None None None None None.
Proof.
  intros Hle. pose proof (chunk_size_positive Hle) as Hpos.
  unfold AfterEffects._create_custom_tasks, Python.range,
    Python.range_length.
  fold frame_start frame_end size.
  rewrite (proj2 (Z.eqb_neq size 0)) by lia.
  rewrite (proj2 (Z.ltb_lt 0 size)) by lia.
  rewrite (proj2 (Z.ltb_lt frame_start (frame_end + 1))) by lia.
  replace (frame_end + 1 - frame_start - 1) with (frame_end - frame_start) by lia.
  fold n. eexists. split; [reflexivity|]. split.
  - by rewrite length_imap, length_fmap, length_seq.
  - intros i x. rewrite list_lookup_imap, list_lookup_fmap.
    destruct (decide (i < n)%nat) as [Hi|Hi].
    + rewrite lookup_seq_lt by done. simpl. split.
      * intros [= <-]. done.
      * intros [_ ->]. done.
    + rewrite lookup_seq_ge by lia. simpl. split; [done|]. by intros [? _].
Qed.

End Chunks.

(** X17.  For a frame range that is not empty, the custom mode of the After
    Effects plugin returns at least one Task; the Tasks belong to the Job,
    are pending and numbered from 0 in order; each renders between one and
    chunk_size frames (min(50, number of frames) when no positive chunk_size
    is given); and every frame of the range is rendered by exactly one
    Task, no frame outside it by any.  For the empty range with
    frame_end = frame_start - 1 and no positive chunk_size the partitioning
    raises. *)
Theorem custom_chunks_partition_the_frame_range
    (uuid4 : nat → string) (job : Job.t) (data : AfterEffects.custom_data) :
  let frame_start := default 0 (AfterEffects.cd_frame_start data) in
  let frame_end := default 100 (AfterEffects.cd_frame_end data) in
  (frame_start ≤ frame_end →
   ∃ tasks,
     AfterEffects._create_custom_tasks uuid4 job data = Some tasks
     ∧ tasks ≠ []
     ∧ (∀ i x, tasks !! i = Some x →
          Task.job_id x = Job.id job
          ∧ Task.status x = TaskStatus.PENDING
          ∧ Task.index x = Z.of_nat i
          ∧ ∃ s e, Task.frame_start x = Some s ∧ Task.frame_end x = Some e
                   ∧ frame_start ≤ s ≤ e ∧ e ≤ frame_end
                   ∧ e - s + 1 ≤ AfterEffects.chunk_size data)
     ∧ (∀ f, frame_start ≤ f ≤ frame_end
             ↔ ∃ x, x ∈ tasks ∧ AfterEffects.renders x f)
     ∧ (∀ i j x y f,
          tasks !! i = Some x → tasks !! j = Some y →
          AfterEffects.renders x f → AfterEffects.renders y f → i = j))
  ∧ (frame_end = frame_start - 1 →
     default 0 (AfterEffects.cd_chunk_size data) ≤ 0 →
     AfterEffects._create_custom_tasks uuid4 job data = None).
Proof.
  intros frame_start frame_end. split.
  - intros Hle.
    pose proof (chunk_size_positive data Hle) as Hpos.
    destruct (create_custom_tasks_lookup uuid4 job data Hle)
      as (tasks & Hcreate & Hlen & Hlookup).
    fold frame_start frame_end in Hlookup, Hlen, Hpos.
    set (size := AfterEffects.chunk_size data) in *.
    set (n := Z.to_nat ((frame_end - frame_start) / size + 1)) in *.
    assert (0 ≤ (frame_end - frame_start) / size) as Hq
      by (apply Z.div_pos; lia).
    assert (∀ i : nat, (i < n)%nat →
              frame_start + Z.of_nat i * size ≤ frame_end) as Hstart.
    { intros i Hi. assert (Z.of_nat i ≤ (frame_end - frame_start) / size) by lia.
      pose proof (Z.mul_div_le (frame_end - frame_start) size Hpos). nia. }
    exists tasks. split; [done|]. split_and!.
    + intros ->. simpl in Hlen. lia.
    + intros i x [Hi ->]%Hlookup. simpl. split_and!; try done.
      eexists _, _. split; [done|]. split; [done|].
      pose proof (Hstart i Hi). lia.
    + intros f. split.
      * intros Hf.
        set (i := Z.to_nat ((f - frame_start) / size)).
        assert (0 ≤ (f - frame_start) / size) by (apply Z.div_pos; lia).
        assert ((f - frame_start) / size ≤ (frame_end - frame_start) / size)
          by (apply Z.div_le_mono; lia).
        assert (i < n)%nat as Hi by lia.
        eexists. split.
        -- eapply list_elem_of_lookup_2, Hlookup. split; [exact Hi|reflexivity].
        -- eexists _, _. simpl. split; [done|]. split; [done|].
           pose proof (Z.mul_div_le (f - frame_start) size Hpos).
           pose proof (Z.mul_succ_div_gt (f - frame_start) size Hpos).
           replace (Z.of_nat i) with ((f - frame_start) / size) by lia. nia.
      * intros (x & [i Hx]%list_elem_of_lookup_1 & s & e & Hs & He & Hf).
        apply Hlookup in Hx as [Hi ->]. simpl in Hs, He. simplify_eq.
        pose proof (Hstart i Hi). lia.
    + intros i j x y f [Hi ->]%Hlookup [Hj ->]%Hlookup
        (s & e & Hs & He & Hf) (s' & e' & Hs' & He' & Hf').
      simpl in *. simplify_eq.
      destruct (Nat.lt_trichotomy i j) as [Hlt|[->|Hlt]]; [|done|]; exfalso; nia.
  - intros Hempty Hsize.
    unfold AfterEffects._create_custom_tasks, Python.range,
      AfterEffects.chunk_size.
    fold frame_start frame_end.
    rewrite (proj2 (Z.leb_le _ _) Hsize).
    replace (frame_end - frame_start + 1) with 0 by lia. done.
Qed.

Lemma custom_chunks_partition_the_frame_range_witness :
  ∃ tasks,
    AfterEffects._create_custom_tasks Farm.uuid4 Priorities.low
      (AfterEffects.mk_custom_data (Some 1) (Some 120) None) = Some tasks
    ∧ ∃ x, x ∈ tasks ∧ AfterEffects.renders x 77.
Proof.
  destruct (proj1 (custom_chunks_partition_the_frame_range Farm.uuid4 Priorities.low
                     (AfterEffects.mk_custom_data (Some 1) (Some 120) None)))
    as (tasks & Hcreate & _ & _ & Hcover & _).
  - simpl. lia.
  - exists tasks. split; [exact Hcreate|]. apply Hcover. simpl. lia.
Defined.

(** ** The selection of the scheduler *)

Lemma find_task_for_worker_elem_of worker db x :
  x ∈ filter (λ job, Job.pool job ∈ Worker.pools worker
                     ∧ (Worker.capabilities worker = []
                        ∨ Job.plugin job ∈ Worker.capabilities worker))
         (order_by Database.job_le
            (Database.get_jobs_by_status JobStatus.QUEUED db
             ++ Database.get_jobs_by_status JobStatus.ACTIVE db))
      ≫= (λ job, filter (λ x, Task.status x = TaskStatus.PENDING)
                   (Database.get_tasks_by_job (Job.id job) db))
  ↔ x ∈ Database.tasks db
    ∧ Task.status x = TaskStatus.PENDING
    ∧ ∃ job, job ∈ Database.jobs db
             ∧ Job.id job = Task.job_id x
             ∧ (Job.status job = JobStatus.QUEUED ∨ Job.status job = JobStatus.ACTIVE)
             ∧ Job.pool job ∈ Worker.pools worker
             ∧ (Worker.capabilities worker = []
                ∨ Job.plugin job ∈ Worker.capabilities worker).
Proof.
  rewrite list_elem_of_bind. unfold Database.get_jobs_by_status, Database.get_tasks_by_job.
  split.
  - intros (job & Hx & Hjob).
    apply list_elem_of_filter in Hx as [Hpending Hx].
    apply elem_of_order_by, list_elem_of_filter in Hx as [Hid Hx].
    apply list_elem_of_filter in Hjob as [[Hpool Hcap] Hjob].
    apply elem_of_order_by, elem_of_app in Hjob.
    split; [done|]. split; [done|]. exists job.
    destruct Hjob as [Hjob|Hjob];
      apply elem_of_order_by, list_elem_of_filter in Hjob as [Hs Hjob]; auto 10.
  - intros (Hx & Hpending & job & Hjob & Hid & Hs & Hpool & Hcap).
    exists job. split.
    + apply list_elem_of_filter. split; [done|].
      apply elem_of_order_by, list_elem_of_filter. done.
    + apply list_elem_of_filter. split; [done|].
      apply elem_of_order_by, elem_of_app.
      destruct Hs as [Hs|Hs]; [left|right];
        apply elem_of_order_by, list_elem_of_filter; done.
Qed.

(** X18.  The selection of the scheduler's assignment path,
    _find_task_for_worker, returns only a pending Task of a queued or active
    Job whose pool is one of the Worker's and whose plugin, when the Worker
    declares capabilities, is one of them; it returns nothing exactly when
    the store holds no such Task.  _check_dependencies holds exactly when
    every id of dependent_on names a stored Job that is completed. *)
Theorem scheduler_selection_honours_capabilities (db : Database.t) :
  (∀ worker x,
     Scheduler._find_task_for_worker worker db = Some x →
     x ∈ Database.tasks db
     ∧ Task.status x = TaskStatus.PENDING
     ∧ ∃ job, job ∈ Database.jobs db
              ∧ Job.id job = Task.job_id x
              ∧ (Job.status job = JobStatus.QUEUED
                 ∨ Job.status job = JobStatus.ACTIVE)
              ∧ Job.pool job ∈ Worker.pools worker
              ∧ (Worker.capabilities worker = []
                 ∨ Job.plugin job ∈ Worker.capabilities worker))
  ∧ (∀ worker,
       Scheduler._find_task_for_worker worker db = None
       ↔ ¬ ∃ x job,
             x ∈ Database.tasks db
             ∧ Task.status x = TaskStatus.PENDING
             ∧ job ∈ Database.jobs db
             ∧ Job.id job = Task.job_id x
             ∧ (Job.status job = JobStatus.QUEUED
                ∨ Job.status job = JobStatus.ACTIVE)
             ∧ Job.pool job ∈ Worker.pools worker
             ∧ (Worker.capabilities worker = []
                ∨ Job.plugin job ∈ Worker.capabilities worker))
  ∧ (∀ job,
       Scheduler._check_dependencies job db = true
       ↔ ∀ dep_id, dep_id ∈ Job.dependent_on job →
           ∃ dep_job, Database.get_job dep_id db = Some dep_job
                      ∧ Job.status dep_job = JobStatus.COMPLETED).
Proof.
  split_and!.
  - intros worker x Hx. unfold Scheduler._find_task_for_worker in Hx.
    apply head_Some_elem_of in Hx. by apply find_task_for_worker_elem_of in Hx.
  - intros worker. unfold Scheduler._find_task_for_worker.
    rewrite head_None. split.
    + intros Hnil (x & job & Hx & Hp & Hjob & Hrest).
      assert (x ∈ @nil Task.t) as Hin; [|by apply elem_of_nil in Hin].
      rewrite <- Hnil. apply find_task_for_worker_elem_of.
      split; [done|]. split; [done|]. by exists job.
    + intros Hnone.
      destruct (_ ≫= _) as [|x l] eqn:E; [done|]. destruct Hnone.
      assert (x ∈ x :: l) as Hin by (by left). rewrite <- E in Hin.
      apply find_task_for_worker_elem_of in Hin as (? & ? & job & ?).
      exists x, job. tauto.
  - intros job. unfold Scheduler._check_dependencies.
    rewrite forallb_forall. split.
    + intros Hall dep_id Hdep. apply list_elem_of_In in Hdep.
      specialize (Hall dep_id Hdep).
      destruct (Database.get_job dep_id db) as [dep_job|]; [|done].
      exists dep_job. split; [done|]. by apply bool_decide_eq_true in Hall.
    + intros Hall dep_id Hdep. apply list_elem_of_In in Hdep.
      destruct (Hall dep_id Hdep) as (dep_job & -> & Hs).
      by apply bool_decide_eq_true.
Qed.

Lemma scheduler_selection_honours_capabilities_witness :
  ∃ x, Scheduler._find_task_for_worker Priorities.worker Priorities.store = Some x
       ∧ Task.status x = TaskStatus.PENDING.
Proof.
  destruct (Scheduler._find_task_for_worker Priorities.worker Priorities.store)
    as [x|] eqn:Hx; [|vm_compute in Hx; discriminate].
  exists x. split; [done|].
  exact (proj1 (proj2 (proj1 (scheduler_selection_honours_capabilities Priorities.store)
                         Priorities.worker x Hx))).
Defined.

(** ** Disabling a Worker *)

(** X19.  A disable request for a registered Worker sets its status to
    disabled and keeps every other column, current_task included; no Job
    and no Task is touched.  While the row is disabled a pull of the Worker
    is answered with no Task and changes nothing.  The next heartbeat of the
    Worker replaces the status by the reported one (idle when the report has
    none), and an enable request makes the Worker idle, whatever it was
    before it was disabled. *)
Theorem disabled_worker_is_skipped_until_it_reports
    (worker_id : string) (db : Database.t) (w : Worker.t) :
  Database.get_worker worker_id db = Some w →
  ∃ db1,
    Server.disable_worker worker_id db = (Server.Ok "disabled", db1)
    ∧ Database.get_worker worker_id db1
      = Some (Worker.set_status WorkerStatus.DISABLED w)
    ∧ Database.jobs db1 = Database.jobs db
    ∧ Database.tasks db1 = Database.tasks db
    ∧ (∀ now, Server.request_task worker_id now db1 = (Server.Ok None, db1))
    ∧ (∀ data now,
         ∃ w', Database.get_worker worker_id
                 (Server.worker_heartbeat worker_id data now db1).2 = Some w'
               ∧ Worker.status w'
                 = default WorkerStatus.IDLE (Database.hb_status data)
               ∧ Worker.current_task w' = Database.hb_current_task data)
    ∧ Database.get_worker worker_id (Server.enable_worker worker_id db1).2
      = Some (Worker.set_status WorkerStatus.IDLE w).
Proof.
  intros Hw. pose proof (get_worker_id _ _ _ Hw) as Hid.
  unfold Server.disable_worker. rewrite Hw.
  set (db1 := Database.update_worker _ db).
  assert (Database.get_worker worker_id db1
          = Some (Worker.set_status WorkerStatus.DISABLED w)) as Hw1.
  { unfold db1, Database.update_worker. rewrite <- Hid at 1.
    apply (upsert_worker_get (Worker.set_status WorkerStatus.DISABLED w)). }
  exists db1. split_and!; try done.
  - apply upsert_worker_frame.
  - apply upsert_worker_frame.
  - intros now. unfold Server.request_task. rewrite Hw1. by rewrite decide_True.
  - intros data now. unfold Server.worker_heartbeat. rewrite Hw1. cbn [snd].
    unfold Database.get_worker, Database.update_worker_heartbeat in *. simpl.
    rewrite (fetchone_update_where_eq (A:=Worker.t)) by done.
    eexists. split; [exact (f_equal _ Hw1)|]. done.
  - unfold Server.enable_worker. rewrite Hw1. cbn [snd].
    unfold Database.update_worker. rewrite <- Hid at 1.
    apply (upsert_worker_get (Worker.set_status WorkerStatus.IDLE
                                (Worker.set_status WorkerStatus.DISABLED w))).
Qed.

Lemma disabled_worker_is_skipped_until_it_reports_witness :
  Database.get_worker "W" Priorities.store = Some Priorities.worker
  ∧ Server.request_task "W" 5 (Server.disable_worker "W" Priorities.store).2
    = (Server.Ok None, (Server.disable_worker "W" Priorities.store).2).
Proof.
  assert (Database.get_worker "W" Priorities.store = Some Priorities.worker) as Hw.
  { vm_compute. reflexivity. }
  split; [exact Hw|].
  destruct (disabled_worker_is_skipped_until_it_reports "W" Priorities.store
              Priorities.worker Hw) as (db1 & Hdisable & _ & _ & _ & Hpull & _).
  rewrite Hdisable. apply Hpull.
Defined.

(** ** Cancelling and suspending one Task *)

Lemma user_failed_task task_id message db task :
  Database.get_task task_id db = Some task →
  ByUser.failed message task_id task db
    (Database.update_task_status task_id TaskStatus.FAILED None None None
       (Some message) (Server.release_worker task db)).
Proof.
  intros Htask.
  destruct (release_worker_frame task db) as [Hjobs Htasks].
  unfold ByUser.failed. split_and!.
  - unfold Database.get_task, Database.update_task_status. simpl.
    rewrite Htasks, (fetchone_update_where_eq (A:=Task.t)) by done.
    etrans; [exact (f_equal _ Htask)|]. by destruct task.
  - exact Hjobs.
  - intros k Hk. unfold Database.get_task, Database.update_task_status. simpl.
    by rewrite Htasks, (fetchone_update_where_ne (A:=Task.t)).
  - intros worker_id w Ha Hne Hw.
    exact (release_worker_get task db worker_id w Ha Hne Hw).
Qed.

(** X20.  A cancel request for a Task is accepted exactly when the stored
    Task is pending, assigned or running, a suspend request exactly when it
    is running; otherwise the answer is 400.  An accepted request stores the
    Task as failed with the error message "Cancelled by user" or "Suspended
    by user" and keeps its other columns, assigned_worker included; the
    Worker it was assigned to, if registered, becomes idle with no current
    Task; no other Task is touched, and no Job: the counters and the status
    of the Task's Job stay as they were. *)
Theorem cancel_task_fails_task_and_keeps_job
    (task_id : string) (db : Database.t) (task : Task.t) :
  Database.get_task task_id db = Some task →
  (Task.status task = TaskStatus.COMPLETED ∨ Task.status task = TaskStatus.FAILED →
   Server.cancel_task task_id db
   = (Server.HTTPException 400 "Cannot cancel task in current state", db))
  ∧ (¬ (Task.status task = TaskStatus.COMPLETED
        ∨ Task.status task = TaskStatus.FAILED) →
     (Server.cancel_task task_id db).1 = Server.Ok ()
     ∧ ByUser.failed "Cancelled by user" task_id task db
         (Server.cancel_task task_id db).2)
  ∧ (Task.status task = TaskStatus.RUNNING →
     (Server.suspend_task task_id db).1 = Server.Ok ()
     ∧ ByUser.failed "Suspended by user" task_id task db
         (Server.suspend_task task_id db).2)
  ∧ (Task.status task ≠ TaskStatus.RUNNING →
     Server.suspend_task task_id db
     = (Server.HTTPException 400 "Can only suspend running tasks", db)).
Proof.
  intros Htask. unfold Server.cancel_task, Server.suspend_task.
  rewrite Htask. split_and!.
  - intros Hs. rewrite decide_False; [done|].
    destruct Hs as [-> | ->]; by intros [|[|]].
  - intros Hs. rewrite decide_True by (destruct (Task.status task); tauto).
    split; [done|]. by apply user_failed_task.
  - intros Hs. rewrite decide_True by done. split; [done|]. by apply user_failed_task.
  - intros Hs. by rewrite decide_False.
Qed.

Lemma cancel_task_fails_task_and_keeps_job_witness :
  Database.get_task "R/0" Busy.store = Some Busy.task
  ∧ Database.jobs (Server.cancel_task "R/0" Busy.store).2 = Database.jobs Busy.store
  ∧ Database.get_worker "W" (Server.cancel_task "R/0" Busy.store).2
    = Some (Worker.set_current_task None
              (Worker.set_status WorkerStatus.IDLE Busy.worker)).
Proof.
  assert (Database.get_task "R/0" Busy.store = Some Busy.task) as Htask.
  { vm_compute. reflexivity. }
  split; [exact Htask|].
  destruct (proj1 (proj2 (cancel_task_fails_task_and_keeps_job "R/0" Busy.store
                            Busy.task Htask)))
    as (_ & _ & Hjobs & _ & Hworker).
  - by intros [|].
  - split; [exact Hjobs|]. apply Hworker; [reflexivity|discriminate|].
    vm_compute. reflexivity.
Defined.

(** ** Broadcasting to the WebSocket connections *)

Section Broadcast.
Context (send_raises : nat → bool).

Lemma remove_first_after_good (p l : list nat) c :
  c ∉ p → Python.remove_first c (p ++ c :: l) = p ++ l.
Proof.
  induction p as [|y p IH]; intros Hc; simpl.
  - by rewrite decide_True.
  - apply not_elem_of_cons in Hc as [Hne Hc].
    rewrite decide_False by done. by rewrite IH.
Qed.

Lemma broadcast_fold (p l : list nat) :
  (∀ c, c ∈ p → send_raises c = false) →
  foldl (λ l conn, ConnectionManager.disconnect conn l) (p ++ l)
    (filter (λ c, send_raises c = true) l)
  = p ++ filter (λ c, send_raises c = false) l.
Proof.
  revert p. induction l as [|c l IH]; intros p Hp; [done|].
  rewrite !filter_cons. destruct (send_raises c) eqn:Hc.
  - rewrite decide_True, decide_False by done. simpl.
    unfold ConnectionManager.disconnect at 2.
    rewrite decide_True by (apply elem_of_app; right; by left).
    rewrite remove_first_after_good; [by apply IH|].
    intros Hin. apply Hp in Hin. congruence.
  - rewrite decide_False, decide_True by done.
    replace (p ++ c :: l) with ((p ++ [c]) ++ l) by (by rewrite <- app_assoc).
    rewrite IH; [by rewrite <- app_assoc|].
    intros c' [Hc'|Hc']%elem_of_app; [by apply Hp|].
    by apply list_elem_of_singleton in Hc' as ->.
Qed.

End Broadcast.

(** X21.  A broadcast drops exactly the connections whose send raised, once
    for each time they are listed, and keeps the others in their order;
    the message went to the connections that are kept.  Disconnecting a
    WebSocket that is not listed changes nothing, and connecting one that is
    not listed and disconnecting it again gives the list back. *)
Theorem broadcast_drops_the_connections_that_failed
    (send_raises : nat → bool) (active_connections : ConnectionManager.t) :
  (ConnectionManager.broadcast send_raises active_connections).2
  = filter (λ c, send_raises c = false) active_connections
  ∧ (ConnectionManager.broadcast send_raises active_connections).1
    = (ConnectionManager.broadcast send_raises active_connections).2
  ∧ (∀ websocket,
       websocket ∉ active_connections →
       ConnectionManager.disconnect websocket active_connections = active_connections
       ∧ ConnectionManager.disconnect websocket
           (ConnectionManager.connect websocket active_connections)
         = active_connections).
Proof.
  assert ((ConnectionManager.broadcast send_raises active_connections).2
          = filter (λ c, send_raises c = false) active_connections) as Hleft.
  { unfold ConnectionManager.broadcast. simpl.
    apply (broadcast_fold send_raises [] active_connections).
    intros c Hc. by apply elem_of_nil in Hc. }
  split; [exact Hleft|]. split; [by rewrite Hleft|].
  intros websocket Hnew. unfold ConnectionManager.disconnect, ConnectionManager.connect.
  split; [by rewrite decide_False|].
  rewrite decide_True by (apply elem_of_app; right; by left).
  rewrite remove_first_after_good by done. by rewrite app_nil_r.
Qed.

Lemma broadcast_drops_the_connections_that_failed_witness :
  ConnectionManager.disconnect 7%nat
    (ConnectionManager.connect 7%nat [1; 2; 3]%nat) = [1; 2; 3]%nat.
Proof.
  apply (broadcast_drops_the_connections_that_failed (λ _, false) [1; 2; 3]%nat).
  intros Hin. repeat (apply elem_of_cons in Hin as [Hin|Hin]; [discriminate|]).
  by apply elem_of_nil in Hin.
Defined.

(** ** Unsubscribing from the event bus *)




(** ** Priority and dispatch *)

Lemma priority_columns p j :
  Database.job_columns (Job.set_priority p j) j = Job.set_priority p j.
Proof. by destruct j. Qed.

(** X23.  A priority request for a stored Job is accepted exactly when the
    priority is between 0 and 100; it rewrites the priority of that Job and
    nothing else.  When the new priority is above the priority of every
    other Job and the Job has a pending Task that an idle Worker may take
    (Job queued or active, pool among the Worker's), the next pull of that
    Worker returns a Task of this Job. *)
Theorem raised_priority_is_dispatched_first
    (job_id : string) (priority : Z) (db : Database.t) (j : Job.t) :
  Database.get_job job_id db = Some j →
  (¬ (0 ≤ priority ≤ 100) →
   Server.update_job_priority job_id priority db
   = (Server.HTTPException 400 "Priority must be 0-100", db))
  ∧ (0 ≤ priority ≤ 100 →
     ∃ db',
       Server.update_job_priority job_id priority db = (Server.Ok "updated", db')
       ∧ Database.get_job job_id db' = Some (Job.set_priority priority j)
       ∧ (∀ k, k ≠ job_id → Database.get_job k db' = Database.get_job k db)
       ∧ Database.tasks db' = Database.tasks db
       ∧ Database.workers db' = Database.workers db
       ∧ ∀ worker_id worker x now,
           Database.get_worker worker_id db = Some worker →
           Worker.status worker = WorkerStatus.IDLE →
           x ∈ Database.tasks db → Task.job_id x = job_id →
           Database.dispatchable worker (x, j) →
           (∀ k j', k ≠ job_id → Database.get_job k db = Some j' →
                    Job.priority j' < priority) →
           ∃ task job db'',
             Server.request_task worker_id now db'
             = (Server.Ok (Some (task, job)), db'')
             ∧ Task.job_id task = job_id).
Proof.
  intros Hj. unfold Server.update_job_priority. rewrite Hj.
  pose proof (get_job_id _ _ _ Hj) as Hid. split.
  - intros Hp. destruct (Z.leb_spec 0 priority), (Z.leb_spec priority 100);
      simpl; try done. lia.
  - intros [Hp0 Hp100].
    rewrite (proj2 (Z.leb_le _ _) Hp0), (proj2 (Z.leb_le _ _) Hp100). simpl.
    set (db' := Database.update_job (Job.set_priority priority j) db).
    assert (Database.get_job job_id db' = Some (Job.set_priority priority j)) as Hj'.
    { unfold db', Database.get_job, Database.update_job. simpl. rewrite Hid.
      rewrite (fetchone_update_where_eq (A:=Job.t)) by done.
      etrans; [exact (f_equal _ Hj)|]. simpl. by rewrite priority_columns. }
    assert (∀ k, k ≠ job_id → Database.get_job k db' = Database.get_job k db)
      as Hothers.
    { intros k Hk. unfold db', Database.get_job, Database.update_job. simpl.
      rewrite Hid. by rewrite (fetchone_update_where_ne (A:=Job.t)). }
    exists db'. split_and!; try done.
    intros worker_id worker x now Hw Hidle Hx Hxj (Hpending & Hstatus & Hpool) Hlow.
    assert (Database.dispatchable worker (x, Job.set_priority priority j)) as Hd
      by done.
    unfold Server.request_task.
    change (Database.get_worker worker_id db') with (Database.get_worker worker_id db).
    rewrite Hw, decide_False by (by intros ?).
    destruct (Database.get_next_task_for_worker worker db') as [task0|] eqn:Hnext.
    + apply get_next_task_for_worker_first in Hnext
        as (j0 & Hin & Hj0 & _ & Hfirst).
      assert (Task.job_id task0 = job_id) as Hjob.
      { destruct (decide (Task.job_id task0 = job_id)) as [|Hne]; [done|].
        rewrite (Hothers _ Hne) in Hj0.
        pose proof (Hlow _ _ Hne Hj0) as Hlt.
        specialize (Hfirst x (Job.set_priority priority j) Hx).
        rewrite Hxj in Hfirst. specialize (Hfirst Hj' Hd).
        unfold Order.dispatch_before in Hfirst. simpl in Hfirst. lia. }
      repeat case_match; eexists _, _, _; (split; [reflexivity|exact Hjob]).
    + exfalso.
      apply (proj1 (get_next_task_for_worker_None worker db') Hnext x
               (Job.set_priority priority j)); [done| |done].
      by rewrite Hxj.
Qed.

Lemma raised_priority_is_dispatched_first_witness :
  Database.get_job "L" Priorities.store = Some Priorities.low
  ∧ ∃ task job db'',
      Server.request_task "W" 5 (Server.update_job_priority "L" 95 Priorities.store).2
      = (Server.Ok (Some (task, job)), db'')
      ∧ Task.job_id task = "L".
Proof.
  assert (Database.get_job "L" Priorities.store = Some Priorities.low) as Hj.
  { vm_compute. reflexivity. }
  split; [exact Hj|].
  destruct (proj2 (raised_priority_is_dispatched_first "L" 95 Priorities.store
                     Priorities.low Hj)) as (db' & Hupdate & _ & _ & _ & _ & Hpull);
    [lia|].
  rewrite Hupdate. simpl.
  apply (Hpull "W" Priorities.worker (Farm.chunk Priorities.low 0) 5).
  - vm_compute. reflexivity.
  - reflexivity.
  - vm_compute. left.
  - reflexivity.
  - split; [reflexivity|]. split; [by left|]. vm_compute. left.
  - intros k j' Hk Hj'. unfold Database.get_job in Hj'. vm_compute in Hj'.
    repeat (case_match; simplify_eq); vm_compute; done.
Defined.

(** ** Start and progress reports *)

(** X24.  A start report and a progress report are always answered OK.
    For a Task id that is not stored they change nothing.  For a stored Task
    the start report sets the status to running and started_at to the time of
    the report whatever the status was (also completed or failed), and the
    progress report stores the reported number as it is; both keep the other
    columns of the Task, among them assigned_worker, and touch no other Task,
    no Job and no Worker. *)
Theorem start_report_makes_task_running
    (task_id : string) (now : datetime) (progress : Q) (db : Database.t) :
  (Server.task_started task_id now db).1 = Server.Ok ()
  ∧ (Server.task_progress task_id progress db).1 = Server.Ok ()
  ∧ (Database.get_task task_id db = None →
     (Server.task_started task_id now db).2 = db
     ∧ (Server.task_progress task_id progress db).2 = db)
  ∧ (∀ task,
       Database.get_task task_id db = Some task →
       Database.get_task task_id (Server.task_started task_id now db).2
       = Some (Task.set_started_at (Some now)
                 (Task.set_status TaskStatus.RUNNING task))
       ∧ Database.get_task task_id (Server.task_progress task_id progress db).2
         = Some (Task.set_progress progress task))
  ∧ (∀ k, k ≠ task_id →
       Database.get_task k (Server.task_started task_id now db).2
       = Database.get_task k db
       ∧ Database.get_task k (Server.task_progress task_id progress db).2
         = Database.get_task k db)
  ∧ Database.jobs (Server.task_started task_id now db).2 = Database.jobs db
  ∧ Database.workers (Server.task_started task_id now db).2 = Database.workers db
  ∧ Database.jobs (Server.task_progress task_id progress db).2 = Database.jobs db
  ∧ Database.workers (Server.task_progress task_id progress db).2
    = Database.workers db.
Proof.
  unfold Server.task_started, Server.task_progress, Database.update_task_status,
    Database.update_task_progress, Database.get_task.
  split_and!; try done.
  - intros Hnone. destruct db as [jobs tasks workers]. simpl in *.
    unfold Database.with_tasks. simpl.
    by rewrite !(update_where_absent (A:=Task.t)).
  - intros task Htask. simpl.
    rewrite !(fetchone_update_where_eq (A:=Task.t)) by done.
    split; (etrans; [exact (f_equal _ Htask)|]); [by destruct task|done].
  - intros k Hk. simpl. by rewrite !(fetchone_update_where_ne (A:=Task.t)).
Qed.

Lemma start_report_makes_task_running_witness :
  ∃ x, Database.get_task "E/0" Finished.store = Some x
       ∧ Task.status x = TaskStatus.COMPLETED
       ∧ Database.get_task "E/0" (Server.task_started "E/0" 9 Finished.store).2
         = Some (Task.set_started_at (Some 9)
                   (Task.set_status TaskStatus.RUNNING x)).
Proof.
  destruct (Database.get_task "E/0" Finished.store) as [x|] eqn:Hx;
    [|vm_compute in Hx; discriminate].
  exists x. split; [done|]. split.
  - vm_compute in Hx. by injection Hx as <-.
  - exact (proj1 (proj1 (proj2 (proj2 (proj2
             (start_report_makes_task_running "E/0" 9 0%Q Finished.store))))
             x Hx)).
Defined.

(** ** Deleting a Worker *)

(** X25.  A delete request for a registered Worker is accepted exactly when
    the Worker is offline or disabled; otherwise it is refused with 400.
    An accepted delete removes the Worker's row and nothing else: Tasks that
    name the Worker in assigned_worker keep naming it.  Afterwards a
    heartbeat and a pull of that Worker are answered 404 and change nothing,
    until the Worker registers again, which stores it as idle. *)
Theorem deleted_worker_is_unknown_until_it_registers
    (worker_id : string) (db : Database.t) (w : Worker.t) :
  Database.get_worker worker_id db = Some w →
  (¬ (Worker.status w = WorkerStatus.OFFLINE
      ∨ Worker.status w = WorkerStatus.DISABLED) →
   Server.delete_worker worker_id db
   = (Server.HTTPException 400 "Can only delete offline or disabled workers", db))
  ∧ (Worker.status w = WorkerStatus.OFFLINE
     ∨ Worker.status w = WorkerStatus.DISABLED →
     ∃ db',
       Server.delete_worker worker_id db = (Server.Ok "deleted", db')
       ∧ Database.get_worker worker_id db' = None
       ∧ (∀ k, k ≠ worker_id → Database.get_worker k db' = Database.get_worker k db)
       ∧ Database.jobs db' = Database.jobs db
       ∧ Database.tasks db' = Database.tasks db
       ∧ (∀ data now,
            Server.worker_heartbeat worker_id data now db'
            = (Server.HTTPException 404 "Worker not found, please re-register", db'))
       ∧ (∀ now,
            Server.request_task worker_id now db'
            = (Server.HTTPException 404 "Worker not found", db'))
       ∧ (∀ data now,
            Server.reg_id data = worker_id →
            ∃ w', Database.get_worker worker_id
                    (Server.register_worker data now db').2 = Some w'
                  ∧ Worker.status w' = WorkerStatus.IDLE
                  ∧ Worker.current_task w' = None
                  ∧ Worker.last_heartbeat w' = Some now)).
Proof.
  intros Hw. unfold Server.delete_worker. rewrite Hw. split; intros Hs.
  - by rewrite decide_False.
  - rewrite decide_True by done.
    set (db' := Database.delete_worker worker_id db).
    assert (Database.get_worker worker_id db' = None) as Hnone.
    { unfold db', Database.get_worker, Database.delete_worker. simpl.
      rewrite (fetchone_delete_where (A:=Worker.t)). by rewrite decide_True. }
    exists db'. split_and!; try done.
    + intros k Hk. unfold db', Database.get_worker, Database.delete_worker. simpl.
      rewrite (fetchone_delete_where (A:=Worker.t)). by rewrite decide_False.
    + intros data now. unfold Server.worker_heartbeat. by rewrite Hnone.
    + intros now. unfold Server.request_task. by rewrite Hnone.
    + intros data now <-. unfold Server.register_worker. cbn [snd].
      match goal with
      | |- context [Database.upsert_worker ?r _] =>
          exists r; split; [exact (upsert_worker_get r db')|done]
      end.
Qed.

Lemma deleted_worker_is_unknown_until_it_registers_witness :
  ∃ w, Database.get_worker "W" (Server.disable_worker "W" Priorities.store).2 = Some w
       ∧ Server.request_task "W" 7
           (Server.delete_worker "W" (Server.disable_worker "W" Priorities.store).2).2
         = (Server.HTTPException 404 "Worker not found",
            (Server.delete_worker "W"
               (Server.disable_worker "W" Priorities.store).2).2).
Proof.
  destruct (Database.get_worker "W" (Server.disable_worker "W" Priorities.store).2)
    as [w|] eqn:Hw; [|vm_compute in Hw; discriminate].
  assert (Worker.status w = WorkerStatus.DISABLED) as Hs.
  { vm_compute in Hw. by injection Hw as <-. }
  exists w. split; [done|].
  destruct (proj2 (deleted_worker_is_unknown_until_it_registers "W" _ w Hw)
              (or_intror Hs)) as (db' & Hdelete & _ & _ & _ & _ & _ & Hpull & _).
  rewrite Hdelete. apply Hpull.
Defined.

(** ** The plugin registry and submission *)

(** X26.  After a plugin is registered it is found under its name, in
    place of a plugin registered under that name before, and the other names
    are as before; after a name is unregistered no plugin is found under it
    and the other names are as before, and unregistering a name that is not
    registered changes nothing.  A submission is refused with 400
    "Unknown plugin: <name>" exactly when the registry holds no plugin under
    the plugin name of the submission. *)
Theorem registry_decides_unknown_plugin (plugins : registry) :
  (∀ plugin,
     PluginRegistry.get (RenderPlugin.name plugin)
       (PluginRegistry.register plugin plugins) = Some plugin
     ∧ ∀ name, name ≠ RenderPlugin.name plugin →
         PluginRegistry.get name (PluginRegistry.register plugin plugins)
         = PluginRegistry.get name plugins)
  ∧ (∀ name,
       PluginRegistry.get name (PluginRegistry.unregister name plugins) = None
       ∧ (PluginRegistry.get name plugins = None →
          PluginRegistry.unregister name plugins = plugins)
       ∧ ∀ name', name' ≠ name →
           PluginRegistry.get name' (PluginRegistry.unregister name plugins)
           = PluginRegistry.get name' plugins)
  ∧ (∀ submission new_id now db,
       (Server.submit_job plugins submission new_id now db).1
       = Server.HTTPException 400
           ("Unknown plugin: " +:+ Server.sub_plugin submission)
       ↔ PluginRegistry.get (Server.sub_plugin submission) plugins = None).
Proof.
  unfold PluginRegistry.get, PluginRegistry.register, PluginRegistry.unregister.
  split_and!.
  - intros plugin. split; [apply lookup_insert_eq|].
    intros name Hne. by apply lookup_insert_ne.
  - intros name. split_and!.
    + destruct (plugins !! name) eqn:E; [apply lookup_delete_eq|done].
    + by intros ->.
    + intros name' Hne. destruct (plugins !! name); [|done].
      by apply lookup_delete_ne.
  - intros submission new_id now db. unfold Server.submit_job. split.
    + destruct (plugins !! Server.sub_plugin submission) as [plugin|]; [|done].
      repeat case_match; simpl; intros [=].
    + by intros ->.
Qed.

Lemma registry_decides_unknown_plugin_witness :
  (Server.submit_job (PluginRegistry.unregister "ffmpeg" Farm.plugins)
     (Farm.submission "E" "ffmpeg" []) "E" 1 Database.empty).1
  = Server.HTTPException 400 "Unknown plugin: ffmpeg".
Proof.
  apply (proj2 (proj2 (proj2 (registry_decides_unknown_plugin
                                (PluginRegistry.unregister "ffmpeg" Farm.plugins)))
                  (Farm.submission "E" "ffmpeg" []) "E" 1 Database.empty)).
  apply (proj1 (proj1 (proj2 (registry_decides_unknown_plugin Farm.plugins)) "ffmpeg")).
Defined.

(** ** When follow-up Jobs are created *)

Section FollowUpsNeedActiveJob.
Context (plugins : registry) (uuid4 : nat → string) (now : datetime).

Lemma update_job_progress_body_job_ids st j :
  (Database.get_tasks_by_job (Job.id j) st.2 ≠ [] →
   Scheduler.all_completed (Database.get_tasks_by_job (Job.id j) st.2) = false) →
  Job.id <$> Database.jobs (Scheduler._update_job_progress_body plugins uuid4 now st j).2
  = Job.id <$> Database.jobs st.2.
Proof.
  intros Hnot. unfold Scheduler._update_job_progress_body.
  destruct (Database.get_tasks_by_job (Job.id j) st.2) as [|x xs]; [done|].
  rewrite Hnot by done. cbn [snd]. unfold Database.update_job. simpl.
  by apply (keys_update_where_at (A:=Job.t)).
Qed.

Lemma update_job_progress_fold_job_ids l st :
  (∀ j, j ∈ l →
        Database.get_tasks_by_job (Job.id j) st.2 ≠ [] →
        Scheduler.all_completed (Database.get_tasks_by_job (Job.id j) st.2) = false) →
  Job.id <$> Database.jobs
               (foldl (Scheduler._update_job_progress_body plugins uuid4 now) st l).2
  = Job.id <$> Database.jobs st.2.
Proof.
  revert st. induction l as [|j l IH]; intros st Hl; simpl; [done|].
  rewrite IH.
  - apply update_job_progress_body_job_ids. apply Hl. by left.
  - intros j' Hj'.
    rewrite (get_tasks_by_job_tasks _ st.2)
      by apply update_job_progress_body_tasks.
    apply Hl. by right.
Qed.

End FollowUpsNeedActiveJob.

(** X27.  The aggregation pass appends follow-up Jobs only on behalf of a
    Job that is active at the start of the pass and has all its Tasks
    completed: when every active Job has no Task, or a Task that is failed,
    or one that is neither completed nor failed, the pass keeps the Job
    ids of the store as they are.  In particular a Job that the last
    complete report already stored as completed gets no follow-up Job. *)
Theorem follow_ups_need_an_active_job
    (plugins : registry) (uuid4 : nat → string) (now : datetime) (db : Database.t) :
  (∀ j, j ∈ Database.jobs db → Job.status j = JobStatus.ACTIVE →
        Database.get_tasks_by_job (Job.id j) db = []
        ∨ Scheduler.all_completed (Database.get_tasks_by_job (Job.id j) db) = false) →
  Job.id <$> Database.jobs (Scheduler._update_job_progress plugins uuid4 now db)
  = Job.id <$> Database.jobs db.
Proof.
  intros Hdb. unfold Scheduler._update_job_progress.
  apply (update_job_progress_fold_job_ids plugins uuid4 now _ (0%nat, db)).
  intros j [Hactive Hj]%snapshot_elem_of Hne. simpl in *.
  by destruct (Hdb j Hj Hactive).
Qed.

Lemma follow_ups_need_an_active_job_witness :
  (∃ j, Database.get_job "R" Reported.store = Some j
        ∧ Job.status j = JobStatus.COMPLETED
        ∧ Job.plugin j = "aftereffects")
  ∧ Job.id <$> Database.jobs
                 (Scheduler._update_job_progress Farm.plugins Farm.uuid4 9
                    Reported.store)
    = ["R"].
Proof.
  split.
  - eexists. split; [vm_compute; reflexivity|]. split; reflexivity.
  - rewrite (follow_ups_need_an_active_job Farm.plugins Farm.uuid4 9 Reported.store).
    + vm_compute. reflexivity.
    + intros j Hj Hactive. exfalso. vm_compute in Hj.
      apply list_elem_of_singleton in Hj. subst j. discriminate.
Defined.

(** ** The progress written by a report *)

Lemma completed_percent_bounds c t :
  0 ≤ c ≤ t →
  (0 <= Server.completed_percent c t)%Q ∧ (Server.completed_percent c t <= 100)%Q.
Proof.
  intros [Hc Ht]. unfold Server.completed_percent.
  destruct (Z.ltb_spec 0 t) as [Hpos|Hle]; [|split; [apply Qle_refl|done]].
  assert (0 < inject_Z t)%Q as Hpos' by (unfold Qlt; simpl; lia).
  assert (0 <= inject_Z c / inject_Z t)%Q as H0.
  { apply Qle_shift_div_l; [done|]. unfold Qle. simpl. lia. }
  assert (inject_Z c / inject_Z t <= 1)%Q as H1.
  { apply Qle_shift_div_r; [done|]. unfold Qle. simpl. lia. }
  split.
  - apply Qmult_le_0_compat; [done|]. unfold Qle. simpl. lia.
  - apply Qle_trans with (1 * 100)%Q; [|unfold Qle; simpl; lia].
    apply Qmult_le_compat_r; [done|]. unfold Qle. simpl. lia.
Qed.

Lemma reported_progress task db2 job (job2 : Job.t) :
  Counters.task_totals db2 →
  Database.get_job (Task.job_id task) db2 = Some job →
  Job.progress job2
  = Server.completed_percent
      (count_status TaskStatus.COMPLETED
         (Database.get_tasks_by_job (Task.job_id task) db2))
      (Job.task_total job) →
  ∃ j', Database.get_job (Task.job_id task) (Database.update_job job2 db2) = Some j'
        ∧ (Job.id job2 = Task.job_id task →
           Job.progress j' = Job.progress job2
           ∧ (0 <= Job.progress job2)%Q ∧ (Job.progress job2 <= 100)%Q).
Proof.
  intros Htotals Hjob Hprogress.
  destruct (decide (Job.id job2 = Task.job_id task)) as [Hid|Hid].
  - exists (Database.job_columns job2 job). split.
    + unfold Database.get_job, Database.update_job in *. simpl. rewrite Hid.
      rewrite (fetchone_update_where_eq (A:=Job.t)) by done.
      exact (f_equal _ Hjob).
    + intros _. split; [done|]. rewrite Hprogress.
      apply completed_percent_bounds.
      rewrite (task_totals_fetched _ _ _ Htotals Hjob), (get_job_id _ _ _ Hjob).
      rewrite <- length_get_tasks_by_job.
      pose proof (count_status_nonneg TaskStatus.COMPLETED
                    (Database.get_tasks_by_job (Task.job_id task) db2)).
      pose proof (count_status_nonneg TaskStatus.FAILED
                    (Database.get_tasks_by_job (Task.job_id task) db2)).
      pose proof (count_status_disjoint
                    (Database.get_tasks_by_job (Task.job_id task) db2)).
      lia.
  - exists job. split; [|done].
    unfold Database.get_job, Database.update_job in *. simpl.
    by rewrite (fetchone_update_where_ne (A:=Job.t)).
Qed.

(** X28.  In a store where task_total is the number of Tasks of each Job,
    the progress that a complete or a fail report writes to the Job of the
    Task is between 0 and 100. *)
Theorem reported_progress_is_a_percentage
    (task_id : string) (exit_code : Z) (error_message : option string)
    (now : datetime) (db : Database.t) (task : Task.t) (j : Job.t) :
  Counters.task_totals db →
  Database.get_task task_id db = Some task →
  Database.get_job (Task.job_id task) db = Some j →
  (∃ j', Database.get_job (Task.job_id task)
           (Server.task_completed task_id exit_code now db).2 = Some j'
         ∧ (0 <= Job.progress j')%Q ∧ (Job.progress j' <= 100)%Q)
  ∧ (∃ j', Database.get_job (Task.job_id task)
             (Server.task_failed task_id exit_code error_message now db).2 = Some j'
           ∧ (0 <= Job.progress j')%Q ∧ (Job.progress j' <= 100)%Q).
Proof.
  intros Htotals Htask Hjob.
  pose proof (get_job_id _ _ _ Hjob) as Hid.
  split.
  - unfold Server.task_completed. rewrite Htask.
    set (db2 := Server.release_worker task _).
    assert (Counters.task_totals db2) as Htotals2.
    { by apply task_totals_release_worker, task_totals_update_task_status. }
    assert (Database.get_job (Task.job_id task) db2 = Some j) as Hjob2.
    { unfold Database.get_job, db2.
      rewrite (proj1 (release_worker_frame _ _)). exact Hjob. }
    rewrite Hjob2. cbn [snd].
    set (job2 := if _ <=? _ then _ else _).
    destruct (reported_progress task db2 j job2 Htotals2 Hjob2) as (j' & Hj' & Hp).
    { unfold job2. by case_match. }
    exists j'. split; [exact Hj'|].
    destruct Hp as (-> & ? & ?); [|done]. unfold job2. by case_match.
  - unfold Server.task_failed. rewrite Htask.
    set (db2 := Server.release_worker task _).
    assert (Counters.task_totals db2) as Htotals2.
    { by apply task_totals_release_worker, task_totals_update_task_status. }
    assert (Database.get_job (Task.job_id task) db2 = Some j) as Hjob2.
    { unfold Database.get_job, db2.
      rewrite (proj1 (release_worker_frame _ _)). exact Hjob. }
    rewrite Hjob2. cbn [snd].
    set (job2 := if _ <=? _ then _ else _).
    destruct (reported_progress task db2 j job2 Htotals2 Hjob2) as (j' & Hj' & Hp).
    { unfold job2. by case_match. }
    exists j'. split; [exact Hj'|].
    destruct Hp as (-> & ? & ?); [|done]. unfold job2. by case_match.
Qed.

Lemma reported_progress_is_a_percentage_witness :
  Counters.task_totals Busy.store
  ∧ ∃ j', Database.get_job "R" (Server.task_completed "R/0" 0 5 Busy.store).2 = Some j'
          ∧ (0 <= Job.progress j')%Q ∧ (Job.progress j' <= 100)%Q.
Proof.
  assert (Counters.task_totals Busy.store) as Htotals.
  { intros j Hj. vm_compute in Hj. apply list_elem_of_singleton in Hj. by subst j. }
  split; [exact Htotals|].
  apply (proj1 (reported_progress_is_a_percentage "R/0" 0 None 5 Busy.store
                  Busy.task Busy.job Htotals eq_refl eq_refl)).
Defined.

(** ** The progress parsed from the renderer's output *)

Lemma percent_normal a fs t :
  0 < t →
  (AfterEffects.percent a fs t == (100 * (a - fs + 1)) # (Z.to_pos t))%Q.
Proof.
  intros Ht. unfold AfterEffects.percent.
  destruct t as [|p|p]; try lia.
  unfold Qeq, Qdiv, Qmult, Qinv, inject_Z. simpl. lia.
Qed.

Lemma percent_le a b fs t :
  0 < t → a ≤ b → (AfterEffects.percent a fs t <= AfterEffects.percent b fs t)%Q.
Proof.
  intros Ht Hab. rewrite !percent_normal by done.
  unfold Qle. simpl. nia.
Qed.

Lemma percent_sign a fs t :
  0 < t →
  (fs - 1 ≤ a → (0 <= AfterEffects.percent a fs t)%Q)
  ∧ (a < fs - 1 → (AfterEffects.percent a fs t < 0)%Q)
  ∧ (fs + t - 1 ≤ a → (100 <= AfterEffects.percent a fs t)%Q).
Proof.
  intros Ht. rewrite !percent_normal by done.
  unfold Qle, Qlt. simpl. rewrite Z2Pos.id by done. split_and!; intros; nia.
Qed.

(** X29.  For a Task with a frame range that is not empty and a line in
    which a frame number is found, the progress parsed by the After Effects
    plugin lies between 0 and 100, and the progress parsed by the agent is
    at most 100; both grow with the frame number and are 100 from the last
    frame of the Task on.  From the frame before the first one on the two
    agree; below it the plugin gives 0 and the agent a negative number.
    Without a frame range, or with an empty one, neither gives a
    progress. *)
Theorem parsed_progress_is_clamped
    (current_frame : Z) (elapsed : bool) (task : Task.t) (frame_start frame_end : Z) :
  Task.frame_start task = Some frame_start →
  Task.frame_end task = Some frame_end →
  (frame_end < frame_start →
   AfterEffects.parse_progress (Some current_frame) elapsed task = None
   ∧ WorkerAgent._parse_progress "aftereffects" (Some current_frame) task = None)
  ∧ (frame_start ≤ frame_end →
     ∃ p q,
       AfterEffects.parse_progress (Some current_frame) elapsed task = Some p
       ∧ WorkerAgent._parse_progress "aftereffects" (Some current_frame) task = Some q
       ∧ (0 <= p)%Q ∧ (p <= 100)%Q ∧ (q <= 100)%Q
       ∧ (frame_start - 1 ≤ current_frame → (p == q)%Q)
       ∧ (current_frame < frame_start - 1 → (p == 0)%Q ∧ (q < 0)%Q)
       ∧ (frame_end ≤ current_frame → (p == 100)%Q ∧ (q == 100)%Q)
       ∧ ∀ later p' q',
           current_frame ≤ later →
           AfterEffects.parse_progress (Some later) elapsed task = Some p' →
           WorkerAgent._parse_progress "aftereffects" (Some later) task = Some q' →
           (p <= p')%Q ∧ (q <= q')%Q).
Proof.
  intros Hs He. unfold AfterEffects.parse_progress, WorkerAgent._parse_progress.
  rewrite Hs, He, decide_True by (by left). split.
  - intros Hlt. by rewrite (proj2 (Z.ltb_ge 0 (frame_end - frame_start + 1))) by lia.
  - intros Hle.
    assert (0 < frame_end - frame_start + 1) as Ht by lia.
    rewrite (proj2 (Z.ltb_lt _ _) Ht).
    destruct (percent_sign current_frame frame_start _ Ht) as (Hpos & Hneg & Htop).
    set (x := AfterEffects.percent current_frame frame_start
                (frame_end - frame_start + 1)) in *.
    eexists _, _. split; [reflexivity|]. split; [reflexivity|].
    assert (0 <= 100)%Q as H100 by (unfold Qle; simpl; lia).
    split_and!.
    + apply Q.min_glb; [done|]. apply Q.le_max_l.
    + apply Q.le_min_l.
    + apply Q.le_min_l.
    + intros Hc. by rewrite (Q.max_r 0 x) by auto.
    + intros Hc. specialize (Hneg Hc). split.
      * rewrite (Q.max_l 0 x) by (by apply Qlt_le_weak).
        by apply Q.min_r.
      * eapply Qle_lt_trans; [apply Q.le_min_r|done].
    + intros Hc. assert (100 <= x)%Q as Hx by (apply Htop; lia).
      assert (0 <= x)%Q as Hx0 by (by apply Qle_trans with 100%Q).
      rewrite (Q.max_r 0 x) by done. split; by apply Q.min_l.
    + intros later p' q' Hlater [= <-] [= <-].
      pose proof (percent_le current_frame later frame_start _ Ht Hlater) as Hmono.
      fold x in Hmono. split.
      * apply Q.min_le_compat; [apply Qle_refl|].
        by apply Q.max_le_compat; [apply Qle_refl|].
      * by apply Q.min_le_compat; [apply Qle_refl|].
Qed.

Lemma parsed_progress_is_clamped_witness :
  ∃ p q,
    AfterEffects.parse_progress (Some 3) false
      (Task.mk "T" "J" 0 TaskStatus.RUNNING 0%Q [] None [] (Some 10) (Some 19) []
         None None None None None None) = Some p
    ∧ WorkerAgent._parse_progress "aftereffects" (Some 3)
        (Task.mk "T" "J" 0 TaskStatus.RUNNING 0%Q [] None [] (Some 10) (Some 19) []
           None None None None None None) = Some q
    ∧ (p == 0)%Q ∧ (q < 0)%Q.
Proof.
  destruct (proj2 (parsed_progress_is_clamped 3 false
                     (Task.mk "T" "J" 0 TaskStatus.RUNNING 0%Q [] None [] (Some 10)
                        (Some 19) [] None None None None None None)
                     10 19 eq_refl eq_refl))
    as (p & q & Hp & Hq & _ & _ & _ & _ & Hbelow & _); [lia|].
  exists p, q. split; [exact Hp|]. split; [exact Hq|]. apply Hbelow. lia.
Defined.
